(** * Model versioning helper of the MLOps platform

    A shallow embedding of [ModelVersioning] (src/api/main.py, with the
    older copy in src/versioning/model_versioning.py) together with the
    parts of the Python runtime it calls: [hashlib.sha256], [os.path],
    [os.makedirs], [os.listdir], [shutil.copy2], [shutil.rmtree],
    [datetime.utcnow], [sorted] and the comparison of JSON values.

    The methods are functions on a world made of the directory tree and the
    system clock; an exception is a result of its own. What [print] writes
    is not part of the world. *)

From Stdlib Require Import ZArith Strings.Byte Ascii String List Lia Sorted Permutation.
From stdpp Require Import gmap strings list sorting.

#[local] Set Warnings "-register-all".

Local Open Scope string_scope.
Local Open Scope Z_scope.
Local Open Scope list_scope.

(** ** hashlib.sha256 *)

Module SHA256.

Definition w32 (x : Z) : Z := x mod 2 ^ 32.

Definition add32 (x y : Z) : Z := w32 (x + y).

Definition rotr (n x : Z) : Z :=
  Z.lor (Z.shiftr x n) (w32 (Z.shiftl x (32 - n))).

Definition ch (x y z : Z) : Z :=
  Z.lxor (Z.land x y) (Z.land (w32 (Z.lnot x)) z).

Definition maj (x y z : Z) : Z :=
  Z.lxor (Z.lxor (Z.land x y) (Z.land x z)) (Z.land y z).

Definition bsig0 (x : Z) : Z := Z.lxor (Z.lxor (rotr 2 x) (rotr 13 x)) (rotr 22 x).
Definition bsig1 (x : Z) : Z := Z.lxor (Z.lxor (rotr 6 x) (rotr 11 x)) (rotr 25 x).
Definition ssig0 (x : Z) : Z := Z.lxor (Z.lxor (rotr 7 x) (rotr 18 x)) (Z.shiftr x 3).
Definition ssig1 (x : Z) : Z := Z.lxor (Z.lxor (rotr 17 x) (rotr 19 x)) (Z.shiftr x 10).

(** The round constants: the first 32 bits of the fractional parts of the
    cube roots of the first 64 primes. *)
Definition K : list Z :=
  [
    1116352408; 1899447441; 3049323471; 3921009573;
    961987163; 1508970993; 2453635748; 2870763221;
    3624381080; 310598401; 607225278; 1426881987;
    1925078388; 2162078206; 2614888103; 3248222580;
    3835390401; 4022224774; 264347078; 604807628;
    770255983; 1249150122; 1555081692; 1996064986;
    2554220882; 2821834349; 2952996808; 3210313671;
    3336571891; 3584528711; 113926993; 338241895;
    666307205; 773529912; 1294757372; 1396182291;
    1695183700; 1986661051; 2177026350; 2456956037;
    2730485921; 2820302411; 3259730800; 3345764771;
    3516065817; 3600352804; 4094571909; 275423344;
    430227734; 506948616; 659060556; 883997877;
    958139571; 1322822218; 1537002063; 1747873779;
    1955562222; 2024104815; 2227730452; 2361852424;
    2428436474; 2756734187; 3204031479; 3329325298 ].

(** The eight working words a..h. *)
Record state := State {
  sa : Z; sb : Z; sc : Z; sd : Z; se : Z; sf : Z; sg : Z; sh : Z }.

(** The initial hash value: the first 32 bits of the fractional parts of
    the square roots of the first 8 primes. *)
Definition H0 : state :=
  State 1779033703 3144134277 1013904242 2773480762
        1359893119 2600822924 528734635 1541459225.

Definition byte_val (b : byte) : Z := Z.of_N (Byte.to_N b).

(** Big-endian bytes of the low [8 * n] bits of [x]. *)
Fixpoint be_bytes (n : nat) (x : Z) : list Z :=
  match n with
  | O => []
  | S n' => (Z.shiftr x (8 * Z.of_nat n')) mod 256 :: be_bytes n' x
  end.

(** Message, the bit 1, zeros up to 56 mod 64, and the bit length on
    eight bytes. *)
Definition pad (msg : list byte) : list Z :=
  let len := Z.of_nat (length msg) in
  let zeros := Z.to_nat ((55 - len) mod 64) in
  map byte_val msg ++ 128 :: repeat 0 zeros ++ be_bytes 8 (8 * len).

Fixpoint words (fuel : nat) (bs : list Z) : list Z :=
  match fuel, bs with
  | S fuel', b0 :: b1 :: b2 :: b3 :: rest =>
      (((b0 * 256 + b1) * 256 + b2) * 256 + b3) :: words fuel' rest
  | _, _ => []
  end.

(** The schedule is kept newest word first while it is extended. *)
Fixpoint extend (n : nat) (rev_w : list Z) : list Z :=
  match n with
  | O => rev_w
  | S n' =>
      let w := add32 (add32 (ssig1 (nth 1 rev_w 0)) (nth 6 rev_w 0))
                     (add32 (ssig0 (nth 14 rev_w 0)) (nth 15 rev_w 0)) in
      extend n' (w :: rev_w)
  end.

Definition schedule (block : list Z) : list Z :=
  rev (extend 48 (rev (words 16 block))).

Definition round (s : state) (kw : Z * Z) : state :=
  let t1 := add32 (add32 (add32 (sh s) (bsig1 (se s)))
                         (add32 (ch (se s) (sf s) (sg s)) (fst kw))) (snd kw) in
  let t2 := add32 (bsig0 (sa s)) (maj (sa s) (sb s) (sc s)) in
  State (add32 t1 t2) (sa s) (sb s) (sc s) (add32 (sd s) t1) (se s) (sf s) (sg s).

Definition compress (h : state) (block : list Z) : state :=
  let r := fold_left round (combine K (schedule block)) h in
  State (add32 (sa h) (sa r)) (add32 (sb h) (sb r)) (add32 (sc h) (sc r))
        (add32 (sd h) (sd r)) (add32 (se h) (se r)) (add32 (sf h) (sf r))
        (add32 (sg h) (sg r)) (add32 (sh h) (sh r)).

Fixpoint blocks (fuel : nat) (h : state) (bs : list Z) : state :=
  match fuel, bs with
  | S fuel', _ :: _ => blocks fuel' (compress h (firstn 64 bs)) (skipn 64 bs)
  | _, _ => h
  end.

Definition digest (msg : list byte) : state :=
  let p := pad msg in blocks (length p) H0 p.

Definition hex_digit (d : Z) : ascii :=
  ascii_of_N (Z.to_N (if d <? 10 then 48 + d else 87 + d)).

Definition nibble (x : Z) (i : Z) : Z := Z.land (Z.shiftr x (4 * i)) 15.

Definition hex8 (x : Z) (tail : string) : string :=
  String (hex_digit (nibble x 7)) (String (hex_digit (nibble x 6))
 (String (hex_digit (nibble x 5)) (String (hex_digit (nibble x 4))
 (String (hex_digit (nibble x 3)) (String (hex_digit (nibble x 2))
 (String (hex_digit (nibble x 1)) (String (hex_digit (nibble x 0)) tail))))))).

(** [hashlib.sha256(msg).hexdigest()] *)
Definition hexdigest (msg : list byte) : string :=
  let s := digest msg in
  hex8 (sa s) (hex8 (sb s) (hex8 (sc s) (hex8 (sd s)
 (hex8 (se s) (hex8 (sf s) (hex8 (sg s) (hex8 (sh s) ""))))))).

End SHA256.

Definition bytes_of_string (s : string) : list byte :=
  map byte_of_ascii (list_ascii_of_string s).

(** ** Python values and exceptions *)

(** Values that [json.load] returns and [json.dump] accepts. A [dict] keeps
    its keys in insertion order, as Python's does; keys are unique.
    Floating-point numbers are left out. *)
Inductive json : Type :=
  | JNull
  | JBool (b : bool)
  | JInt (n : Z)
  | JStr (s : string)
  | JList (items : list json)
  | JDict (members : list (string * json)).

(** [OSError] stands for an [OSError] that is none of its subclasses
    listed before it: what [os.rmdir] raises for a path it refuses (the
    error numbers EINVAL, EBUSY and ENOTEMPTY). *)
Inductive exn : Type :=
  | FileNotFoundError
  | IsADirectoryError
  | NotADirectoryError
  | FileExistsError
  | SameFileError
  | ValueError
  | JSONDecodeError
  | KeyError
  | TypeError
  | AttributeError
  | OSError.

Definition result (A : Type) : Type := (exn + A)%type.

Fixpoint assoc {A : Type} (k : string) (d : list (string * A)) : option A :=
  match d with
  | [] => None
  | (k', v) :: d' => if String.eqb k k' then Some v else assoc k d'
  end.

(** [x[k]] for a string [k]: only a dict can be subscripted with one. *)
Definition py_getitem (x : json) (k : string) : result json :=
  match x with
  | JDict d => match assoc k d with Some v => inr v | None => inl KeyError end
  | _ => inl TypeError
  end.

(** [x.get(k, default)], called on loaded metadata. *)
Definition py_get (x : json) (k : string) (default : json) : result json :=
  match x with
  | JDict d => inr (match assoc k d with Some v => v | None => default end)
  | _ => inl AttributeError
  end.

(** Truth value, as [not x] tests it. *)
Definition py_truthy (x : json) : bool :=
  match x with
  | JNull => false
  | JBool b => b
  | JInt n => negb (n =? 0)
  | JStr s => negb (String.eqb s "")
  | JList l => match l with [] => false | _ => true end
  | JDict d => match d with [] => false | _ => true end
  end.

(** [a == b]: [bool] is a subclass of [int]; lists compare item by item,
    dicts by keys and values whatever the order. *)
Fixpoint py_eq (a b : json) {struct a} : bool :=
  match a, b with
  | JNull, JNull => true
  | JBool x, JBool y => Bool.eqb x y
  | JBool x, JInt n => Z.b2z x =? n
  | JInt n, JBool x => n =? Z.b2z x
  | JInt m, JInt n => m =? n
  | JStr s, JStr t => String.eqb s t
  | JList l, JList l' =>
      (fix items (l : list json) (l' : list json) : bool :=
         match l, l' with
         | [], [] => true
         | x :: l, y :: l' => py_eq x y && items l l'
         | _, _ => false
         end) l l'
  | JDict d, JDict d' =>
      (length d =? length d')%nat &&
      (fix members (d : list (string * json)) : bool :=
         match d with
         | [] => true
         | (k, v) :: d =>
             match assoc k d' with
             | Some v' => py_eq v v' && members d
             | None => false
             end
         end) d
  | _, _ => false
  end.

(** [a - b] is defined on [int] (and [bool]) only. *)
Definition py_sub (a b : json) : result json :=
  match a, b with
  | JInt m, JInt n => inr (JInt (m - n))
  | JInt m, JBool y => inr (JInt (m - Z.b2z y))
  | JBool x, JInt n => inr (JInt (Z.b2z x - n))
  | JBool x, JBool y => inr (JInt (Z.b2z x - Z.b2z y))
  | _, _ => inl TypeError
  end.

(** [a < b]: numbers by value, strings by code point, lists
    lexicographically; every other pairing raises [TypeError]. *)
Fixpoint py_lt (a b : json) {struct a} : result bool :=
  match a, b with
  | JBool x, JBool y => inr (Z.b2z x <? Z.b2z y)
  | JBool x, JInt n => inr (Z.b2z x <? n)
  | JInt n, JBool x => inr (n <? Z.b2z x)
  | JInt m, JInt n => inr (m <? n)
  | JStr s, JStr t => inr (String.ltb s t)
  | JList l, JList l' =>
      (fix items (l : list json) (l' : list json) : result bool :=
         match l, l' with
         | [], [] => inr false
         | [], _ :: _ => inr true
         | _ :: _, [] => inr false
         | x :: l, y :: l' => if py_eq x y then items l l' else py_lt x y
         end) l l'
  | _, _ => inl TypeError
  end.

(** [a > b] is [b < a] on these types. *)
Definition py_gt (a b : json) : result bool := py_lt b a.

(** *** sorted(l, key=key, reverse=True)

    CPython computes every key first, then reverses the list, sorts it
    stably in ascending order with [<] and reverses the result. The stable
    sort is written as an insertion sort; a comparison that raises ends the
    sort with that exception. *)
Fixpoint sort_insert (x : json * json) (l : list (json * json))
  : result (list (json * json)) :=
  match l with
  | [] => inr [x]
  | e :: l' =>
      match py_lt (fst e) (fst x) with
      | inl err => inl err
      | inr true =>
          match sort_insert x l' with
          | inl err => inl err
          | inr r => inr (e :: r)
          end
      | inr false => inr (x :: e :: l')
      end
  end.

Fixpoint sort_keyed (l : list (json * json)) : result (list (json * json)) :=
  match l with
  | [] => inr []
  | x :: l' =>
      match sort_keyed l' with
      | inl err => inl err
      | inr r => sort_insert x r
      end
  end.

Fixpoint decorate (key : json -> result json) (l : list json)
  : result (list (json * json)) :=
  match l with
  | [] => inr []
  | x :: l' =>
      match key x with
      | inl err => inl err
      | inr k =>
          match decorate key l' with
          | inl err => inl err
          | inr r => inr ((k, x) :: r)
          end
      end
  end.

Definition sorted_reverse (key : json -> result json) (l : list json)
  : result (list json) :=
  match decorate key l with
  | inl err => inl err
  | inr keyed =>
      match sort_keyed (rev keyed) with
      | inl err => inl err
      | inr r => inr (map snd (rev r))
      end
  end.

(** ** datetime *)

Record datetime : Type := Datetime {
  year : Z; month : Z; day : Z;
  hour : Z; minute : Z; second : Z; microsecond : Z }.

(** The ranges the [datetime] class enforces, with the year on four
    digits. [utcnow()] reads the system clock, whose year has four digits
    until the end of year 9999. *)
Definition valid_datetime (t : datetime) : bool :=
  (1000 <=? year t) && (year t <=? 9999) &&
  (1 <=? month t) && (month t <=? 12) &&
  (1 <=? day t) && (day t <=? 31) &&
  (0 <=? hour t) && (hour t <=? 23) &&
  (0 <=? minute t) && (minute t <=? 59) &&
  (0 <=? second t) && (second t <=? 59) &&
  (0 <=? microsecond t) && (microsecond t <=? 999999).

Definition digit (n : Z) : ascii := ascii_of_N (Z.to_N (48 + n mod 10)).

Fixpoint dec_digits (fuel : nat) (n : Z) (acc : string) : string :=
  match fuel with
  | O => acc
  | S fuel' =>
      let acc' := String (digit n) acc in
      if n <? 10 then acc' else dec_digits fuel' (n / 10) acc'
  end.

(** [str(n)] for [n >= 0]. *)
Definition str_of_Z (n : Z) : string :=
  dec_digits (S (Z.to_nat (Z.log2 n))) n "".

Fixpoint zeros (n : nat) (s : string) : string :=
  match n with
  | O => s
  | S n' => String "0" (zeros n' s)
  end.

(** ["%0<w>d" % n] for [n >= 0]: at least [w] digits. *)
Definition zfill (w : nat) (n : Z) : string :=
  let s := str_of_Z n in zeros (w - String.length s) s.

(** [t.strftime("%Y%m%d_%H%M%S")] *)
Definition strftime_compact (t : datetime) : string :=
  zfill 4 (year t) +:+ zfill 2 (month t) +:+ zfill 2 (day t) +:+ "_" +:+
  zfill 2 (hour t) +:+ zfill 2 (minute t) +:+ zfill 2 (second t).

(** [t.isoformat()]: the fraction is printed only when it is not zero. *)
Definition isoformat (t : datetime) : string :=
  zfill 4 (year t) +:+ "-" +:+ zfill 2 (month t) +:+ "-" +:+ zfill 2 (day t) +:+ "T" +:+
  zfill 2 (hour t) +:+ ":" +:+ zfill 2 (minute t) +:+ ":" +:+ zfill 2 (second t) +:+
  (if microsecond t =? 0 then "" else "." +:+ zfill 6 (microsecond t)).

(** ** The file system and the clock *)

(** A path is the list of its components, relative to the working
    directory; the empty list is the empty path, which names nothing. The
    methods that read or add a version take a model name and a version id
    as single components; [delete_version], which removes a tree, reads
    them as the kernel does (see the joined paths below). *)
Abbreviation path := (list string).

Inductive node : Type :=
  | File (data : list byte)
  | Dir.

(** The state the helper reads and changes: the directory tree, and the
    readings the system clock gives to successive [utcnow()] calls. *)
Record world : Type := World {
  fs : gmap path node;
  clock : nat -> datetime;
  ticks : nat }.

Definition set_fs (w : world) (m : gmap path node) : world :=
  World m (clock w) (ticks w).

(** Computations that read and write the world and may raise; the world
    reached when an exception is raised is kept. *)
Definition M (A : Type) : Type := world -> result A * world.

Definition ret {A : Type} (x : A) : M A := fun w => (inr x, w).

Definition raise {A : Type} (e : exn) : M A := fun w => (inl e, w).

Definition bind {A B : Type} (m : M A) (f : A -> M B) : M B :=
  fun w =>
    match m w with
    | (inl e, w') => (inl e, w')
    | (inr x, w') => f x w'
    end.

Definition lift {A : Type} (r : result A) : M A := fun w => (r, w).

Notation "'let*' x ':=' m 'in' k" := (bind m (fun x => k))
  (at level 10, x name, m at level 100, k at level 200).

Definition utcnow : M datetime :=
  fun w => (inr (clock w (ticks w)), World (fs w) (clock w) (S (ticks w))).

Definition parent (p : path) : path := removelast p.

Definition basename (p : path) : string := List.last p "".

(** The kind of the directory an entry would be created in; the working
    directory always exists. *)
Definition parent_node (m : gmap path node) (p : path) : option node :=
  match parent p with
  | [] => Some Dir
  | d => m !! d
  end.

Definition os_path_exists (p : path) : M bool :=
  fun w => (inr (bool_decide (is_Some (fs w !! p))), w).

Definition os_path_isdir (p : path) : M bool :=
  fun w => (inr (match fs w !! p with Some Dir => true | _ => false end), w).

(** [open(p, "rb").read()] *)
Definition open_read (p : path) : M (list byte) :=
  fun w =>
    match fs w !! p with
    | Some (File data) => (inr data, w)
    | Some Dir => (inl IsADirectoryError, w)
    | None => (inl FileNotFoundError, w)
    end.

(** [open(p, "w")] followed by writing [data]: the file is created or
    replaced; its directory must exist. *)
Definition open_write (p : path) (data : list byte) : M unit :=
  fun w =>
    match p with
    | [] => (inl FileNotFoundError, w)
    | _ =>
        match fs w !! p with
        | Some Dir => (inl IsADirectoryError, w)
        | _ =>
            match parent_node (fs w) p with
            | Some Dir => (inr tt, set_fs w (<[p := File data]> (fs w)))
            | Some (File _) => (inl NotADirectoryError, w)
            | None => (inl FileNotFoundError, w)
            end
        end
    end.

Definition os_path_getsize (p : path) : M Z :=
  fun w =>
    match fs w !! p with
    | Some (File data) => (inr (Z.of_nat (length data)), w)
    | Some Dir => (inr 4096, w)
    | None => (inl FileNotFoundError, w)
    end.

(** [os.makedirs(done + rest, exist_ok=True)], the components of [done]
    being directories already. *)
Fixpoint makedirs_from (done rest : path) : M unit :=
  match rest with
  | [] => ret tt
  | x :: rest' =>
      let p := done ++ [x] in
      fun w =>
        match fs w !! p with
        | Some Dir => makedirs_from p rest' w
        | Some (File _) =>
            (inl (match rest' with [] => FileExistsError | _ => NotADirectoryError end), w)
        | None => makedirs_from p rest' (set_fs w (<[p := Dir]> (fs w)))
        end
  end.

Definition os_makedirs (p : path) : M unit :=
  match p with
  | [] => raise FileNotFoundError
  | _ => makedirs_from [] p
  end.

Fixpoint split_under (d p : path) : option path :=
  match d, p with
  | [], _ => Some p
  | _ :: _, [] => None
  | x :: d', y :: p' => if String.eqb x y then split_under d' p' else None
  end.

Definition child_of (d p : path) : option string :=
  match split_under d p with
  | Some [n] => Some n
  | _ => None
  end.

(** The names of the entries of directory [d], in the order the file
    system enumerates them. *)
Definition dir_names (m : gmap path node) (d : path) : list string :=
  omap (fun kv => child_of d (fst kv)) (map_to_list m).

Definition os_listdir (d : path) : M (list string) :=
  fun w =>
    match fs w !! d with
    | Some Dir => (inr (dir_names (fs w) d), w)
    | Some (File _) => (inl NotADirectoryError, w)
    | None => (inl FileNotFoundError, w)
    end.

Definition is_under (d p : path) : bool :=
  match split_under d p with Some _ => true | None => false end.

(** [shutil.rmtree(d)]: the directory and everything below it. *)
Definition shutil_rmtree (d : path) : M unit :=
  fun w =>
    match fs w !! d with
    | Some Dir =>
        (inr tt, set_fs w (filter (fun kv => is_under d (fst kv) = false) (fs w)))
    | Some (File _) => (inl NotADirectoryError, w)
    | None => (inl FileNotFoundError, w)
    end.

(** [shutil.copy2(src, dst)]: into [dst] when it is a directory, under the
    name of [src]; refuses to copy a file onto itself. Modification times
    are not part of the model. *)
Definition shutil_copy2 (src dst : path) : M path :=
  fun w =>
    let dst' :=
      match fs w !! dst with
      | Some Dir => dst ++ [basename src]
      | _ => dst
      end in
    if bool_decide (src = dst') && bool_decide (is_Some (fs w !! src))
    then (inl SameFileError, w)
    else (let* data := open_read src in
          let* _ := open_write dst' data in
          ret dst') w.

(** ** Joined paths

    [os.path.join] concatenates its arguments, and the kernel reads the
    result component by component: an empty component and [.] stay in the
    directory reached, [..] climbs to its parent, a slash inside an
    argument separates two components, and an argument that starts with a
    slash starts again at the root. The working directory is taken as the
    root of the tree, so a path that starts with a slash or climbs above the
    working directory is followed from there. *)

Fixpoint has_slash (s : string) : bool :=
  match s with
  | EmptyString => false
  | String c s' => Ascii.eqb c "/" || has_slash s'
  end.

(** A name that is one component and names an entry: not empty, not [.]
    or [..], without a slash. *)
Definition plain_name (s : string) : bool :=
  negb (String.eqb s "") && negb (String.eqb s ".") &&
  negb (String.eqb s "..") && negb (has_slash s).

Definition starts_with_slash (s : string) : bool :=
  match s with
  | EmptyString => false
  | String c _ => Ascii.eqb c "/"
  end.

Fixpoint ends_with_slash (s : string) : bool :=
  match s with
  | EmptyString => false
  | String c EmptyString => Ascii.eqb c "/"
  | String _ s' => ends_with_slash s'
  end.

(** One step of the loop of [posixpath.join]. *)
Definition join2 (a b : string) : string :=
  if starts_with_slash b then b
  else if String.eqb a "" || ends_with_slash a then a +:+ b
  else a +:+ "/" +:+ b.

(** [os.path.join] of the parts [p], the string the kernel is given. *)
Definition os_path_join (p : path) : string :=
  match p with
  | [] => ""
  | a :: rest => fold_left join2 rest a
  end.

(** [s.split("/")] *)
Fixpoint split_slash (s : string) : list string :=
  match s with
  | EmptyString => [""]
  | String c s' =>
      if Ascii.eqb c "/" then "" :: split_slash s'
      else match split_slash s' with
           | x :: xs => String c x :: xs
           | [] => [String c ""]
           end
  end.

(** A directory the kernel can look a name up in: the root, or a
    directory of the tree. *)
Definition searchable (m : gmap path node) (d : path) : bool :=
  match d with
  | [] => true
  | _ => match m !! d with Some Dir => true | _ => false end
  end.

(** The entry reached from directory [d] by the components of a path. *)
Fixpoint follow (m : gmap path node) (d : path) (components : list string)
  : option path :=
  match components with
  | [] => Some d
  | c :: rest =>
      if negb (searchable m d) then None
      else if String.eqb c "" || String.eqb c "." then follow m d rest
      else if String.eqb c ".." then follow m (parent d) rest
      else match m !! (d ++ [c]) with
           | Some _ => follow m (d ++ [c]) rest
           | None => None
           end
  end.

(** What the kernel finds at the joined path; the empty string names
    nothing. *)
Definition reading (m : gmap path node) (p : path) : option path :=
  let s := os_path_join p in
  if String.eqb s "" then None else follow m [] (split_slash s).

(** The entry the joined path names. The other methods find a version
    under its three parts, each taken as one component, and an entry the
    tree holds under exactly the parts [p] is found so here too; otherwise
    the joined string is read as the kernel reads it. In a well-formed
    tree, whose entries have plain names and lie in directories, the first
    case is an instance of the second (lemma [locate_well_formed]). *)
Definition locate (m : gmap path node) (p : path) : option path :=
  match m !! p with
  | Some _ => Some p
  | None => reading m p
  end.

(** [os.path.exists] of the joined path. *)
Definition os_path_exists_joined (p : path) : M bool :=
  fun w => (inr (bool_decide (is_Some (locate (fs w) p))), w).

(** The last component is [.] or [..], which [os.rmdir] refuses. *)
Definition dot_last (components : list string) : bool :=
  let c := List.last components "" in
  String.eqb c "." || String.eqb c "..".

(** [shutil.rmtree] of the joined path: what lies below the directory the
    path names is removed first; then [os.rmdir] is given the same string,
    which the kernel reads again. By then a component the path went
    through may be gone, and a path that ends in [.] or [..] or names the
    root is refused: the call raises with the directory emptied. *)
Definition shutil_rmtree_joined (p : path) : M unit :=
  fun w =>
    match fs w !! p with
    | Some _ => shutil_rmtree p w
    | None =>
        match reading (fs w) p with
        | None => (inl FileNotFoundError, w)
        | Some d =>
            if negb (searchable (fs w) d) then (inl NotADirectoryError, w)
            else
              let emptied :=
                filter (fun kv => is_under d (fst kv) = false \/ fst kv = d) (fs w) in
              match reading emptied p with
              | None => (inl FileNotFoundError, set_fs w emptied)
              | Some _ =>
                  if dot_last (split_slash (os_path_join p)) || bool_decide (d = [])
                  then (inl OSError, set_fs w emptied)
                  else
                    (inr tt,
                     set_fs w (filter (fun kv => is_under d (fst kv) = false) (fs w)))
              end
        end
    end.

(** A directory tree as a file system holds it: every entry has plain
    names on its path and lies in the root or in a directory. *)
Definition well_formed (m : gmap path node) : bool :=
  forallb (fun kv =>
             match fst kv with
             | [] => false
             | _ => forallb plain_name (fst kv) &&
                    match parent_node m (fst kv) with
                    | Some Dir => true
                    | _ => false
                    end
             end) (map_to_list m).

(** A string that [os.path.join] extends with a separator. *)
Definition joinable (a : string) : Prop :=
  a <> "" /\ ends_with_slash a = false.

(** Every prefix of a followed path is the root or an entry. *)
Definition reached (m : gmap path node) (d : path) : Prop :=
  forall q, q `prefix_of` d -> q = [] \/ is_Some (m !! q).

(** ** The json module

    [json.dump(obj, f, indent=2)] and [json.load(f)] are taken as given:
    [json_dumps] is the text written for a value, [json_loads] decodes and
    parses the bytes of a file and raises on text that is not JSON. *)
Class JsonCodec : Type := {
  json_dumps : json -> list byte;
  json_loads : list byte -> result json }.

(** ** class ModelVersioning (src/api/main.py) *)

Definition endswith (s suffix : string) : bool :=
  let n := String.length s in
  let k := String.length suffix in
  (k <=? n)%nat && String.eqb (substring (n - k) k s) suffix.

Definition chunk_size : nat := 4096.

(** [for chunk in iter(lambda: f.read(4096), b""): hash_sha256.update(chunk)]:
    [rest] is what the file object has not read yet and [fed] what the hash
    object was given so far; one step of fuel per [read]. *)
Fixpoint read_chunks (fuel : nat) (rest fed : list byte) : list byte :=
  match fuel with
  | O => fed
  | S fuel' =>
      match firstn chunk_size rest with
      | [] => fed
      | chunk => read_chunks fuel' (skipn chunk_size rest) (fed ++ chunk)
      end
  end.

Section ModelVersioning.

Context `{JsonCodec}.

Definition versions_dir : string := "model_versions".

Definition init : M unit := os_makedirs [versions_dir].

Definition calculate_file_hash (file_path : path) : M string :=
  let* data := open_read file_path in
  ret (SHA256.hexdigest (read_chunks (S (length data)) data [])).

Definition generate_version_id (model_file : path) : M string :=
  let* now := utcnow in
  let timestamp := strftime_compact now in
  let* file_hash := calculate_file_hash model_file in
  ret ("v" +:+ timestamp +:+ "_" +:+ substring 0 8 file_hash).

Definition version_metadata (version model_name created_at : string)
    (metadata : json) (file_hash : string) (file_size_bytes : Z) : json :=
  JDict [ ("version", JStr version);
          ("model_name", JStr model_name);
          ("created_at", JStr created_at);
          ("created_by", JStr "asarekings");
          ("metadata", metadata);
          ("file_hash", JStr file_hash);
          ("file_size_bytes", JInt file_size_bytes);
          ("platform", JStr "Enhanced MLOps Platform") ].

Definition create_version (model_name : string) (model_file : path)
    (metadata : json) : M string :=
  let* found := os_path_exists model_file in
  if negb found then raise FileNotFoundError else
  let* version := generate_version_id model_file in
  let version_dir := [versions_dir; model_name; version] in
  let* _ := os_makedirs version_dir in
  let* _ := shutil_copy2 model_file version_dir in
  let* now := utcnow in
  let* file_hash := calculate_file_hash model_file in
  let* size := os_path_getsize model_file in
  let version_metadata :=
    version_metadata version model_name (isoformat now) metadata file_hash size in
  let* _ := open_write (version_dir ++ ["metadata.json"]) (json_dumps version_metadata) in
  ret version.

(** The body of the loop of [list_versions] for one directory entry. *)
Definition load_version (model_dir : path) (version_id : string)
    (versions : list json) : M (list json) :=
  let metadata_file := model_dir ++ [version_id; "metadata.json"] in
  let* found := os_path_exists metadata_file in
  if found then
    let* data := open_read metadata_file in
    let* record := lift (json_loads data) in
    ret (versions ++ [record])
  else ret versions.

Fixpoint load_versions (model_dir : path) (names : list string)
    (versions : list json) : M (list json) :=
  match names with
  | [] => ret versions
  | version_id :: names' =>
      let* versions' := load_version model_dir version_id versions in
      load_versions model_dir names' versions'
  end.

Definition list_versions (model_name : string) : M (list json) :=
  let model_dir := [versions_dir; model_name] in
  let* found := os_path_exists model_dir in
  if negb found then ret [] else
  let* names := os_listdir model_dir in
  let* versions := load_versions model_dir names [] in
  lift (sorted_reverse (fun x => py_getitem x "created_at") versions).

Definition get_latest_version (model_name : string) : M (option json) :=
  let* versions := list_versions model_name in
  ret (match versions with v :: _ => Some v | [] => None end).

Definition active_artifact (model_name : string) : path :=
  ["models"; model_name +:+ "_model.pkl"].

Definition rollback_to_version (model_name version_id : string) : M bool :=
  let version_dir := [versions_dir; model_name; version_id] in
  let* found := os_path_exists version_dir in
  if negb found then raise ValueError else
  let* names := os_listdir version_dir in
  let model_files := List.filter (fun f => endswith f ".pkl") names in
  match model_files with
  | f :: _ =>
      let source := version_dir ++ [f] in
      let destination := active_artifact model_name in
      let* _ := shutil_copy2 source destination in
      ret true
  | [] => ret false
  end.

(** The path is tested and removed as the kernel reads it: a version id
    such as [..] or the empty string does not name an entry of the model
    directory. *)
Definition delete_version (model_name version_id : string) : M bool :=
  let version_dir := [versions_dir; model_name; version_id] in
  let* found := os_path_exists_joined version_dir in
  if found then
    let* _ := shutil_rmtree_joined version_dir in
    ret true
  else ret false.

(** [v1_data] and [v2_data] start as [None], which is also what
    [json.load] gives for the text [null]. *)
Definition load_metadata (model_name version : string) : M json :=
  let p := [versions_dir; model_name; version; "metadata.json"] in
  let* found := os_path_exists p in
  if found then
    let* data := open_read p in
    lift (json_loads data)
  else ret JNull.

Definition version_summary (version : string) (data : json) : result json :=
  match py_getitem data "created_at" with
  | inl e => inl e
  | inr created_at =>
  match py_getitem data "file_hash" with
  | inl e => inl e
  | inr file_hash =>
  match py_get data "file_size_bytes" (JInt 0) with
  | inl e => inl e
  | inr file_size =>
  match py_get data "metadata" (JDict []) with
  | inl e => inl e
  | inr metadata =>
      inr (JDict [ ("version", JStr version);
                   ("created_at", created_at);
                   ("file_hash", file_hash);
                   ("file_size", file_size);
                   ("metadata", metadata) ])
  end end end end.

Definition comparison (v1_data v2_data : json) : result json :=
  match py_getitem v1_data "file_hash" with
  | inl e => inl e
  | inr hash1 =>
  match py_getitem v2_data "file_hash" with
  | inl e => inl e
  | inr hash2 =>
  match py_get v2_data "file_size_bytes" (JInt 0) with
  | inl e => inl e
  | inr size2 =>
  match py_get v1_data "file_size_bytes" (JInt 0) with
  | inl e => inl e
  | inr size1 =>
  match py_sub size2 size1 with
  | inl e => inl e
  | inr size_difference =>
  match py_getitem v2_data "created_at" with
  | inl e => inl e
  | inr created2 =>
  match py_getitem v1_data "created_at" with
  | inl e => inl e
  | inr created1 =>
  match py_gt created2 created1 with
  | inl e => inl e
  | inr time_difference =>
      inr (JDict [ ("same_hash", JBool (py_eq hash1 hash2));
                   ("size_difference", size_difference);
                   ("time_difference", JBool time_difference) ])
  end end end end end end end end.

Definition get_version_comparison (model_name version1 version2 : string)
    : M json :=
  let* v1_data := load_metadata model_name version1 in
  let* v2_data := load_metadata model_name version2 in
  if negb (py_truthy v1_data) || negb (py_truthy v2_data)
  then ret (JDict [("error", JStr "One or both versions not found")])
  else
    let* summary1 := lift (version_summary version1 v1_data) in
    let* summary2 := lift (version_summary version2 v2_data) in
    let* cmp := lift (comparison v1_data v2_data) in
    ret (JDict [ ("model_name", JStr model_name);
                 ("version_1", summary1);
                 ("version_2", summary2);
                 ("comparison", cmp);
                 ("compared_by", JStr "asarekings") ]).

End ModelVersioning.

(** ** class ModelVersioning (src/versioning/model_versioning.py)

    The older copy: [create_version] has no existence test and records no
    size; its other methods are those above. *)
Module Standalone.
Section ModelVersioning.

Context `{JsonCodec}.

Definition version_metadata (version model_name created_at : string)
    (metadata : json) (file_hash : string) : json :=
  JDict [ ("version", JStr version);
          ("model_name", JStr model_name);
          ("created_at", JStr created_at);
          ("created_by", JStr "asarekings");
          ("metadata", metadata);
          ("file_hash", JStr file_hash) ].

Definition create_version (model_name : string) (model_file : path)
    (metadata : json) : M string :=
  let* version := generate_version_id model_file in
  let version_dir := [versions_dir; model_name; version] in
  let* _ := os_makedirs version_dir in
  let* _ := shutil_copy2 model_file version_dir in
  let* now := utcnow in
  let* file_hash := calculate_file_hash model_file in
  let version_metadata :=
    version_metadata version model_name (isoformat now) metadata file_hash in
  let* _ := open_write (version_dir ++ ["metadata.json"]) (json_dumps version_metadata) in
  ret version.

End ModelVersioning.
End Standalone.

(** ** The endpoints (src/api/main.py)

    An endpoint returns the body of its response or raises. FastAPI sends
    a returned body with status 200 and an [HTTPException] with its own
    status code, and answers 500 when another exception escapes.
    [HTTPException] is an [Exception] like the others, so a handler
    [except Exception] catches it too. The text of an exception is left
    out: an [HTTPException] is its status code. *)
Inductive raised : Type :=
  | Python (e : exn)
  | HTTPException (status_code : Z).

Definition Endpoint (A : Type) : Type := world -> (raised + A) * world.

Definition respond {A : Type} (x : A) : Endpoint A := fun w => (inr x, w).

Definition raise_http {A : Type} (status_code : Z) : Endpoint A :=
  fun w => (inl (HTTPException status_code), w).

Definition call {A : Type} (m : M A) : Endpoint A :=
  fun w =>
    match m w with
    | (inl e, w') => (inl (Python e), w')
    | (inr x, w') => (inr x, w')
    end.

Definition and_then {A B : Type} (m : Endpoint A) (f : A -> Endpoint B)
  : Endpoint B :=
  fun w =>
    match m w with
    | (inl e, w') => (inl e, w')
    | (inr x, w') => f x w'
    end.

Notation "'let+' x ':=' m 'in' k" := (and_then m (fun x => k))
  (at level 10, x name, m at level 100, k at level 200).

(** [try: body / except Exception as e: handler] *)
Definition try_except {A : Type} (body : Endpoint A)
    (handler : raised -> Endpoint A) : Endpoint A :=
  fun w =>
    match body w with
    | (inl e, w') => handler e w'
    | (inr x, w') => (inr x, w')
    end.

(** The status code of the response the framework sends. *)
Definition status_code {A : Type} (r : raised + A) : Z :=
  match r with
  | inr _ => 200
  | inl (HTTPException code) => code
  | inl (Python _) => 500
  end.

(** [d[k] = v] *)
Fixpoint py_setitem (k : string) (v : json) (d : list (string * json))
  : list (string * json) :=
  match d with
  | [] => [(k, v)]
  | (k', v') :: d' =>
      if String.eqb k k' then (k', v) :: d' else (k', v') :: py_setitem k v d'
  end.

(** [len(l)] as a JSON number. *)
Definition py_len {A : Type} (l : list A) : json := JInt (Z.of_nat (length l)).

(** [versions[0] if versions else None] *)
Definition first_or_none (versions : list json) : json :=
  match versions with
  | v :: _ => v
  | [] => JNull
  end.

Section Endpoints.

Context `{JsonCodec}.

(** The body of the loop of [list_all_versioned_models] for one entry of
    [model_versions]. *)
Definition versioned_model (model_name : string)
    (all_models : list (string * json)) : M (list (string * json)) :=
  let model_path := ["model_versions"; model_name] in
  let* isdir := os_path_isdir model_path in
  if isdir then
    let* versions := list_versions model_name in
    ret (py_setitem model_name
           (JDict [ ("total_versions", py_len versions);
                    ("latest_version", first_or_none versions);
                    ("versions", JList versions) ])
           all_models)
  else ret all_models.

Fixpoint versioned_models (names : list string)
    (all_models : list (string * json)) : M (list (string * json)) :=
  match names with
  | [] => ret all_models
  | model_name :: names' =>
      let* all_models' := versioned_model model_name all_models in
      versioned_models names' all_models'
  end.

(** [GET /api/v1/versions] *)
Definition list_all_versioned_models : Endpoint json :=
  let+ found := call (os_path_exists ["model_versions"]) in
  let+ all_models :=
    if found then
      call (let* names := os_listdir ["model_versions"] in
            versioned_models names [])
    else respond [] in
  let+ now := call utcnow in
  respond (JDict [ ("versioned_models", JDict all_models);
                   ("total_models", py_len all_models);
                   ("author", JStr "asarekings");
                   ("timestamp", JStr (isoformat now)) ]).

(** [GET /api/v1/versions/{model_name}] *)
Definition list_model_versions (model_name : string) : Endpoint json :=
  try_except
    (let+ versions := call (list_versions model_name) in
     let+ now := call utcnow in
     respond (JDict [ ("model_name", JStr model_name);
                      ("total_versions", py_len versions);
                      ("versions", JList versions);
                      ("author", JStr "asarekings");
                      ("timestamp", JStr (isoformat now)) ]))
    (fun e => raise_http 404).


(** [DELETE /api/v1/versions/{model_name}/{version_id}] *)
Definition delete_model_version (model_name version_id : string)
    : Endpoint json :=
  try_except
    (let+ success := call (delete_version model_name version_id) in
     if success then
       let+ now := call utcnow in
       respond (JDict [ ("status", JStr "success");
                        ("model_name", JStr model_name);
                        ("deleted_version", JStr version_id);
                        ("deleted_by", JStr "asarekings");
                        ("timestamp", JStr (isoformat now)) ])
     else raise_http 404)
    (fun e => raise_http 500).


(** [glob.glob(pattern)] is taken as given: the paths of the directory
    tree that match a pattern whose last component may hold wildcards. *)
Variable glob_glob : path -> gmap path node -> list path.

(** The loop over [possible_files]: the first match of the first pattern
    that has one. *)
Fixpoint find_model_file (possible_files : list path) : M (option path) :=
  match possible_files with
  | [] => ret None
  | pattern :: rest =>
      fun w =>
        match glob_glob pattern (fs w) with
        | found :: _ => (inr (Some found), w)
        | [] => find_model_file rest w
        end
  end.

Definition default_metadata : json :=
  JDict [ ("created_by", JStr "asarekings");
          ("platform", JStr "Enhanced MLOps v3.0") ].

(** [metadata or default] for a parameter declared
    [metadata: Dict[str, Any] = None]: [None] and the empty dict are
    falsy. *)
Definition metadata_or (metadata : option (list (string * json)))
    (default : json) : json :=
  match metadata with
  | Some (member :: members) => JDict (member :: members)
  | Some [] => default
  | None => default
  end.

(** [POST /api/v1/versions/{model_name}/create]. The function is called
    with the body of the request once the framework has validated it
    against the declared type [Dict[str, Any]]: [metadata] is a dict, or
    [None] when the request has no body. A body of another type is
    answered with status 422 by the framework, which does not call the
    function. *)
Definition create_model_version (model_name : string)
    (metadata : option (list (string * json))) : Endpoint json :=
  try_except
    (let model_file := ["models"; model_name +:+ "_model.pkl"] in
     let+ found := call (os_path_exists model_file) in
     let+ model_file :=
       if negb found then
         let possible_files :=
           [ ["models"; model_name +:+ ".pkl"];
             ["models"; model_name +:+ "_*.pkl"] ] in
         let+ matched := call (find_model_file possible_files) in
         match matched with
         | Some file => respond file
         | None => raise_http 404
         end
       else respond model_file in
     let+ version_id :=
       call (create_version model_name model_file
               (metadata_or metadata default_metadata)) in
     let+ now := call utcnow in
     respond (JDict [ ("status", JStr "success");
                      ("model_name", JStr model_name);
                      ("version_id", JStr version_id);
                      ("created_by", JStr "asarekings");
                      ("timestamp", JStr (isoformat now)) ]))
    (fun e => raise_http 500).

End Endpoints.

(** *** GET /health

    Three values come from outside the directory tree: whether the import
    of the real models succeeded, the version of the interpreter and the
    text [str(e)] of an exception. *)
Section Health.

Variable REAL_ML_AVAILABLE : bool.
Variable python_version : string.
Variable str : raised -> string.

(** [f.endswith((a, b))] *)
Definition endswith_either (f a b : string) : bool :=
  endswith f a || endswith f b.

(** [[v for v in names if os.path.isdir(os.path.join(model_path, v))]] *)
Fixpoint dirs_among (model_path : path) (names : list string)
  : M (list string) :=
  match names with
  | [] => ret []
  | v :: names' =>
      let* isdir := os_path_isdir (model_path ++ [v]) in
      let* rest := dirs_among model_path names' in
      ret (if isdir then v :: rest else rest)
  end.

(** The loop over the entries of [model_versions]. *)
Fixpoint count_versioned (names : list string) (versioned_models : Z) : M Z :=
  match names with
  | [] => ret versioned_models
  | model_dir :: names' =>
      let model_path := ["model_versions"; model_dir] in
      let* isdir := os_path_isdir model_path in
      let* versioned_models' :=
        if isdir then
          let* entries := os_listdir model_path in
          let* dirs := dirs_among model_path entries in
          ret (versioned_models + Z.of_nat (length dirs))
        else ret versioned_models in
      count_versioned names' versioned_models'
  end.

Definition health_check : Endpoint json :=
  try_except
    (let+ data_found := call (os_path_exists ["data"]) in
     let data_status := if data_found then "available" else "no_data" in
     let+ data_found' := call (os_path_exists ["data"]) in
     let+ data_files :=
       if data_found' then
         let+ names := call (os_listdir ["data"]) in
         respond (Z.of_nat (length
           (List.filter (fun f => endswith_either f ".csv" ".json") names)))
       else respond 0 in
     let+ models_found := call (os_path_exists ["models"]) in
     let+ model_files :=
       if models_found then
         let+ names := call (os_listdir ["models"]) in
         respond (Z.of_nat (length
           (List.filter (fun f => endswith_either f ".pkl" ".json") names)))
       else respond 0 in
     let+ versions_found := call (os_path_exists ["model_versions"]) in
     let+ versioned_models :=
       if versions_found then
         let+ names := call (os_listdir ["model_versions"]) in
         call (count_versioned names 0)
       else respond 0 in
     let+ now := call utcnow in
     respond (JDict [ ("status", JStr "healthy");
                      ("timestamp", JStr (isoformat now));
                      ("service", JStr "mlops-platform-enhanced-v3");
                      ("author", JStr "asarekings");
                      ("platform", JStr "Windows Compatible");
                      ("data_status", JStr data_status);
                      ("data_files", JInt data_files);
                      ("model_files", JInt model_files);
                      ("versioned_models", JInt versioned_models);
                      ("real_ml_available", JBool REAL_ML_AVAILABLE);
                      ("python_version", JStr python_version);
                      ("version", JStr "3.0.0");
                      ("uptime", JStr "running") ]))
    (fun e =>
       respond (JDict [ ("status", JStr "error");
                        ("error", JStr (str e));
                        ("author", JStr "asarekings") ])).

End Health.

#[global] Arguments and_then : simpl never.
#[global] Arguments os_path_isdir : simpl never.

(** ** JSON text

    A writer and a reader of JSON text for the values above, in the layout
    of [json.dump(obj, f, indent=2)]: the codec the examples run with.
    Strings hold one-byte characters; a character outside printable ASCII
    is written as a [\u00XX] escape. *)
Module JsonText.

Definition quote : ascii := "034"%char.
Definition backslash : ascii := "092"%char.
Definition newline : ascii := "010"%char.

Definition code (c : ascii) : Z := Z.of_N (N_of_ascii c).

Definition escape (c : ascii) (tail : string) : string :=
  let n := code c in
  if n =? 34 then String backslash (String quote tail)
  else if n =? 92 then String backslash (String backslash tail)
  else if n =? 10 then String backslash (String "n" tail)
  else if n =? 13 then String backslash (String "r" tail)
  else if n =? 9 then String backslash (String "t" tail)
  else if n =? 8 then String backslash (String "b" tail)
  else if n =? 12 then String backslash (String "f" tail)
  else if (n <? 32) || (126 <? n) then
    String backslash (String "u" (String "0" (String "0"
      (String (SHA256.hex_digit (n / 16))
         (String (SHA256.hex_digit (n mod 16)) tail)))))
  else String c tail.

Fixpoint escape_all (s : string) (tail : string) : string :=
  match s with
  | EmptyString => tail
  | String c s' => escape c (escape_all s' tail)
  end.

Definition quoted (s : string) : string :=
  String quote (escape_all s (String quote "")).

Fixpoint spaces (n : nat) (tail : string) : string :=
  match n with
  | O => tail
  | S n' => String " " (String " " (spaces n' tail))
  end.

Definition nl (level : nat) : string := String newline (spaces level "").

Fixpoint dump (level : nat) (v : json) : string :=
  match v with
  | JNull => "null"
  | JBool true => "true"
  | JBool false => "false"
  | JInt n => if n <? 0 then "-" +:+ str_of_Z (- n) else str_of_Z n
  | JStr s => quoted s
  | JList [] => "[]"
  | JList (x :: l) =>
      "[" +:+ nl (S level) +:+ dump (S level) x +:+
      (fix rest (l : list json) : string :=
         match l with
         | [] => ""
         | y :: l' => "," +:+ nl (S level) +:+ dump (S level) y +:+ rest l'
         end) l +:+ nl level +:+ "]"
  | JDict [] => "{}"
  | JDict ((k, x) :: d) =>
      "{" +:+ nl (S level) +:+ quoted k +:+ ": " +:+ dump (S level) x +:+
      (fix rest (d : list (string * json)) : string :=
         match d with
         | [] => ""
         | (k', y) :: d' =>
             "," +:+ nl (S level) +:+ quoted k' +:+ ": " +:+ dump (S level) y +:+ rest d'
         end) d +:+ nl level +:+ "}"
  end.

Definition dumps (v : json) : list byte := bytes_of_string (dump 0 v).

Definition is_ws (c : ascii) : bool :=
  let n := code c in (n =? 32) || (n =? 10) || (n =? 13) || (n =? 9).

Fixpoint skip_ws (s : string) : string :=
  match s with
  | String c s' => if is_ws c then skip_ws s' else s
  | EmptyString => s
  end.

Definition hex_value (c : ascii) : option Z :=
  let n := code c in
  if (48 <=? n) && (n <=? 57) then Some (n - 48)
  else if (97 <=? n) && (n <=? 102) then Some (n - 87)
  else if (65 <=? n) && (n <=? 70) then Some (n - 55)
  else None.

Definition unescape (e : ascii) : option ascii :=
  let n := code e in
  if n =? 34 then Some quote
  else if n =? 92 then Some backslash
  else if n =? 47 then Some "/"%char
  else if n =? 110 then Some newline
  else if n =? 114 then Some "013"%char
  else if n =? 116 then Some "009"%char
  else if n =? 98 then Some "008"%char
  else if n =? 102 then Some "012"%char
  else None.

(** The characters of a string literal after its opening quote, and the
    text after its closing quote. *)
Fixpoint parse_chars (s : string) : option (string * string) :=
  match s with
  | EmptyString => None
  | String c s' =>
      if code c =? 34 then Some ("", s')
      else if code c =? 92 then
        match s' with
        | String "u" (String h1 (String h2 (String h3 (String h4 s'')))) =>
            match hex_value h1, hex_value h2, hex_value h3, hex_value h4 with
            | Some 0, Some 0, Some a, Some b =>
                match parse_chars s'' with
                | Some (str, r) => Some (String (ascii_of_N (Z.to_N (16 * a + b))) str, r)
                | None => None
                end
            | _, _, _, _ => None
            end
        | String e s'' =>
            match unescape e, parse_chars s'' with
            | Some c', Some (str, r) => Some (String c' str, r)
            | _, _ => None
            end
        | EmptyString => None
        end
      else if (code c <? 32) || (126 <? code c) then None
      else
        match parse_chars s' with
        | Some (str, r) => Some (String c str, r)
        | None => None
        end
  end.

Definition is_digit (c : ascii) : bool := (48 <=? code c) && (code c <=? 57).

Fixpoint parse_digits (s : string) (acc : Z) : Z * string :=
  match s with
  | String c s' => if is_digit c then parse_digits s' (10 * acc + (code c - 48)) else (acc, s)
  | EmptyString => (acc, s)
  end.

(** An integer literal: no leading zero, no fraction and no exponent. *)
Definition parse_int (s : string) : option (Z * string) :=
  match s with
  | String c s' =>
      if negb (is_digit c) then None
      else
        let (n, r) := if code c =? 48 then (0, s') else parse_digits s 0 in
        match r with
        | String d _ =>
            if is_digit d || (code d =? 46) || (code d =? 101) || (code d =? 69)
            then None else Some (n, r)
        | EmptyString => Some (n, r)
        end
  | EmptyString => None
  end.

Fixpoint expect (word s : string) : option string :=
  match word, s with
  | EmptyString, _ => Some s
  | String a word', String b s' => if Ascii.eqb a b then expect word' s' else None
  | String _ _, EmptyString => None
  end.

(** A key read again replaces the value and keeps its place. *)
Fixpoint dict_set (k : string) (v : json) (d : list (string * json))
  : list (string * json) :=
  match d with
  | [] => [(k, v)]
  | (k', v') :: d' =>
      if String.eqb k k' then (k', v) :: d' else (k', v') :: dict_set k v d'
  end.

Fixpoint parse_value (fuel : nat) (s : string) : option (json * string) :=
  match fuel with
  | O => None
  | S fuel' =>
      match skip_ws s with
      | EmptyString => None
      | String c r =>
          let n := code c in
          if n =? 123 then
            match skip_ws r with
            | String "}" r' => Some (JDict [], r')
            | _ => parse_members fuel' r []
            end
          else if n =? 91 then
            match skip_ws r with
            | String "]" r' => Some (JList [], r')
            | _ => parse_items fuel' r []
            end
          else if n =? 34 then
            match parse_chars r with
            | Some (str, r') => Some (JStr str, r')
            | None => None
            end
          else if n =? 45 then
            match parse_int r with
            | Some (k, r') => Some (JInt (- k), r')
            | None => None
            end
          else if is_digit c then
            match parse_int (String c r) with
            | Some (k, r') => Some (JInt k, r')
            | None => None
            end
          else
            match expect "null" (String c r), expect "true" (String c r),
                  expect "false" (String c r) with
            | Some r', _, _ => Some (JNull, r')
            | _, Some r', _ => Some (JBool true, r')
            | _, _, Some r' => Some (JBool false, r')
            | _, _, _ => None
            end
      end
  end
with parse_items (fuel : nat) (s : string) (acc : list json)
  : option (json * string) :=
  match fuel with
  | O => None
  | S fuel' =>
      match parse_value fuel' s with
      | Some (v, r) =>
          match skip_ws r with
          | String "," r' => parse_items fuel' r' (acc ++ [v])
          | String "]" r' => Some (JList (acc ++ [v]), r')
          | _ => None
          end
      | None => None
      end
  end
with parse_members (fuel : nat) (s : string) (acc : list (string * json))
  : option (json * string) :=
  match fuel with
  | O => None
  | S fuel' =>
      match skip_ws s with
      | String c r =>
          if negb (code c =? 34) then None
          else
            match parse_chars r with
            | Some (k, r1) =>
                match skip_ws r1 with
                | String ":" r2 =>
                    match parse_value fuel' r2 with
                    | Some (v, r3) =>
                        match skip_ws r3 with
                        | String "," r4 => parse_members fuel' r4 (dict_set k v acc)
                        | String "}" r4 => Some (JDict (dict_set k v acc), r4)
                        | _ => None
                        end
                    | None => None
                    end
                | _ => None
                end
            | None => None
            end
      | EmptyString => None
      end
  end.

Definition string_of_bytes (data : list byte) : string :=
  string_of_list_ascii (map ascii_of_byte data).

Definition loads (data : list byte) : result json :=
  let s := string_of_bytes data in
  match parse_value (2 * String.length s + 2) s with
  | Some (v, r) =>
      match skip_ws r with
      | EmptyString => inr v
      | _ => inl JSONDecodeError
      end
  | None => inl JSONDecodeError
  end.

Definition codec : JsonCodec := {| json_dumps := dumps; json_loads := loads |}.

End JsonText.

Definition sample_record : json :=
  JDict [ ("version", JStr "v1"); ("n", JInt (-42)); ("ok", JBool true);
          ("tags", JList [JStr "a\b"; JNull; JList []]); ("metadata", JDict []) ].

#[global] Arguments os_makedirs : simpl never.
#[global] Arguments shutil_copy2 : simpl never.
#[global] Arguments shutil_rmtree : simpl never.
#[global] Arguments open_write : simpl never.
#[global] Arguments open_read : simpl never.
#[global] Arguments os_listdir : simpl never.
#[global] Arguments os_path_exists : simpl never.
#[global] Arguments os_path_getsize : simpl never.
#[global] Arguments utcnow : simpl never.
#[global] Arguments calculate_file_hash : simpl never.
#[global] Arguments generate_version_id : simpl never.
#[global] Arguments bind : simpl never.

(** ** Vocabulary of the properties *)

(** The id [generate_version_id] builds from a clock reading and the bytes
    of the artifact. *)
Definition version_id_of (t : datetime) (data : list byte) : string :=
  "v" +:+ strftime_compact t +:+ "_" +:+ substring 0 8 (SHA256.hexdigest data).

Definition is_decimal (c : ascii) : bool :=
  let n := JsonText.code c in (48 <=? n) && (n <=? 57).

Definition is_lower_hex (c : ascii) : bool :=
  let n := JsonText.code c in
  ((48 <=? n) && (n <=? 57)) || ((97 <=? n) && (n <=? 102)).

Fixpoint all_chars (p : ascii -> bool) (s : string) : bool :=
  match s with
  | EmptyString => true
  | String c s' => p c && all_chars p s'
  end.

(** [v<YYYYMMDD_HHMMSS>_<hash8>]: the letter v, eight digits, an
    underscore, six digits, an underscore, eight lower-case hex digits. *)
Definition version_id_format (s : string) : bool :=
  (String.length s =? 25)%nat &&
  String.eqb (substring 0 1 s) "v" &&
  all_chars is_decimal (substring 1 8 s) &&
  String.eqb (substring 9 1 s) "_" &&
  all_chars is_decimal (substring 10 6 s) &&
  String.eqb (substring 16 1 s) "_" &&
  all_chars is_lower_hex (substring 17 8 s).

(** The last [n] characters of [s]. *)
Definition str_suffix (n : nat) (s : string) : string :=
  substring (String.length s - n) n s.

Definition hex_string8 (s : string) : Prop :=
  String.length s = 8%nat /\ all_chars is_lower_hex s = true.

Definition digits_of_width (width : nat) (s : string) : bool :=
  (String.length s =? width)%nat && all_chars is_decimal s.

(** Nothing exists at [d] or below it. *)
Definition fresh_dir (m : gmap path node) (d : path) : bool :=
  forallb (fun kv => negb (is_under d (fst kv))) (map_to_list m).

Definition not_a_file (m : gmap path node) (p : path) : bool :=
  match m !! p with
  | Some (File _) => false
  | _ => true
  end.

Definition is_dir (m : gmap path node) (p : path) : bool :=
  match m !! p with
  | Some Dir => true
  | _ => false
  end.

(** What [create_version] needs beyond a readable artifact holding [data]:
    no regular file where the versions root, the model directory or the
    version directory go; the artifact is not already the copy in that
    version directory; no directory has the name of the copy or of the
    metadata file there. *)
Definition can_create (model_name : string) (model_file : path) (w : world)
    (data : list byte) : bool :=
  let version := version_id_of (clock w (ticks w)) data in
  let version_dir := ["model_versions"; model_name; version] in
  not_a_file (fs w) ["model_versions"] &&
  not_a_file (fs w) ["model_versions"; model_name] &&
  not_a_file (fs w) version_dir &&
  negb (bool_decide (model_file = version_dir ++ [basename model_file])) &&
  negb (is_dir (fs w) (version_dir ++ [basename model_file])) &&
  negb (is_dir (fs w) (version_dir ++ ["metadata.json"])).

Definition tick (w : world) : world := World (fs w) (clock w) (S (ticks w)).

(** The directories [a], [a/b] and [a/b/c] added to a directory tree. *)
Definition with_dirs (a b c : string) (m : gmap path node) : gmap path node :=
  <[ [a; b; c] := Dir ]> (<[ [a; b] := Dir ]> (<[ [a] := Dir ]> m)).

#[global] Arguments with_dirs : simpl never.

(** First exception of a run of results, or the values in order; an entry
    [None] is passed over. *)
Fixpoint collect {A : Type} (l : list (option (result A))) : result (list A) :=
  match l with
  | [] => inr []
  | None :: l' => collect l'
  | Some (inl e) :: _ => inl e
  | Some (inr x) :: l' =>
      match collect l' with
      | inl e => inl e
      | inr xs => inr (x :: xs)
      end
  end.

Definition created_at_of (record : json) : string :=
  match py_getitem record "created_at" with
  | inr (JStr s) => s
  | _ => ""
  end.

(** [a] is at least as recent as [b], by their [created_at] strings. *)
Definition not_older (a b : json) : Prop :=
  String.le (created_at_of b) (created_at_of a).

(** Keys that are the [created_at] string of their record, and their
    order. *)
Definition created_key (p : json * json) : Prop :=
  fst p = JStr (created_at_of (snd p)).

Definition key_le (p q : json * json) : Prop :=
  String.le (created_at_of (snd p)) (created_at_of (snd q)).

Definition is_version_record (record : json) : bool :=
  match py_getitem record "file_hash", py_getitem record "created_at",
        py_get record "file_size_bytes" (JInt 0) with
  | inr (JStr _), inr (JStr _), inr (JInt _) => true
  | _, _, _ => false
  end.

Section Vocabulary.

Context `{JsonCodec}.

(** What [list_versions] finds for the entry [version_id] of [model_dir]:
    nothing when there is no metadata file, else what loading it gives. *)
Definition entry_result (m : gmap path node) (model_dir : path)
    (version_id : string) : option (result json) :=
  match m !! (model_dir ++ [version_id; "metadata.json"]) with
  | None => None
  | Some (File data) => Some (json_loads data)
  | Some Dir => Some (inl IsADirectoryError)
  end.

Definition has_metadata (m : gmap path node) (model_dir : path)
    (version_id : string) : bool :=
  bool_decide (is_Some (m !! (model_dir ++ [version_id; "metadata.json"]))).

(** The record of an entry whose metadata file loads. *)
Definition entry_record (m : gmap path node) (model_dir : path)
    (version_id : string) : option json :=
  match entry_result m model_dir version_id with
  | Some (inr record) => Some record
  | _ => None
  end.

(** The records of the model's version directories, in the order the
    directories are enumerated. *)
Definition version_records (model_name : string) (m : gmap path node)
    : list json :=
  omap (entry_record m [versions_dir; model_name])
       (dir_names m [versions_dir; model_name]).

(** A metadata file that does not load, or loads to a value without a
    [created_at] entry. *)
Definition corrupt_metadata (data : list byte) : bool :=
  match json_loads data with
  | inl _ => true
  | inr record =>
      match py_getitem record "created_at" with
      | inl _ => true
      | inr _ => false
      end
  end.

(** Every metadata file of the model holds a record with a [created_at]
    string. *)
Definition metadata_valid (model_name : string) (m : gmap path node) : bool :=
  forallb
    (fun n =>
       match entry_result m [versions_dir; model_name] n with
       | None => true
       | Some (inr record) =>
           match py_getitem record "created_at" with
           | inr (JStr _) => true
           | _ => false
           end
       | Some (inl _) => false
       end)
    (dir_names m [versions_dir; model_name]).

(** Every metadata record of the model that names a version names the
    directory it lies in, as the records [create_version] writes do. *)
Definition metadata_named (model_name : string) (m : gmap path node) : bool :=
  forallb
    (fun n =>
       match entry_result m [versions_dir; model_name] n with
       | Some (inr record) =>
           match py_getitem record "version" with
           | inr (JStr s) => String.eqb s n
           | _ => true
           end
       | _ => true
       end)
    (dir_names m [versions_dir; model_name]).

(** The record [create_version] writes for an artifact holding [data],
    when the clock is read at [t_id] for the id and at [t_meta] for
    [created_at]. *)
Definition written_record (model_name : string) (metadata : json)
    (t_id t_meta : datetime) (data : list byte) : json :=
  version_metadata (version_id_of t_id data) model_name (isoformat t_meta)
    metadata (SHA256.hexdigest data) (Z.of_nat (length data)).

(** The directory tree a successful [create_version] leaves. *)
Definition created_fs (model_name : string) (model_file : path)
    (metadata : json) (w : world) (data : list byte) : gmap path node :=
  let version := version_id_of (clock w (ticks w)) data in
  let version_dir := [versions_dir; model_name; version] in
  <[ version_dir ++ ["metadata.json"] :=
       File (json_dumps (written_record model_name metadata
               (clock w (ticks w)) (clock w (S (ticks w))) data)) ]>
    (<[ version_dir ++ [basename model_file] := File data ]>
       (with_dirs versions_dir model_name version (fs w))).

(** What the listing theorems ask of the entry [n] of a model: if it has a
    metadata file, the file loads to a record with a [created_at] string
    that names [n] as its version. *)
Definition entry_ok (m : gmap path node) (name n : string) : bool :=
  match entry_result m [versions_dir; name] n with
  | None => true
  | Some (inl _) => false
  | Some (inr record) =>
      match py_getitem record "created_at", py_getitem record "version" with
      | inr (JStr _), inr (JStr s) => String.eqb s n
      | _, _ => false
      end
  end.

Definition store_ok (name : string) (m : gmap path node) : bool :=
  forallb (entry_ok m name) (dir_names m [versions_dir; name]).

End Vocabulary.

(** ** More vocabulary *)


(** The entry of a model in the answer of [list_all_versioned_models]. *)
Definition model_entry (versions : list json) : json :=
  JDict [ ("total_versions", py_len versions);
          ("latest_version", first_or_none versions);
          ("versions", JList versions) ].

(** The entries of the versions root that are directories: the models. *)
Definition model_dirs (m : gmap path node) : list string :=
  List.filter (fun name => is_dir m ["model_versions"; name])
    (dir_names m ["model_versions"]).

Section MoreVocabulary.

Context `{JsonCodec}.

(** The metadata files of every model hold records with a [created_at]
    string. *)
Definition all_metadata_valid (m : gmap path node) : bool :=
  forallb (fun name => metadata_valid name m) (model_dirs m).

End MoreVocabulary.



(** The version directories of a model, with or without a metadata
    file. *)
Definition version_dirs (m : gmap path node) (name : string) : list string :=
  List.filter (fun v => is_dir m ["model_versions"; name; v])
    (dir_names m ["model_versions"; name]).

(** The number of version directories of all models. *)
Definition count_version_dirs (m : gmap path node) : Z :=
  Z.of_nat (list_sum (map (fun name => length (version_dirs m name)) (model_dirs m))).

(** ** Sample worlds

    Small directory trees and clocks on which the helper is run with the
    JSON text codec. *)
Module Sample.

#[local] Existing Instance JsonText.codec.

(** Every reading falls in the same second. *)
Definition same_second (n : nat) : datetime :=
  Datetime 2025 6 3 19 58 50 (Z.of_nat n).

(** One second passes between two readings. *)
Definition ticking (n : nat) : datetime :=
  Datetime 2025 6 3 19 58 (Z.of_nat n) 0.

(** A serving directory: one trained model, and a backup of it. *)
Definition tree : gmap path node :=
  list_to_map
    [ (["models"], Dir);
      (["models"; "demo_model.pkl"], File (bytes_of_string "X"));
      (["backup"], Dir);
      (["backup"; "b.pkl"], File (bytes_of_string "X")) ].

Definition start : world := snd (init (World tree same_second 0)).

Definition v : string := "v20250603_195850_4b68ab38".

Definition first : result string * world :=
  create_version "demo" ["models"; "demo_model.pkl"]
    (JDict [("note", JStr "first")]) start.

(** The backup, byte for byte the same artifact, within the same second. *)
Definition second : result string * world :=
  create_version "demo" ["backup"; "b.pkl"]
    (JDict [("note", JStr "second")]) (snd first).




(** Two versions of the model, taken two seconds apart. *)
Definition history : world :=
  snd ((let* _ := init in
        let* _ := create_version "demo" ["models"; "demo_model.pkl"] (JDict []) in
        create_version "demo" ["backup"; "b.pkl"] (JDict []))
         (World tree ticking 0)).

Definition older : string := "v20250603_195800_4b68ab38".
Definition newer : string := "v20250603_195802_4b68ab38".

Definition after_delete : result bool * world :=
  delete_version "demo" newer history.

Definition listing : result (list json) * world :=
  list_versions "demo" (snd after_delete).

(** What is left of the history once [newer] is deleted. *)
Definition remaining : list json :=
  [ JDict [ ("version", JStr older);
            ("model_name", JStr "demo");
            ("created_at", JStr "2025-06-03T19:58:01");
            ("created_by", JStr "asarekings");
            ("metadata", JDict []);
            ("file_hash", JStr (SHA256.hexdigest (bytes_of_string "X")));
            ("file_size_bytes", JInt 1);
            ("platform", JStr "Enhanced MLOps Platform") ] ].


(** A version directory whose metadata file is not JSON. *)
Definition corrupt : world :=
  World (list_to_map
           [ ([versions_dir], Dir);
             ([versions_dir; "demo"], Dir);
             ([versions_dir; "demo"; "v1"], Dir);
             ([versions_dir; "demo"; "v1"; "metadata.json"],
              File (bytes_of_string "not json")) ])
        same_second 0.

End Sample.

(** ** More sample worlds *)
Module Scenario.

#[local] Existing Instance JsonText.codec.

(** The serving directory once one version of the model exists, the clock
    moving by a second between two readings. *)
Definition one : world :=
  snd ((let* _ := init in
        create_version "demo" ["models"; "demo_model.pkl"] (JDict []))
         (World Sample.tree Sample.ticking 0)).

(** A second version, taken from the backup two seconds later. *)
Definition two : result string * world :=
  create_version "demo" ["backup"; "b.pkl"] (JDict []) one.

(** A model exported in another format. *)
Definition exports : world :=
  World (list_to_map [ (["models"], Dir);
                       (["exports"], Dir);
                       (["exports"; "demo.onnx"], File (bytes_of_string "X")) ])
        Sample.same_second 0.

Definition exported : result string * world :=
  create_version "demo" ["exports"; "demo.onnx"] (JDict []) exports.

(** The record in the metadata file of a version of the model. *)
Definition record_of (w : world) (version : string) : json :=
  match fst (load_metadata "demo" version w) with
  | inr record => record
  | inl _ => JNull
  end.

(** The versions of two models side by side under the versions root. *)
Definition shared : world :=
  snd (create_version "other" ["backup"; "b.pkl"] (JDict []) Sample.history).

(** What a request for the version [..] of the model leaves of them. *)
Definition emptied : result bool * world := delete_version "demo" ".." shared.

(** A version whose metadata file holds an empty JSON object, and one whose
    record has no [file_hash]. *)
Definition blank : world :=
  World (list_to_map
           [ ([versions_dir], Dir);
             ([versions_dir; "demo"], Dir);
             ([versions_dir; "demo"; "v1"], Dir);
             ([versions_dir; "demo"; "v1"; "metadata.json"],
              File (bytes_of_string "{}"));
             ([versions_dir; "demo"; "v2"], Dir);
             ([versions_dir; "demo"; "v2"; "metadata.json"],
              File (JsonText.dumps
                      (JDict [("created_at", JStr "2025-06-03T19:58:00")]))) ])
        Sample.same_second 0.

(** No pattern matches anything. *)
Definition no_match (pattern : path) (m : gmap path node) : list path := [].

(** The text of an exception, for the health check. *)
Definition text_of (e : raised) : string :=
  match e with
  | Python NotADirectoryError => "Not a directory"
  | _ => "error"
  end.

End Scenario.

(** * Properties *)

(** ** Paths and directories *)

Lemma split_under_app (d q : path) : split_under d (d ++ q) = Some q.
Proof.
  induction d as [|x d IH]; simpl; [done|].
  by rewrite String.eqb_refl.
Qed.

Lemma split_under_Some (d p q : path) :
  split_under d p = Some q -> p = d ++ q.
Proof.
  revert p. induction d as [|x d IH]; intros [|y p]; simpl; try congruence.
  destruct (String.eqb_spec x y) as [->|]; [|done].
  intros Hq. by rewrite (IH _ Hq).
Qed.

Lemma child_of_Some (d p : path) (n : string) :
  child_of d p = Some n <-> p = d ++ [n].
Proof.
  unfold child_of. split.
  - destruct (split_under d p) as [[|x [|? ?]]|] eqn:E; try done.
    intros [= ->]. by apply split_under_Some.
  - intros ->. by rewrite split_under_app.
Qed.

Lemma is_under_true (d p : path) :
  is_under d p = true <-> exists q, p = d ++ q.
Proof.
  unfold is_under. split.
  - destruct (split_under d p) eqn:E; [|done].
    intros _. eexists. by apply split_under_Some.
  - intros [q ->]. by rewrite split_under_app.
Qed.

Lemma is_under_app (d q : path) : is_under d (d ++ q) = true.
Proof. apply is_under_true. by exists q. Qed.

Lemma elem_of_dir_names (m : gmap path node) (d : path) (n : string) :
  n ∈ dir_names m d <-> is_Some (m !! (d ++ [n])).
Proof.
  unfold dir_names. rewrite list_elem_of_omap. split.
  - intros [[p x] [Hin Hc]]. simpl in Hc.
    apply child_of_Some in Hc as ->.
    apply elem_of_map_to_list in Hin. by exists x.
  - intros [x Hx]. exists (d ++ [n], x). split.
    + by apply elem_of_map_to_list.
    + simpl. by apply child_of_Some.
Qed.

Lemma NoDup_dir_names (m : gmap path node) (d : path) : NoDup (dir_names m d).
Proof.
  unfold dir_names.
  pose proof (NoDup_fst_map_to_list m) as Hnd.
  induction (map_to_list m) as [|[p x] l IH]; simpl in *; [constructor|].
  apply NoDup_cons in Hnd as [Hp Hnd].
  destruct (child_of d p) as [n|] eqn:E; [|by apply IH].
  apply NoDup_cons. split; [|by apply IH].
  intros Hin. apply Hp.
  apply list_elem_of_omap in Hin as [[p' x'] [Hin Hc]]. simpl in Hc.
  apply child_of_Some in E as ->. apply child_of_Some in Hc as ->.
  apply list_elem_of_fmap. by exists (d ++ [n], x').
Qed.

Lemma fresh_dir_true (m : gmap path node) (d : path) :
  fresh_dir m d = true <-> forall q, m !! (d ++ q) = None.
Proof.
  unfold fresh_dir. rewrite forallb_forall. split.
  - intros Hall q. destruct (m !! (d ++ q)) as [x|] eqn:E; [|done].
    apply elem_of_map_to_list, list_elem_of_In, Hall in E. simpl in E.
    by rewrite is_under_app in E.
  - intros Hnone [p x] Hin. simpl.
    apply list_elem_of_In, elem_of_map_to_list in Hin.
    destruct (is_under d p) eqn:E; [|done].
    apply is_under_true in E as [q ->]. by rewrite Hnone in Hin.
Qed.

Lemma lookup_rmtree (m : gmap path node) (d p : path) :
  filter (fun kv => is_under d (fst kv) = false) m !! p =
  if is_under d p then None else m !! p.
Proof.
  destruct (is_under d p) eqn:E.
  - apply map_lookup_filter_None. right. intros x _. simpl. congruence.
  - destruct (m !! p) as [x|] eqn:Hp.
    + by apply map_lookup_filter_Some.
    + apply map_lookup_filter_None. by left.
Qed.

(** ** Joined paths *)

Lemma plain_name_spec (s : string) :
  plain_name s = true <->
  s <> "" /\ s <> "." /\ s <> ".." /\ has_slash s = false.
Proof.
  unfold plain_name. rewrite !andb_true_iff, !negb_true_iff.
  rewrite !String.eqb_neq. tauto.
Qed.

Lemma split_slash_cons (s : string) : exists x xs, split_slash s = x :: xs.
Proof.
  destruct s as [|c s]; simpl; [by eauto|].
  destruct (Ascii.eqb c "/"); [by eauto|].
  destruct (split_slash s); by eauto.
Qed.

Lemma split_slash_plain (s : string) :
  has_slash s = false -> split_slash s = [s].
Proof.
  induction s as [|c s IH]; simpl; [done|].
  intros [Hc Hs]%orb_false_iff. rewrite Hc. by rewrite (IH Hs).
Qed.

Lemma split_slash_app (a b : string) :
  split_slash (a +:+ String "/" b) = split_slash a ++ split_slash b.
Proof.
  induction a as [|c a IH]; simpl; [done|].
  destruct (Ascii.eqb c "/"); [by rewrite IH|].
  rewrite IH. by destruct (split_slash_cons a) as (x & xs & ->).
Qed.

Lemma starts_with_slash_plain (s : string) :
  has_slash s = false -> starts_with_slash s = false.
Proof. destruct s as [|c s]; simpl; [done|]. by intros [? ?]%orb_false_iff. Qed.

Lemma ends_with_slash_plain (s : string) :
  has_slash s = false -> ends_with_slash s = false.
Proof.
  induction s as [|c s IH]; simpl; [done|].
  intros [Hc Hs]%orb_false_iff. destruct s; [done|]. by apply IH.
Qed.

Lemma ends_with_slash_app (a b : string) :
  b <> "" -> ends_with_slash (a +:+ b) = ends_with_slash b.
Proof.
  intros Hb. induction a as [|c a IH]; simpl; [done|].
  destruct (a +:+ b) eqn:E; [|done].
  destruct a; simpl in E; [done|discriminate].
Qed.

Lemma append_not_empty (a b : string) : b <> "" -> a +:+ b <> "".
Proof. destruct a; simpl; [done|discriminate]. Qed.

Lemma join2_plain (a b : string) :
  joinable a -> plain_name b = true ->
  join2 a b = a +:+ String "/" b /\ joinable (join2 a b).
Proof.
  intros [Ha Hend] (Hb & _ & _ & Hslash)%plain_name_spec.
  unfold join2. rewrite (starts_with_slash_plain _ Hslash), Hend.
  apply String.eqb_neq in Ha as ->. simpl. split; [done|]. split.
  - by apply append_not_empty.
  - rewrite ends_with_slash_app by done. simpl.
    destruct b; [done|]. by apply (ends_with_slash_plain (String _ _)).
Qed.

Lemma fold_join2_plain (rest : list string) (a : string) :
  joinable a -> Forall (fun s => plain_name s = true) rest ->
  joinable (fold_left join2 rest a) /\
  split_slash (fold_left join2 rest a) = split_slash a ++ rest.
Proof.
  revert a. induction rest as [|b rest IH]; intros a Ha Hrest; simpl.
  - split; [done|]. by rewrite app_nil_r.
  - apply Forall_cons in Hrest as [Hb Hrest].
    destruct (join2_plain a b Ha Hb) as [Heq Hja].
    destruct (IH _ Hja Hrest) as [Hj Hs]. split; [done|].
    rewrite Hs, Heq, split_slash_app.
    apply plain_name_spec in Hb as (_ & _ & _ & Hb).
    by rewrite (split_slash_plain b), <- app_assoc.
Qed.

Lemma os_path_join_plain (p : path) :
  p <> [] -> Forall (fun s => plain_name s = true) p ->
  os_path_join p <> "" /\ split_slash (os_path_join p) = p.
Proof.
  destruct p as [|a rest]; [done|]. intros _ [Ha Hrest]%Forall_cons. simpl.
  pose proof Ha as (Hne & _ & _ & Hslash)%plain_name_spec.
  destruct (fold_join2_plain rest a) as [[Hj _] Hs]; [|done|].
  { split; [done|]. by apply ends_with_slash_plain. }
  split; [done|]. by rewrite Hs, split_slash_plain.
Qed.

(** Plain components are followed entry by entry. *)
Lemma follow_plain (m : gmap path node) (components : list string)
    (d t : path) :
  Forall (fun s => plain_name s = true) components ->
  follow m d components = Some t ->
  t = d ++ components /\ (components <> [] -> is_Some (m !! t)).
Proof.
  revert d. induction components as [|c rest IH]; intros d Hall; simpl.
  - intros [= <-]. by rewrite app_nil_r.
  - apply Forall_cons in Hall as [Hc Hrest].
    apply plain_name_spec in Hc as (H1 & H2 & H3 & _).
    apply String.eqb_neq in H1, H2, H3. rewrite H1, H2, H3. simpl.
    destruct (negb _); [done|].
    destruct (m !! (d ++ [c])) as [x|] eqn:E; [|done].
    intros Hf. destruct (IH _ Hrest Hf) as [Ht Hex].
    rewrite <- app_assoc in Ht. split; [done|]. intros _.
    destruct rest as [|c' rest]; [|by apply Hex].
    simpl in Hf. injection Hf as <-. by exists x.
Qed.

(** For plain parts the joined path names the entry stored under them,
    or nothing. *)
Lemma reading_plain (m : gmap path node) (p t : path) :
  Forall (fun s => plain_name s = true) p ->
  reading m p = Some t -> t = p /\ is_Some (m !! p).
Proof.
  intros Hp. unfold reading.
  destruct p as [|a rest]; [done|].
  destruct (os_path_join_plain (a :: rest)) as [Hne Hs]; [done|done|].
  apply String.eqb_neq in Hne as ->. rewrite Hs.
  intros Hf. apply follow_plain in Hf as [-> Hex]; [|done].
  split; [done|]. by apply Hex.
Qed.

Lemma locate_plain (m : gmap path node) (p : path) :
  Forall (fun s => plain_name s = true) p ->
  locate m p = match m !! p with Some _ => Some p | None => None end.
Proof.
  intros Hp. unfold locate. destruct (m !! p) as [x|] eqn:E; [done|].
  destruct (reading m p) as [t|] eqn:Hr; [|done].
  apply reading_plain in Hr as [_ [? ?]]; [congruence|done].
Qed.

(** The entry a path leads to does not depend on the tree, only whether
    it leads there. *)
Lemma follow_target (m m' : gmap path node) (components : list string)
    (d t t' : path) :
  follow m d components = Some t -> follow m' d components = Some t' ->
  t = t'.
Proof.
  revert d. induction components as [|c rest IH]; intros d; simpl.
  - congruence.
  - destruct (negb (searchable m d)); [done|].
    destruct (negb (searchable m' d)); [done|].
    destruct (_ || _); [by apply IH|].
    destruct (String.eqb c ".."); [by apply IH|].
    destruct (m !! (d ++ [c])); [|done].
    destruct (m' !! (d ++ [c])); [|done]. by apply IH.
Qed.

Lemma reached_parent (m : gmap path node) (d : path) :
  reached m d -> reached m (parent d).
Proof.
  intros Hd q Hq. apply Hd. etrans; [exact Hq|].
  unfold parent. destruct d as [|x d] using rev_ind; simpl; [done|].
  rewrite removelast_last. by apply prefix_app_r.
Qed.

Lemma reached_entry (m : gmap path node) (d : path) (c : string) :
  reached m d -> is_Some (m !! (d ++ [c])) -> reached m (d ++ [c]).
Proof.
  intros Hd Hc q [k Hk].
  destruct k as [|x k _] using rev_ind.
  - rewrite app_nil_r in Hk. subst q. by right.
  - rewrite app_assoc in Hk. apply app_inj_tail in Hk as [-> _].
    apply Hd. by apply prefix_app_r.
Qed.

Lemma follow_reached (m : gmap path node) (components : list string)
    (d t : path) :
  reached m d -> follow m d components = Some t -> reached m t.
Proof.
  revert d. induction components as [|c rest IH]; intros d Hd; simpl.
  - by intros [= <-].
  - destruct (negb _); [done|].
    destruct (_ || _); [by apply IH|].
    destruct (String.eqb c ".."); [apply IH; by apply reached_parent|].
    destruct (m !! (d ++ [c])) as [x|] eqn:E; [|done].
    apply IH. apply reached_entry; [done|by exists x].
Qed.

Lemma reading_entry (m : gmap path node) (p t : path) :
  reading m p = Some t -> t = [] \/ is_Some (m !! t).
Proof.
  unfold reading. destruct (String.eqb _ _); [done|].
  intros Hf. apply (follow_reached m _ [] t) in Hf; [by apply Hf|].
  intros q ->%prefix_nil_inv. by left.
Qed.

Lemma reading_target (m m' : gmap path node) (p t t' : path) :
  reading m p = Some t -> reading m' p = Some t' -> t = t'.
Proof.
  unfold reading. destruct (String.eqb _ _); [done|]. apply follow_target.
Qed.

(** [shutil.rmtree] of a joined path only removes entries, whatever its
    outcome, and leaves the clock alone. *)
Lemma shutil_rmtree_joined_shrinks (p : path) (w w' : world) (r : result unit) :
  shutil_rmtree_joined p w = (r, w') ->
  fs w' ⊆ fs w /\ clock w' = clock w /\ ticks w' = ticks w.
Proof.
  assert (forall m : gmap path node, m ⊆ m) as Hrefl by done.
  unfold shutil_rmtree_joined, shutil_rmtree.
  destruct (fs w !! p) as [[data|]|] eqn:Hp.
  - intros [= _ <-]. by split.
  - intros [= _ <-]. simpl. split; [apply map_filter_subseteq|done].
  - destruct (reading (fs w) p) as [d|]; [|intros [= _ <-]; by split].
    destruct (negb _); [intros [= _ <-]; by split|].
    destruct (reading _ p); [|intros [= _ <-]; simpl; split;
                                [apply map_filter_subseteq|done]].
    destruct (_ || _); intros [= _ <-]; simpl;
      (split; [apply map_filter_subseteq|done]).
Qed.

(** When it returns, nothing is left under the parts of the path, and the
    path that was read leads nowhere any more. *)
Lemma shutil_rmtree_joined_gone (p : path) (w w' : world) :
  shutil_rmtree_joined p w = (inr tt, w') ->
  fs w' !! p = None /\
  (fs w !! p = None -> reading (fs w') p = None).
Proof.
  unfold shutil_rmtree_joined.
  destruct (fs w !! p) as [x|] eqn:Hp.
  - unfold shutil_rmtree. rewrite Hp. destruct x as [data|]; [done|].
    intros [= <-]. simpl. split; [|done]. rewrite lookup_rmtree.
    pose proof (is_under_app p []) as Hu. rewrite app_nil_r in Hu.
    by rewrite Hu.
  - destruct (reading (fs w) p) as [d|] eqn:Hr; [|done].
    destruct (searchable (fs w) d); simpl; [|done].
    match goal with
    | |- context [reading ?m p] => destruct (reading m p) as [t|] eqn:Hr2
    end; [|done].
    destruct (dot_last _); simpl; [done|].
    case_bool_decide as Hd; [done|]. intros [= <-]. simpl. split.
    + rewrite lookup_rmtree. by destruct (is_under d p).
    + intros _.
      match goal with
      | |- reading ?m p = None => destruct (reading m p) as [t'|] eqn:Hr'
      end; [|done].
      assert (t' = d) as -> by (symmetry; by eapply reading_target).
      apply reading_entry in Hr' as [->|[x Hx]]; [done|].
      rewrite lookup_rmtree in Hx.
      pose proof (is_under_app d []) as Hu. rewrite app_nil_r in Hu.
      by rewrite Hu in Hx.
Qed.

(** In a well-formed tree the entry stored under the parts of a path is
    the one the kernel finds when it reads the joined path. *)
Lemma well_formed_entry (m : gmap path node) (p : path) :
  well_formed m = true -> is_Some (m !! p) ->
  p <> [] /\ Forall (fun s => plain_name s = true) p /\
  parent_node m p = Some Dir.
Proof.
  unfold well_formed. rewrite forallb_forall. intros Hwf [x Hx].
  apply elem_of_map_to_list, list_elem_of_In, Hwf in Hx. simpl in Hx.
  destruct p as [|c p]; [done|].
  apply andb_true_iff in Hx as [Hplain Hparent]. split; [done|]. split.
  - apply Forall_forall. intros s Hs.
    rewrite forallb_forall in Hplain. by apply Hplain, list_elem_of_In.
  - by destruct (parent_node m (c :: p)) as [[|]|].
Qed.

Lemma well_formed_prefix (m : gmap path node) (q r : path) :
  well_formed m = true -> q <> [] -> r <> [] ->
  is_Some (m !! (q ++ r)) -> m !! q = Some Dir.
Proof.
  intros Hwf Hq. induction r as [|x r IH] using rev_ind; [done|].
  intros _ Hkey.
  destruct (well_formed_entry m _ Hwf Hkey) as (_ & _ & Hparent).
  unfold parent_node, parent in Hparent.
  rewrite app_assoc, removelast_last in Hparent.
  assert (m !! (q ++ r) = Some Dir) as Hdir.
  { destruct q as [|a q]; [done|]. exact Hparent. }
  destruct r as [|y r].
  - by rewrite app_nil_r in Hdir.
  - apply IH; [done|]. by rewrite Hdir.
Qed.

Lemma well_formed_follow (m : gmap path node) (components : list string)
    (d : path) :
  well_formed m = true -> components <> [] ->
  is_Some (m !! (d ++ components)) -> searchable m d = true ->
  follow m d components = Some (d ++ components).
Proof.
  intros Hwf. revert d. induction components as [|c rest IH]; [done|].
  intros d _ Hkey Hd. simpl. rewrite Hd. simpl.
  destruct (well_formed_entry m _ Hwf Hkey) as (_ & Hplain & _).
  apply Forall_app in Hplain as [_ [Hc _]%Forall_cons].
  apply plain_name_spec in Hc as (H1 & H2 & H3 & _).
  apply String.eqb_neq in H1, H2, H3. rewrite H1, H2, H3. simpl.
  destruct rest as [|c' rest].
  - destruct Hkey as [x ->]. done.
  - assert (m !! (d ++ [c]) = Some Dir) as Hdir.
    { apply (well_formed_prefix m _ (c' :: rest)); [done|by destruct d|done|].
      by rewrite <- app_assoc. }
    rewrite Hdir, IH; [by rewrite <- app_assoc|done|by rewrite <- app_assoc|].
    unfold searchable. rewrite Hdir. by destruct (d ++ [c]).
Qed.

Lemma locate_well_formed (m : gmap path node) (p : path) :
  well_formed m = true -> locate m p = reading m p.
Proof.
  intros Hwf. unfold locate. destruct (m !! p) as [x|] eqn:Hp; [|done].
  assert (is_Some (m !! p)) as Hkey by (by exists x).
  destruct (well_formed_entry m p Hwf Hkey) as (Hne & Hplain & _).
  unfold reading.
  destruct (os_path_join_plain p Hne Hplain) as [Hs ->].
  apply String.eqb_neq in Hs as ->.
  by rewrite (well_formed_follow m p []).
Qed.

(** ** Reading and hashing a file *)

Lemma read_chunks_all (fuel : nat) (rest fed : list byte) :
  (length rest < fuel)%nat -> read_chunks fuel rest fed = fed ++ rest.
Proof.
  revert rest fed. induction fuel as [|fuel IH]; intros rest fed Hlt; [lia|].
  simpl. destruct (firstn chunk_size rest) as [|b chunk] eqn:E.
  - destruct rest as [|b rest]; [by rewrite app_nil_r|].
    unfold chunk_size in E. simpl in E. discriminate.
  - rewrite <- E. rewrite IH.
    + by rewrite <- app_assoc, firstn_skipn.
    + destruct rest as [|b' rest]; [done|].
      rewrite length_skipn. unfold chunk_size. simpl in *. lia.
Qed.

Lemma calculate_file_hash_file (p : path) (data : list byte) (w : world) :
  fs w !! p = Some (File data) ->
  calculate_file_hash p w = (inr (SHA256.hexdigest data), w).
Proof.
  intros Hp. unfold calculate_file_hash, bind, open_read, ret.
  rewrite Hp. by rewrite read_chunks_all by lia.
Qed.

Lemma calculate_file_hash_inv (p : path) (h : string) (w w' : world) :
  calculate_file_hash p w = (inr h, w') ->
  exists data, fs w !! p = Some (File data) /\ h = SHA256.hexdigest data /\ w' = w.
Proof.
  unfold calculate_file_hash, bind, open_read, ret.
  destruct (fs w !! p) as [[data|]|] eqn:Hp; try discriminate.
  rewrite read_chunks_all by lia. intros [= <- <-]. by exists data.
Qed.

Lemma generate_version_id_file (p : path) (data : list byte) (w : world) :
  fs w !! p = Some (File data) ->
  generate_version_id p w =
    (inr (version_id_of (clock w (ticks w)) data), tick w).
Proof.
  intros Hp. unfold generate_version_id, bind, utcnow.
  rewrite (calculate_file_hash_file p data) by done. done.
Qed.

(** ** Creating directories and files *)

Lemma set_fs_id (w : world) : set_fs w (fs w) = w.
Proof. by destruct w. Qed.

Lemma not_a_file_lookup (m : gmap path node) (p : path) :
  not_a_file m p = true -> m !! p = None \/ m !! p = Some Dir.
Proof. unfold not_a_file. destruct (m !! p) as [[|]|]; auto; discriminate. Qed.

Lemma os_makedirs_3 (a b c : string) (w : world) :
  not_a_file (fs w) [a] = true ->
  not_a_file (fs w) [a; b] = true ->
  not_a_file (fs w) [a; b; c] = true ->
  os_makedirs [a; b; c] w = (inr tt, set_fs w (with_dirs a b c (fs w))).
Proof.
  intros Ha Hb Hc. destruct w as [m ck n]. simpl in *.
  apply not_a_file_lookup in Ha, Hb, Hc.
  unfold os_makedirs, with_dirs, set_fs, ret. simpl.
  destruct Ha as [Ha|Ha], Hb as [Hb|Hb], Hc as [Hc|Hc];
    rewrite Ha; simpl; rewrite ?lookup_insert_ne by done;
    rewrite Hb; simpl; rewrite ?lookup_insert_ne by done;
    rewrite Hc; simpl; do 2 f_equal;
    repeat first
      [ done
      | rewrite (insert_id _ [a; b; c] Dir) by (by rewrite ?lookup_insert_ne by done)
      | rewrite (insert_id _ [a; b] Dir) by (by rewrite ?lookup_insert_ne by done)
      | rewrite (insert_id _ [a] Dir) by (by rewrite ?lookup_insert_ne by done) ].
Qed.

Lemma os_makedirs_3_inv (a b c : string) (w w' : world) (u : unit) :
  os_makedirs [a; b; c] w = (inr u, w') ->
  not_a_file (fs w) [a] = true /\ not_a_file (fs w) [a; b] = true /\
  not_a_file (fs w) [a; b; c] = true /\
  w' = set_fs w (with_dirs a b c (fs w)).
Proof.
  intros Hrun.
  assert (not_a_file (fs w) [a] = true /\ not_a_file (fs w) [a; b] = true /\
          not_a_file (fs w) [a; b; c] = true) as (Ha & Hb & Hc).
  { revert Hrun. unfold os_makedirs, not_a_file, ret. simpl.
    destruct (fs w !! [a]) as [[|]|] eqn:Ha; simpl; try discriminate;
      rewrite ?lookup_insert_ne by done;
      destruct (fs w !! [a; b]) as [[|]|] eqn:Hb; simpl; try discriminate;
      rewrite ?lookup_insert_ne by done;
      destruct (fs w !! [a; b; c]) as [[|]|] eqn:Hc; simpl; try discriminate;
      done. }
  rewrite os_makedirs_3 in Hrun by done. by injection Hrun as <-.
Qed.

Lemma lookup_with_dirs_other (a b c : string) (m : gmap path node) (p : path) :
  p <> [a] -> p <> [a; b] -> p <> [a; b; c] ->
  with_dirs a b c m !! p = m !! p.
Proof. intros. unfold with_dirs. by rewrite !lookup_insert_ne. Qed.

Lemma lookup_with_dirs_deep (a b c x : string) (m : gmap path node) (q : path) :
  with_dirs a b c m !! (a :: b :: c :: x :: q) = m !! (a :: b :: c :: x :: q).
Proof. by apply lookup_with_dirs_other. Qed.

Lemma lookup_with_dirs_leaf (a b c : string) (m : gmap path node) :
  with_dirs a b c m !! [a; b; c] = Some Dir.
Proof. unfold with_dirs. by rewrite lookup_insert_eq. Qed.

Lemma with_dirs_keeps (a b c : string) (m : gmap path node) (p : path) (x : node) :
  not_a_file m [a] = true -> not_a_file m [a; b] = true ->
  not_a_file m [a; b; c] = true ->
  m !! p = Some x -> with_dirs a b c m !! p = Some x.
Proof.
  intros Ha Hb Hc Hp. unfold with_dirs, not_a_file in *.
  destruct (decide (p = [a; b; c])) as [->|]; [rewrite Hp in Hc|rewrite lookup_insert_ne by done].
  { rewrite lookup_insert_eq. by destruct x. }
  destruct (decide (p = [a; b])) as [->|]; [rewrite Hp in Hb|rewrite lookup_insert_ne by done].
  { rewrite lookup_insert_eq. by destruct x. }
  destruct (decide (p = [a])) as [->|]; [rewrite Hp in Ha|rewrite lookup_insert_ne by done].
  { rewrite lookup_insert_eq. by destruct x. }
  done.
Qed.

Lemma open_write_in_dir (d : path) (x : string) (data : list byte) (w : world) :
  d <> [] -> fs w !! d = Some Dir ->
  open_write (d ++ [x]) data w =
    match fs w !! (d ++ [x]) with
    | Some Dir => (inl IsADirectoryError, w)
    | _ => (inr tt, set_fs w (<[d ++ [x] := File data]> (fs w)))
    end.
Proof.
  intros Hd Hdir. unfold open_write, parent_node, parent.
  rewrite removelast_last.
  destruct d as [|s d]; [done|]. rewrite Hdir. simpl.
  by destruct (fs w !! (s :: d ++ [x])) as [[|]|].
Qed.

Lemma shutil_copy2_into (src dst : path) (data : list byte) (w : world) :
  dst <> [] -> fs w !! dst = Some Dir -> fs w !! src = Some (File data) ->
  shutil_copy2 src dst w =
    if bool_decide (src = dst ++ [basename src]) then (inl SameFileError, w)
    else
      match fs w !! (dst ++ [basename src]) with
      | Some Dir => (inl IsADirectoryError, w)
      | _ => (inr (dst ++ [basename src]),
              set_fs w (<[dst ++ [basename src] := File data]> (fs w)))
      end.
Proof.
  intros Hd Hdst Hsrc. unfold shutil_copy2. rewrite Hdst.
  rewrite (bool_decide_eq_true_2 (is_Some (fs w !! src))) by (by rewrite Hsrc).
  rewrite andb_true_r. case_bool_decide; [done|].
  unfold bind at 1. unfold open_read at 1. rewrite Hsrc.
  unfold bind. rewrite open_write_in_dir by done.
  by destruct (fs w !! (dst ++ [basename src])) as [[|]|].
Qed.

Section CreateVersion.

Context `{JsonCodec}.

Lemma create_version_inv (name : string) (file : path) (meta : json)
    (w w' : world) (v : string) :
  create_version name file meta w = (inr v, w') ->
  exists data,
    fs w !! file = Some (File data) /\
    v = version_id_of (clock w (ticks w)) data /\
    can_create name file w data = true /\
    w' = World (created_fs name file meta w data) (clock w) (S (S (ticks w))).
Proof.
  unfold create_version. unfold bind at 1. unfold os_path_exists at 1.
  case_bool_decide as Hex; simpl; [|unfold raise; discriminate].
  destruct Hex as [x Hx]. destruct x as [data|].
  2: { unfold bind at 1. unfold generate_version_id, bind, utcnow,
         calculate_file_hash, bind, open_read. simpl. rewrite Hx. discriminate. }
  unfold bind at 1. rewrite (generate_version_id_file file data) by done.
  set (v0 := version_id_of (clock w (ticks w)) data).
  unfold bind at 1.
  destruct (os_makedirs [versions_dir; name; v0] (tick w)) as [[e|u] w1] eqn:Hmk;
    [discriminate|].
  apply os_makedirs_3_inv in Hmk as (Ha & Hb & Hc & ->). simpl in Ha, Hb, Hc.
  pose proof (with_dirs_keeps _ _ _ _ _ _ Ha Hb Hc Hx) as Hx1.
  unfold bind at 1.
  rewrite (shutil_copy2_into file _ data); simpl; try done.
  2: { apply lookup_with_dirs_leaf. }
  case_bool_decide as Hsame; [discriminate|].
  destruct (with_dirs versions_dir name v0 (fs w) !! [versions_dir; name; v0; basename file])
    as [[d0|]|] eqn:Hdst; try discriminate.
  all: unfold bind at 1; unfold utcnow at 1; simpl.
  all: unfold bind at 1;
    rewrite (calculate_file_hash_file file data)
      by (simpl; by rewrite lookup_insert_ne);
    unfold bind at 1; unfold os_path_getsize at 1; simpl;
    rewrite lookup_insert_ne by done; rewrite Hx1;
    unfold bind at 1;
    rewrite (open_write_in_dir [versions_dir; name; v0] "metadata.json");
      simpl; try done.
  all: try (rewrite lookup_insert_ne by done; apply lookup_with_dirs_leaf).
  all: match goal with
       | |- context [match ?o with _ => _ end] => destruct o as [[|]|] eqn:Hmeta
       end; try discriminate.
  all: unfold ret; intros [= <- <-]; exists data.
  all: split; [done|]; split; [done|]; split; [|done].
  all: unfold can_create, is_dir; fold versions_dir; fold v0; simpl.
  all: rewrite Ha, Hb, Hc, (bool_decide_eq_false_2 _ Hsame); simpl.
  all: rewrite (lookup_with_dirs_deep versions_dir name v0 _ (fs w) []) in Hdst;
    simpl in Hdst; rewrite Hdst; simpl.
  all: destruct (decide (basename file = "metadata.json")) as [Heq|Hne];
    [rewrite Heq in Hdst; by rewrite Hdst|].
  all: rewrite lookup_insert_ne in Hmeta by congruence.
  all: rewrite (lookup_with_dirs_deep versions_dir name v0 _ (fs w) []) in Hmeta;
    simpl in Hmeta; by rewrite Hmeta.
Qed.

(** The steps the two [create_version] share, up to the second hash. *)
Lemma create_steps_run {A : Type} (name : string) (file : path) (w : world)
    (data : list byte) (k : string -> datetime -> string -> M A) :
  fs w !! file = Some (File data) ->
  can_create name file w data = true ->
  let v := version_id_of (clock w (ticks w)) data in
  (let* version := generate_version_id file in
   let* _ := os_makedirs [versions_dir; name; version] in
   let* _ := shutil_copy2 file [versions_dir; name; version] in
   let* now := utcnow in
   let* file_hash := calculate_file_hash file in
   k version now file_hash) w =
  k v (clock w (S (ticks w))) (SHA256.hexdigest data)
    (World (<[ [versions_dir; name; v; basename file] := File data ]>
              (with_dirs versions_dir name v (fs w)))
           (clock w) (S (S (ticks w)))).
Proof.
  intros Hx Hcan v0. unfold can_create in Hcan. fold versions_dir in Hcan.
  fold v0 in Hcan.
  apply andb_prop in Hcan as [Hcan _]. apply andb_prop in Hcan as [Hcan Hdst].
  apply andb_prop in Hcan as [Hcan Hsame]. apply andb_prop in Hcan as [Hcan Hc].
  apply andb_prop in Hcan as [Ha Hb].
  apply negb_true_iff, bool_decide_eq_false in Hsame.
  apply negb_true_iff in Hdst. unfold is_dir in Hdst. simpl in *.
  pose proof (with_dirs_keeps _ _ _ _ _ _ Ha Hb Hc Hx) as Hx1.
  unfold bind at 1. rewrite (generate_version_id_file file data) by done. fold v0.
  unfold bind at 1. rewrite os_makedirs_3 by done.
  unfold bind at 1.
  rewrite (shutil_copy2_into file _ data); simpl; try done.
  2: { apply lookup_with_dirs_leaf. }
  rewrite (bool_decide_eq_false_2 _ Hsame).
  rewrite (lookup_with_dirs_deep versions_dir name v0 _ (fs w) []).
  destruct (fs w !! [versions_dir; name; v0; basename file]) as [[d0|]|] eqn:E;
    [|done|].
  all: unfold bind at 1; unfold utcnow at 1; simpl.
  all: unfold bind at 1;
    by rewrite (calculate_file_hash_file file data)
      by (simpl; by rewrite lookup_insert_ne).
Qed.

Lemma metadata_not_dir (name v : string) (file : path) (w : world)
    (data : list byte) :
  is_dir (fs w) [versions_dir; name; v; "metadata.json"] = false ->
  is_dir (fs w) [versions_dir; name; v; basename file] = false ->
  is_dir (<[ [versions_dir; name; v; basename file] := File data ]>
            (with_dirs versions_dir name v (fs w)))
         [versions_dir; name; v; "metadata.json"] = false.
Proof.
  unfold is_dir. intros Hmeta Hdst.
  destruct (decide (basename file = "metadata.json")) as [Heq|Hne].
  - rewrite Heq. by rewrite lookup_insert_eq.
  - rewrite lookup_insert_ne by congruence.
    by rewrite (lookup_with_dirs_deep versions_dir name v _ (fs w) []).
Qed.

Lemma write_metadata_run (name v : string) (m : gmap path node)
    (ck : nat -> datetime) (n : nat) (text : list byte) :
  m !! [versions_dir; name; v] = Some Dir ->
  is_dir m [versions_dir; name; v; "metadata.json"] = false ->
  open_write ([versions_dir; name; v] ++ ["metadata.json"]) text (World m ck n) =
    (inr tt, World (<[ [versions_dir; name; v; "metadata.json"] := File text ]> m) ck n).
Proof.
  intros Hdir Hmeta. rewrite open_write_in_dir by done.
  unfold is_dir in Hmeta. simpl in *.
  by destruct (m !! [versions_dir; name; v; "metadata.json"]) as [[|]|].
Qed.

Lemma create_version_success (name : string) (file : path) (meta : json)
    (w : world) (data : list byte) :
  fs w !! file = Some (File data) ->
  can_create name file w data = true ->
  create_version name file meta w =
    (inr (version_id_of (clock w (ticks w)) data),
     World (created_fs name file meta w data) (clock w) (S (S (ticks w)))).
Proof.
  intros Hx Hcan. unfold create_version. unfold bind at 1.
  unfold os_path_exists at 1.
  rewrite bool_decide_eq_true_2 by (by rewrite Hx). cbn [negb].
  rewrite (create_steps_run name file w data) by done.
  unfold can_create in Hcan. fold versions_dir in Hcan.
  set (v0 := version_id_of (clock w (ticks w)) data) in *.
  apply andb_prop in Hcan as [Hcan Hmeta]. apply andb_prop in Hcan as [Hcan Hdst].
  apply andb_prop in Hcan as [Hcan Hsame]. apply andb_prop in Hcan as [Hcan Hc].
  apply andb_prop in Hcan as [Ha Hb].
  apply negb_true_iff, bool_decide_eq_false in Hsame.
  apply negb_true_iff in Hdst, Hmeta.
  pose proof (with_dirs_keeps _ _ _ _ _ _ Ha Hb Hc Hx) as Hx1.
  unfold bind at 1. unfold os_path_getsize at 1. cbn [fs].
  rewrite lookup_insert_ne by done. rewrite Hx1.
  unfold bind at 1. rewrite write_metadata_run; [done| |].
  - rewrite lookup_insert_ne by done. apply lookup_with_dirs_leaf.
  - by apply metadata_not_dir.
Qed.



End CreateVersion.

(** ** Sorting *)

Lemma decorate_inr (key : json -> result json) (l : list json)
    (r : list (json * json)) :
  decorate key l = inr r ->
  map snd r = l /\ Forall (fun p => key (snd p) = inr (fst p)) r.
Proof.
  revert r. induction l as [|x l IH]; simpl; intros r.
  - intros [= <-]. by split.
  - destruct (key x) as [e|k] eqn:Hk; [done|].
    destruct (decorate key l) as [e|r'] eqn:Hd; [done|].
    intros [= <-]. destruct (IH r' eq_refl) as [Hm Hf].
    split; simpl; [by rewrite Hm|]. by constructor.
Qed.

Lemma decorate_fails (key : json -> result json) (l : list json) (x : json)
    (e : exn) :
  x ∈ l -> key x = inl e -> exists e', decorate key l = inl e'.
Proof.
  induction l as [|y l IH]; [by intros ?%elem_of_nil|].
  intros [->|Hin]%elem_of_cons Hk; simpl.
  - rewrite Hk. by eexists.
  - destruct (key y); [by eexists|].
    destruct (IH Hin Hk) as [e' ->]. by eexists.
Qed.

Lemma decorate_total (key : json -> result json) (l : list json) :
  Forall (fun x => exists k, key x = inr k) l ->
  exists r, decorate key l = inr r.
Proof.
  induction 1 as [|x l [k Hk] _ [r Hr]]; simpl; [by eexists|].
  rewrite Hk, Hr. by eexists.
Qed.

Lemma sort_insert_perm (x : json * json) (l r : list (json * json)) :
  sort_insert x l = inr r -> Permutation r (x :: l).
Proof.
  revert r. induction l as [|e l IH]; simpl; intros r.
  - by intros [= <-].
  - destruct (py_lt (fst e) (fst x)) as [?|[|]]; [done| |by intros [= <-]].
    destruct (sort_insert x l) as [?|r'] eqn:Hr; [done|].
    intros [= <-]. rewrite (IH r' eq_refl). apply perm_swap.
Qed.

Lemma sort_keyed_perm (l r : list (json * json)) :
  sort_keyed l = inr r -> Permutation r l.
Proof.
  revert r. induction l as [|x l IH]; simpl; intros r.
  - by intros [= <-].
  - destruct (sort_keyed l) as [?|r'] eqn:Hr; [done|].
    intros Hi%sort_insert_perm. rewrite Hi. by rewrite (IH r' eq_refl).
Qed.

Lemma sorted_reverse_perm (key : json -> result json) (l r : list json) :
  sorted_reverse key l = inr r -> Permutation r l.
Proof.
  unfold sorted_reverse.
  destruct (decorate key l) as [?|keyed] eqn:Hd; [done|].
  destruct (sort_keyed (rev keyed)) as [?|s] eqn:Hs; [done|].
  intros [= <-]. apply decorate_inr in Hd as [<- _].
  apply sort_keyed_perm in Hs.
  apply Permutation_map. rewrite <- Permutation_rev. rewrite Hs.
  symmetry. apply Permutation_rev.
Qed.

Lemma sorted_reverse_fails (key : json -> result json) (l : list json)
    (x : json) (e : exn) :
  x ∈ l -> key x = inl e -> exists e', sorted_reverse key l = inl e'.
Proof.
  intros Hin Hk. unfold sorted_reverse.
  destruct (decorate_fails key l x e Hin Hk) as [e' ->]. by eexists.
Qed.

Lemma string_ltb_le (s t : string) : String.ltb s t = true -> String.le s t.
Proof.
  unfold String.ltb, String.le, String.leb.
  destruct (String.compare s t); simpl; intros; done.
Qed.

Lemma string_ltb_ge (s t : string) : String.ltb s t = false -> String.le t s.
Proof.
  unfold String.ltb, String.le, String.leb.
  rewrite (String.compare_antisym t s).
  destruct (String.compare s t); simpl; intros; done.
Qed.

Lemma sort_insert_sorted (x : json * json) (l : list (json * json)) :
  created_key x -> Forall created_key l -> StronglySorted key_le l ->
  exists r, sort_insert x l = inr r /\ StronglySorted key_le r.
Proof.
  intros Hx Hl Hs. induction Hs as [|e l Hs IH He]; simpl.
  - eexists. split; [done|]. repeat constructor.
  - apply Forall_cons in Hl as [Hk Hl]. rewrite Hk, Hx. simpl.
    destruct (String.ltb _ _) eqn:Hlt.
    + destruct (IH Hl) as (r & Hr & Hsr). rewrite Hr.
      eexists. split; [done|]. constructor; [done|].
      apply sort_insert_perm in Hr. rewrite Hr.
      constructor; [|done]. by apply string_ltb_le.
    + eexists. split; [done|].
      apply string_ltb_ge in Hlt.
      constructor; [by constructor|].
      constructor; [done|].
      eapply Forall_impl; [exact He|].
      intros q Hq. unfold key_le in *. by etrans.
Qed.

Lemma sort_keyed_sorted (l : list (json * json)) :
  Forall created_key l ->
  exists r, sort_keyed l = inr r /\ StronglySorted key_le r.
Proof.
  induction 1 as [|x l Hx Hl (r & Hr & Hs)]; simpl.
  - eexists. split; [done|]. constructor.
  - rewrite Hr. apply sort_insert_sorted; [done| |done].
    apply sort_keyed_perm in Hr. by rewrite Hr.
Qed.

Lemma StronglySorted_rev {A : Type} (R : relation A) (l : list A) :
  StronglySorted R l -> StronglySorted (flip R) (rev l).
Proof.
  induction 1 as [|x l Hs IH Hx]; simpl; [constructor|].
  apply StronglySorted_app_2; [|done|repeat constructor].
  intros a b Ha ->%list_elem_of_singleton.
  rewrite Forall_forall in Hx. apply Hx.
  apply list_elem_of_In, in_rev. by apply list_elem_of_In.
Qed.

Lemma sorted_reverse_created_at (l : list json) :
  Forall (fun x => exists s, py_getitem x "created_at" = inr (JStr s)) l ->
  exists r,
    sorted_reverse (fun x => py_getitem x "created_at") l = inr r /\
    Permutation r l /\ StronglySorted not_older r.
Proof.
  intros Hl. unfold sorted_reverse.
  destruct (decorate_total (fun x => py_getitem x "created_at") l) as [keyed Hd].
  { eapply Forall_impl; [exact Hl|]. intros x [s Hs]. by eexists. }
  rewrite Hd. pose proof Hd as [Hm Hk]%decorate_inr.
  assert (Forall created_key keyed) as Hck.
  { pose proof (proj1 (Forall_forall _ _) Hk) as Hk'.
    pose proof (proj1 (Forall_forall _ _) Hl) as Hl'.
    apply Forall_forall. intros [k x] Hin.
    specialize (Hk' _ Hin). simpl in Hk'.
    destruct (Hl' x) as [s Hs].
    { rewrite <- Hm. apply list_elem_of_In. apply in_map_iff.
      exists (k, x). split; [done|]. by apply list_elem_of_In. }
    unfold created_key, created_at_of. simpl. rewrite Hs in *. congruence. }
  clear Hk.
  destruct (sort_keyed_sorted (rev keyed)) as (s & Hs & Hsorted).
  { by apply Forall_rev. }
  rewrite Hs. eexists. split; [done|]. split.
  - rewrite <- Hm. apply Permutation_map.
    rewrite <- Permutation_rev. apply sort_keyed_perm in Hs. rewrite Hs.
    symmetry. apply Permutation_rev.
  - apply (StronglySorted_fmap snd (flip key_le) not_older); [by intros [] []|].
    by apply StronglySorted_rev.
Qed.

(** ** Listing the versions of a model *)

Lemma collect_elem {A : Type} (l : list (option (result A))) (xs : list A) (x : A) :
  collect l = inr xs -> Some (inr x) ∈ l -> x ∈ xs.
Proof.
  revert xs. induction l as [|[[e|y]|] l IH]; simpl; intros xs Hc Hin.
  - by apply elem_of_nil in Hin.
  - done.
  - destruct (collect l) as [?|ys]; [done|]. injection Hc as <-.
    apply elem_of_cons in Hin as [[= ->]|Hin]; [left|right; by apply IH].
  - apply elem_of_cons in Hin as [[=]|Hin]. by apply IH.
Qed.

Lemma collect_fails {A : Type} (l : list (option (result A))) (e : exn) :
  Some (inl e) ∈ l -> exists e', collect l = inl e'.
Proof.
  induction l as [|[[e0|y]|] l IH]; simpl; intros Hin.
  - by apply elem_of_nil in Hin.
  - by eexists.
  - apply elem_of_cons in Hin as [[=]|Hin].
    destruct (IH Hin) as [e' ->]. by eexists.
  - apply elem_of_cons in Hin as [[=]|Hin]. by apply IH.
Qed.

Section ListVersions.

Context `{JsonCodec}.

Lemma load_version_run (dir : path) (n : string) (acc : list json)
    (w : world) :
  load_version dir n acc w =
    (match entry_result (fs w) dir n with
     | None => inr acc
     | Some (inl e) => inl e
     | Some (inr record) => inr (acc ++ [record])
     end, w).
Proof.
  unfold load_version, entry_result, bind, os_path_exists, open_read, lift, ret.
  destruct (fs w !! (dir ++ [n; "metadata.json"])) as [[data|]|] eqn:E;
    simpl; rewrite ?E; try done.
  by destruct (json_loads data).
Qed.

Lemma load_versions_run (dir : path) (names : list string) (acc : list json)
    (w : world) :
  load_versions dir names acc w =
    (match collect (map (entry_result (fs w) dir) names) with
     | inl e => inl e
     | inr records => inr (acc ++ records)
     end, w).
Proof.
  revert acc. induction names as [|n names IH]; intros acc; simpl.
  - by rewrite app_nil_r.
  - unfold bind. rewrite load_version_run.
    destruct (entry_result (fs w) dir n) as [[e|record]|]; [done| |apply IH].
    rewrite IH. destruct (collect _) as [?|records]; [done|].
    by rewrite <- app_assoc.
Qed.

Lemma list_versions_run (name : string) (w : world) :
  list_versions name w =
    (match fs w !! [versions_dir; name] with
     | None => inr []
     | Some (File _) => inl NotADirectoryError
     | Some Dir =>
         match collect (map (entry_result (fs w) [versions_dir; name])
                            (dir_names (fs w) [versions_dir; name])) with
         | inl e => inl e
         | inr records =>
             sorted_reverse (fun x => py_getitem x "created_at") records
         end
     end, w).
Proof.
  unfold list_versions. unfold bind at 1. unfold os_path_exists at 1.
  destruct (fs w !! [versions_dir; name]) as [[data|]|] eqn:E; simpl.
  - rewrite ?bool_decide_eq_true_2 by done. simpl.
    unfold bind at 1. unfold os_listdir at 1. by rewrite E.
  - rewrite ?bool_decide_eq_true_2 by done. simpl.
    unfold bind at 1. unfold os_listdir at 1. rewrite E.
    unfold bind at 1. rewrite load_versions_run.
    by destruct (collect _).
  - by rewrite ?bool_decide_eq_false_2 by (by intros [? ?]).
Qed.

Lemma collect_entry_records (m : gmap path node) (dir : path)
    (names : list string) (records : list json) :
  collect (map (entry_result m dir) names) = inr records ->
  records = omap (entry_record m dir) names.
Proof.
  revert records. unfold entry_record.
  induction names as [|n names IH]; simpl; intros records.
  - by intros [= <-].
  - destruct (entry_result m dir n) as [[e|r]|]; [done| |by apply IH].
    destruct (collect _) as [?|rs]; [done|].
    intros [= <-]. by rewrite (IH rs eq_refl).
Qed.

Lemma collect_valid (m : gmap path node) (dir : path) (names : list string) :
  forallb
    (fun n =>
       match entry_result m dir n with
       | None => true
       | Some (inr record) =>
           match py_getitem record "created_at" with
           | inr (JStr _) => true
           | _ => false
           end
       | Some (inl _) => false
       end) names = true ->
  collect (map (entry_result m dir) names) = inr (omap (entry_record m dir) names) /\
  Forall (fun x => exists s, py_getitem x "created_at" = inr (JStr s))
         (omap (entry_record m dir) names) /\
  length (omap (entry_record m dir) names) =
    length (List.filter (has_metadata m dir) names).
Proof.
  induction names as [|n names IH]; simpl; [done|].
  intros [Hn Hrest]%andb_prop. destruct (IH Hrest) as (Hc & Hf & Hlen).
  unfold entry_record, has_metadata, entry_result in *.
  destruct (m !! (dir ++ [n; "metadata.json"])) as [[data|]|] eqn:E; simpl.
  - destruct (json_loads data) as [e|r]; [done|].
    rewrite Hc. simpl. split; [done|]. split; [|f_equal; exact Hlen].
    constructor; [|done].
    destruct (py_getitem r "created_at") as [?|[]]; try done. by eexists.
  - done.
  - done.
Qed.

End ListVersions.

(** ** Rolling back and deleting *)

Lemma rollback_to_version_run (name v : string) (w : world) :
  rollback_to_version name v w =
    match fs w !! [versions_dir; name; v] with
    | None => (inl ValueError, w)
    | Some (File _) => (inl NotADirectoryError, w)
    | Some Dir =>
        match List.filter (fun f => endswith f ".pkl")
                (dir_names (fs w) [versions_dir; name; v]) with
        | [] => (inr false, w)
        | f :: _ =>
            (let* _ := shutil_copy2 ([versions_dir; name; v] ++ [f])
                         (active_artifact name) in
             ret true) w
        end
    end.
Proof.
  unfold rollback_to_version. unfold bind at 1. unfold os_path_exists at 1.
  destruct (fs w !! [versions_dir; name; v]) as [[data|]|] eqn:E; simpl.
  - unfold bind at 1. unfold os_listdir at 1. by rewrite E.
  - unfold bind at 1. unfold os_listdir at 1. rewrite E.
    by destruct (List.filter _ _).
  - done.
Qed.


Lemma shutil_copy2_frame (src dst : path) (w w' : world) (r : result path)
    (p : path) :
  shutil_copy2 src dst w = (r, w') ->
  is_under dst p = false -> fs w' !! p = fs w !! p.
Proof.
  unfold shutil_copy2. intros Hrun Hp.
  set (dst' := match fs w !! dst with Some Dir => dst ++ [basename src] | _ => dst end) in *.
  assert (p <> dst') as Hne.
  { intros ->. assert (is_under dst dst' = true); [|congruence].
    apply is_under_true. subst dst'.
    destruct (fs w !! dst) as [[|]|]; eauto using app_nil_r. }
  destruct (_ && _); [by injection Hrun as _ <-|].
  revert Hrun. unfold bind, open_read, open_write, ret.
  destruct (fs w !! src) as [[data|]|]; try by intros [= _ <-].
  destruct dst' as [|x dst'']; [by intros [= _ <-]|].
  destruct (fs w !! (x :: dst'')) as [[|]|];
    destruct (parent_node (fs w) (x :: dst'')) as [[|]|];
    intros [= _ <-]; simpl; by rewrite ?lookup_insert_ne.
Qed.

(** [delete_version] on an entry stored under the three parts of its
    path. *)
Lemma delete_version_entry (name v : string) (w : world) (x : node) :
  fs w !! [versions_dir; name; v] = Some x ->
  delete_version name v w =
    match x with
    | File _ => (inl NotADirectoryError, w)
    | Dir =>
        (inr true,
         set_fs w (filter (fun kv => is_under [versions_dir; name; v] (fst kv) = false)
                     (fs w)))
    end.
Proof.
  intros Hx. unfold delete_version. unfold bind at 1.
  unfold os_path_exists_joined, locate. rewrite Hx.
  rewrite bool_decide_eq_true_2 by (by eexists).
  unfold bind, shutil_rmtree_joined, shutil_rmtree. rewrite Hx.
  by destruct x.
Qed.

Lemma version_dir_plain (name v : string) :
  plain_name name = true -> plain_name v = true ->
  Forall (fun s => plain_name s = true) [versions_dir; name; v].
Proof. intros Hn Hv. by repeat constructor. Qed.

(** For a model name and a version id that are plain names, the path
    names the entry stored under its three parts, or nothing. *)
Lemma delete_version_run (name v : string) (w : world) :
  plain_name name = true -> plain_name v = true ->
  delete_version name v w =
    match fs w !! [versions_dir; name; v] with
    | None => (inr false, w)
    | Some (File _) => (inl NotADirectoryError, w)
    | Some Dir =>
        (inr true,
         set_fs w (filter (fun kv => is_under [versions_dir; name; v] (fst kv) = false)
                     (fs w)))
    end.
Proof.
  intros Hn Hv.
  destruct (fs w !! [versions_dir; name; v]) as [x|] eqn:E.
  - by rewrite (delete_version_entry name v w x).
  - unfold delete_version. unfold bind at 1. unfold os_path_exists_joined.
    rewrite locate_plain by (by apply version_dir_plain). rewrite E.
    by rewrite bool_decide_eq_false_2 by (by intros [? ?]).
Qed.

(** Whatever its outcome, [delete_version] only removes entries. *)
Lemma delete_version_shrinks (name v : string) (w w' : world)
    (r : result bool) :
  delete_version name v w = (r, w') ->
  fs w' ⊆ fs w /\ clock w' = clock w /\ ticks w' = ticks w.
Proof.
  unfold delete_version. unfold bind at 1. unfold os_path_exists_joined.
  destruct (bool_decide _); [|by intros [= _ <-]].
  unfold bind.
  destruct (shutil_rmtree_joined _ w) as [[e|u] w1] eqn:Hrm;
    apply shutil_rmtree_joined_shrinks in Hrm; by intros [= _ <-].
Qed.

(** Once [delete_version] has returned, no entry is stored under the
    three parts; and the path names nothing any more, provided the parts
    of a stored entry are plain names. *)
Lemma delete_version_gone (name v : string) (w w' : world) (b : bool) :
  delete_version name v w = (inr b, w') ->
  fs w' !! [versions_dir; name; v] = None /\
  ((is_Some (fs w !! [versions_dir; name; v]) ->
    plain_name name = true /\ plain_name v = true) ->
   locate (fs w') [versions_dir; name; v] = None).
Proof.
  unfold delete_version. unfold bind at 1. unfold os_path_exists_joined.
  case_bool_decide as Hfound.
  - unfold bind.
    destruct (shutil_rmtree_joined _ w) as [[e|[]] w1] eqn:Hrm; [done|].
    intros [= _ <-].
    apply shutil_rmtree_joined_gone in Hrm as [Hkey Hread].
    split; [done|]. intros Hplain. unfold locate. rewrite Hkey.
    destruct (fs w !! [versions_dir; name; v]) as [x|] eqn:E.
    + destruct Hplain as [Hn Hv]; [by eexists|].
      destruct (reading (fs w1) _) as [t|] eqn:Hr; [|done].
      apply reading_plain in Hr as [_ [y Hy]]; [congruence|].
      by apply version_dir_plain.
    + by apply Hread.
  - intros [= _ <-].
    assert (locate (fs w) [versions_dir; name; v] = None) as Hnone.
    { destruct (locate _ _) eqn:E; [|done]. destruct Hfound. by eexists. }
    split; [|done]. unfold locate in Hnone.
    by destruct (fs w !! [versions_dir; name; v]).
Qed.

(** A version id [..] names the versions root: in a well-formed tree
    where the model has a directory, [delete_version] removes every
    version of every model, and then raises because [os.rmdir] cannot find
    the model directory any more. *)
Lemma delete_version_dot_dot (name : string) (w : world) :
  well_formed (fs w) = true ->
  fs w !! [versions_dir; name] = Some Dir ->
  delete_version name ".." w =
    (inl FileNotFoundError,
     set_fs w (filter (fun kv => is_under [versions_dir] (fst kv) = false \/
                                 fst kv = [versions_dir]) (fs w))).
Proof.
  intros Hwf Hmodel.
  assert (is_Some (fs w !! [versions_dir; name])) as Hkey by (by eexists).
  destruct (well_formed_entry _ _ Hwf Hkey) as (_ & Hplain & Hroot).
  apply Forall_cons in Hplain as [_ [Hname _]%Forall_cons].
  unfold parent_node, parent in Hroot. simpl in Hroot.
  assert (fs w !! [versions_dir; name; ".."] = None) as Hnone.
  { destruct (fs w !! [versions_dir; name; ".."]) as [x|] eqn:E; [|done].
    assert (is_Some (fs w !! [versions_dir; name; ".."])) as Hbad by (by eexists).
    destruct (well_formed_entry _ _ Hwf Hbad) as (_ & Hp & _).
    by apply Forall_cons in Hp as [_ [_ [Hp _]%Forall_cons]%Forall_cons]. }
  assert (os_path_join [versions_dir; name; ".."] <> "" /\
          split_slash (os_path_join [versions_dir; name; ".."]) =
            [versions_dir; name; ".."]) as [Hne Hsplit].
  { simpl.
    destruct (join2_plain versions_dir name) as [Heq [Hj1 Hj2]]; [done|done|].
    rewrite Heq in *.
    assert (join2 (versions_dir +:+ String "/" name) ".." =
            (versions_dir +:+ String "/" name) +:+ String "/" "..") as ->.
    { unfold join2. simpl starts_with_slash. cbv iota. rewrite Hj2.
      apply String.eqb_neq in Hj1 as ->. done. }
    split.
    - by apply append_not_empty.
    - rewrite split_slash_app, split_slash_app.
      apply plain_name_spec in Hname as (_ & _ & _ & Hslash).
      by rewrite (split_slash_plain name). }
  apply plain_name_spec in Hname as (N1 & N2 & N3 & _).
  apply String.eqb_neq in N1, N2, N3.
  assert (forall m : gmap path node,
            m !! [versions_dir] = Some Dir ->
            reading m [versions_dir; name; ".."] =
              match m !! [versions_dir; name] with
              | Some Dir => Some [versions_dir]
              | _ => None
              end) as Hread.
  { intros m Hm. unfold reading. apply String.eqb_neq in Hne as ->.
    rewrite Hsplit. simpl. rewrite Hm. simpl. rewrite N1, N2, N3. simpl.
    by destruct (m !! [versions_dir; name]) as [[|]|]. }
  unfold delete_version. unfold bind at 1.
  unfold os_path_exists_joined, locate. rewrite Hnone, (Hread _ Hroot), Hmodel.
  rewrite bool_decide_eq_true_2 by (by eexists).
  unfold bind, shutil_rmtree_joined.
  rewrite Hnone, (Hread _ Hroot), Hmodel. simpl searchable. rewrite Hroot.
  cbv iota. simpl negb. cbv iota.
  rewrite Hread.
  - rewrite map_lookup_filter_None_2; [done|]. right. intros x _. simpl.
    intros [Hu|Heq]; [|done].
    pose proof (is_under_app [versions_dir] [name]) as Hu'. simpl in Hu'.
    congruence.
  - apply map_lookup_filter_Some. split; [done|]. by right.
Qed.

Lemma is_under_version_dir (a b c b' c' : string) (q : path) :
  is_under [a; b; c] (a :: b' :: c' :: q) = true -> b' = b /\ c' = c.
Proof.
  intros [q' Heq]%is_under_true. simpl in Heq. by injection Heq as -> ->.
Qed.

Section Rollback.

Context `{JsonCodec}.



(** C5, amended. For a model name and a version id that are plain names
    (one path component each, neither empty nor [.] nor [..]),
    [delete_version] returns [True] and removes the version directory with
    everything in it when the directory is present, leaving every other
    entry as it was, and returns [False], changing nothing, when nothing
    is there. For every model name and version id, after it has returned,
    and when the model's metadata records name their own directories, no
    record that [list_versions] returns has the deleted version id. *)
Theorem delete_version_then_list (name v : string) (w : world) :
  let version_dir := [versions_dir; name; v] in
  (plain_name name = true -> plain_name v = true ->
   (fs w !! version_dir = Some Dir ->
    exists w',
      delete_version name v w = (inr true, w') /\
      (forall q, fs w' !! (version_dir ++ q) = None) /\
      (forall p, is_under version_dir p = false -> fs w' !! p = fs w !! p)) /\
   (fs w !! version_dir = None ->
    delete_version name v w = (inr false, w))) /\
  (forall b w' records w'',
     metadata_named name (fs w) = true ->
     delete_version name v w = (inr b, w') ->
     list_versions name w' = (inr records, w'') ->
     forall record, record ∈ records ->
       py_getitem record "version" <> inr (JStr v)).
Proof.
  intros version_dir. subst version_dir. split.
  - intros Hname Hv. rewrite delete_version_run by done. split.
    + intros ->. eexists. split; [done|]. simpl. split.
      * intros q. rewrite lookup_rmtree.
        pose proof (is_under_app [versions_dir; name; v] q) as Hu.
        simpl in Hu. by rewrite Hu.
      * intros p Hp. by rewrite lookup_rmtree, Hp.
    + by intros ->.
  - intros b w' records w'' Hnamed Hdel Hlist record Hin.
    pose proof (delete_version_gone _ _ _ _ _ Hdel) as [Hgone _].
    apply delete_version_shrinks in Hdel as [Hsub _].
    rewrite list_versions_run in Hlist.
    destruct (fs w' !! [versions_dir; name]) as [[|]|]; [done| |].
    2: { injection Hlist as <- _. by apply elem_of_nil in Hin. }
    destruct (collect _) as [?|rs] eqn:Hc; [done|].
    injection Hlist as Hsort _.
    apply sorted_reverse_perm in Hsort. rewrite Hsort in Hin.
    apply collect_entry_records in Hc. subst rs.
    apply list_elem_of_omap in Hin as (n & Hn & Hrec).
    apply (elem_of_dir_names _ [versions_dir; name]) in Hn.
    assert (n <> v) as Hne.
    { intros ->. simpl in Hn. rewrite Hgone in Hn. by destruct Hn. }
    assert (is_Some (fs w !! [versions_dir; name; n])) as Hn'.
    { destruct Hn as [x Hx]. exists x. by eapply lookup_weaken. }
    unfold entry_record, entry_result in Hrec. simpl in Hrec.
    destruct (fs w' !! [versions_dir; name; n; "metadata.json"])
      as [x|] eqn:Hmeta; [|done].
    pose proof (lookup_weaken _ _ _ _ Hmeta Hsub) as Hmeta'.
    unfold metadata_named in Hnamed. rewrite forallb_forall in Hnamed.
    specialize (Hnamed n). unfold entry_result in Hnamed. simpl in Hnamed.
    rewrite Hmeta' in Hnamed.
    destruct x as [data|]; [|done].
    destruct (json_loads data) as [?|r]; [done|]. injection Hrec as ->.
    intros Hv. rewrite Hv in Hnamed.
    assert (String.eqb v n = true) as Heq.
    { apply Hnamed. apply list_elem_of_In.
      by apply (elem_of_dir_names _ [versions_dir; name]). }
    apply String.eqb_eq in Heq. congruence.
Qed.

End Rollback.

Section Listing.

Context `{JsonCodec}.


(** C9. A version directory whose metadata file is not valid JSON, or
    holds a value without a [created_at] entry, makes [list_versions]
    raise, and [get_latest_version] with it: no list is returned. *)
Theorem list_versions_corrupt_metadata (name n : string) (data : list byte)
    (w : world) :
  fs w !! [versions_dir; name] = Some Dir ->
  fs w !! [versions_dir; name; n] = Some Dir ->
  fs w !! [versions_dir; name; n; "metadata.json"] = Some (File data) ->
  corrupt_metadata data = true ->
  exists e,
    list_versions name w = (inl e, w) /\
    get_latest_version name w = (inl e, w).
Proof.
  intros Hroot Hdir Hfile Hbad.
  assert (exists e, list_versions name w = (inl e, w)) as [e He].
  { rewrite list_versions_run, Hroot.
    assert (n ∈ dir_names (fs w) [versions_dir; name]) as Hn.
    { apply elem_of_dir_names. simpl. by rewrite Hdir. }
    assert (entry_result (fs w) [versions_dir; name] n = Some (json_loads data))
      as Hentry.
    { unfold entry_result. simpl. by rewrite Hfile. }
    unfold corrupt_metadata in Hbad.
    destruct (json_loads data) as [e0|record] eqn:Hload.
    - destruct (collect_fails
                  (map (entry_result (fs w) [versions_dir; name])
                       (dir_names (fs w) [versions_dir; name])) e0) as [e' ->].
      + apply list_elem_of_In, in_map_iff. exists n.
        split; [exact Hentry|by apply list_elem_of_In].
      + by eexists.
    - destruct (collect _) as [e'|records] eqn:Hc; [by eexists|].
      destruct (py_getitem record "created_at") as [e0|] eqn:Hkey; [|done].
      destruct (sorted_reverse_fails (fun x => py_getitem x "created_at")
                  records record e0) as [e' ->]; [|done|by eexists].
      eapply collect_elem; [exact Hc|].
      apply list_elem_of_In, in_map_iff. exists n.
      split; [exact Hentry|by apply list_elem_of_In]. }
  exists e. split; [done|].
  unfold get_latest_version, bind. by rewrite He.
Qed.

End Listing.

(** ** The format of a version id *)

Lemma string_length_append (a b : string) :
  String.length (a +:+ b) = (String.length a + String.length b)%nat.
Proof. induction a as [|c a IH]; simpl; [done|]. by rewrite IH. Qed.

Lemma substring_all (b : string) : substring 0 (String.length b) b = b.
Proof. induction b as [|c b IH]; simpl; [done|]. by rewrite IH. Qed.

Lemma substring_skip (a b : string) (n : nat) :
  substring (String.length a) n (a +:+ b) = substring 0 n b.
Proof. induction a as [|c a IH]; simpl; [done|]. by rewrite IH. Qed.

Lemma str_suffix_append (a b : string) :
  str_suffix (String.length b) (a +:+ b) = b.
Proof.
  unfold str_suffix. rewrite string_length_append.
  replace (String.length a + String.length b - String.length b)%nat
    with (String.length a) by lia.
  by rewrite substring_skip, substring_all.
Qed.

Lemma string_append_assoc (a b c : string) : (a +:+ b) +:+ c = a +:+ b +:+ c.
Proof.
  induction a as [|x a IH]; [done|].
  change (String x ((a +:+ b) +:+ c) = String x (a +:+ b +:+ c)). by f_equal.
Qed.

Lemma hex_digit_lower (d : Z) :
  0 <= d < 16 -> is_lower_hex (SHA256.hex_digit d) = true.
Proof.
  intros Hd.
  assert (d = 0 \/ d = 1 \/ d = 2 \/ d = 3 \/ d = 4 \/ d = 5 \/ d = 6 \/ d = 7 \/
          d = 8 \/ d = 9 \/ d = 10 \/ d = 11 \/ d = 12 \/ d = 13 \/ d = 14 \/
          d = 15) as Hcases by lia.
  repeat destruct Hcases as [->|Hcases]; try reflexivity. by subst.
Qed.

Lemma nibble_range (x i : Z) : 0 <= SHA256.nibble x i < 16.
Proof.
  unfold SHA256.nibble. change 15 with (Z.ones 4).
  rewrite Z.land_ones by lia. apply Z.mod_pos_bound. lia.
Qed.

Lemma hexdigest_prefix (data : list byte) :
  hex_string8 (substring 0 8 (SHA256.hexdigest data)).
Proof.
  unfold SHA256.hexdigest. generalize (SHA256.digest data). intros s.
  unfold SHA256.hex8 at 1. split; [done|]. cbn [substring all_chars].
  by rewrite !hex_digit_lower by apply nibble_range.
Qed.

Lemma digit_decimal (k : Z) : is_decimal (digit k) = true.
Proof.
  unfold digit. pose proof (Z.mod_pos_bound k 10 ltac:(lia)) as Hr.
  generalize dependent (k mod 10). intros r Hr.
  assert (r = 0 \/ r = 1 \/ r = 2 \/ r = 3 \/ r = 4 \/ r = 5 \/ r = 6 \/
          r = 7 \/ r = 8 \/ r = 9) as Hcases by lia.
  repeat destruct Hcases as [->|Hcases]; try reflexivity. by subst.
Qed.

Lemma dec_digits_last (fuel : nat) (n : Z) (acc : string) :
  n < 10 -> dec_digits (S fuel) n acc = String (digit n) acc.
Proof. intros Hn. simpl. by rewrite (proj2 (Z.ltb_lt n 10)). Qed.

Lemma dec_digits_more (fuel : nat) (n : Z) (acc : string) :
  10 <= n -> dec_digits (S fuel) n acc = dec_digits fuel (n / 10) (String (digit n) acc).
Proof. intros Hn. simpl. by rewrite (proj2 (Z.ltb_ge n 10)). Qed.

Lemma log2_at_least (k n : Z) : 0 <= k -> 2 ^ k <= n -> k <= Z.log2 n.
Proof.
  intros Hk Hn. rewrite <- (Z.log2_pow2 k) by done. by apply Z.log2_le_mono.
Qed.

Lemma zfill_2 (n : Z) : 0 <= n <= 99 -> digits_of_width 2 (zfill 2 n) = true.
Proof.
  intros Hn. unfold zfill, str_of_Z, digits_of_width.
  destruct (Z_lt_le_dec n 10) as [Hlt|Hge].
  - rewrite dec_digits_last by done. simpl. by rewrite digit_decimal.
  - pose proof (log2_at_least 3 n ltac:(lia) ltac:(lia)) as Hlog.
    destruct (Z.to_nat (Z.log2 n)) as [|fuel] eqn:E; [lia|].
    rewrite dec_digits_more by done.
    rewrite dec_digits_last by (apply Z.div_lt_upper_bound; lia).
    simpl. by rewrite !digit_decimal.
Qed.

Lemma zfill_4 (n : Z) : 1000 <= n <= 9999 -> digits_of_width 4 (zfill 4 n) = true.
Proof.
  intros Hn. unfold zfill, str_of_Z, digits_of_width.
  pose proof (log2_at_least 9 n ltac:(lia) ltac:(lia)) as Hlog.
  destruct (Z.to_nat (Z.log2 n)) as [|[|[|fuel]]] eqn:E; try lia.
  assert (100 <= n / 10 < 1000) as H1.
  { split; [apply Z.div_le_lower_bound|apply Z.div_lt_upper_bound]; lia. }
  assert (10 <= n / 10 / 10 < 100) as H2.
  { split; [apply Z.div_le_lower_bound|apply Z.div_lt_upper_bound]; lia. }
  assert (n / 10 / 10 / 10 < 10) as H3.
  { apply Z.div_lt_upper_bound; lia. }
  rewrite dec_digits_more by lia. rewrite dec_digits_more by lia.
  rewrite dec_digits_more by lia. rewrite dec_digits_last by done.
  simpl. by rewrite !digit_decimal.
Qed.

Lemma digits_of_width_2 (s : string) :
  digits_of_width 2 s = true ->
  exists a b, s = String a (String b "") /\ is_decimal a = true /\ is_decimal b = true.
Proof.
  destruct s as [|a [|b [|? ?]]]; try done. unfold digits_of_width. simpl.
  rewrite andb_true_r. intros [? ?]%andb_prop. by exists a, b.
Qed.

Lemma digits_of_width_4 (s : string) :
  digits_of_width 4 s = true ->
  exists a b c d, s = String a (String b (String c (String d ""))) /\
    is_decimal a = true /\ is_decimal b = true /\
    is_decimal c = true /\ is_decimal d = true.
Proof.
  destruct s as [|a [|b [|c [|d [|? ?]]]]]; try done.
  unfold digits_of_width. simpl. rewrite andb_true_r.
  intros [? [? [? ?]%andb_prop]%andb_prop]%andb_prop. by exists a, b, c, d.
Qed.

Lemma hex_string8_shape (s : string) :
  hex_string8 s ->
  exists a b c d e f g h,
    s = String a (String b (String c (String d (String e (String f
          (String g (String h ""))))))) /\
    is_lower_hex a = true /\ is_lower_hex b = true /\ is_lower_hex c = true /\
    is_lower_hex d = true /\ is_lower_hex e = true /\ is_lower_hex f = true /\
    is_lower_hex g = true /\ is_lower_hex h = true.
Proof.
  intros [Hlen Hall].
  destruct s as [|a [|b [|c [|d [|e [|f [|g [|h [|? ?]]]]]]]]]; try done.
  simpl in Hall. rewrite andb_true_r in Hall.
  repeat (apply andb_prop in Hall as [? Hall]).
  exists a, b, c, d, e, f, g, h. repeat split; done.
Qed.

Lemma version_id_format_of (t : datetime) (data : list byte) :
  valid_datetime t = true -> version_id_format (version_id_of t data) = true.
Proof.
  unfold valid_datetime. intros Ht.
  repeat (apply andb_prop in Ht as [Ht ?]).
  destruct (digits_of_width_4 _ (zfill_4 (year t) ltac:(lia)))
    as (y1 & y2 & y3 & y4 & Hy & ? & ? & ? & ?).
  destruct (digits_of_width_2 _ (zfill_2 (month t) ltac:(lia))) as (m1 & m2 & Hm & ? & ?).
  destruct (digits_of_width_2 _ (zfill_2 (day t) ltac:(lia))) as (d1 & d2 & Hd & ? & ?).
  destruct (digits_of_width_2 _ (zfill_2 (hour t) ltac:(lia))) as (h1 & h2 & Hh & ? & ?).
  destruct (digits_of_width_2 _ (zfill_2 (minute t) ltac:(lia))) as (i1 & i2 & Hi & ? & ?).
  destruct (digits_of_width_2 _ (zfill_2 (second t) ltac:(lia))) as (s1 & s2 & Hs & ? & ?).
  destruct (hex_string8_shape _ (hexdigest_prefix data))
    as (x1 & x2 & x3 & x4 & x5 & x6 & x7 & x8 & Hx & ? & ? & ? & ? & ? & ? & ? & ?).
  unfold version_id_of, strftime_compact.
  rewrite Hy, Hm, Hd, Hh, Hi, Hs, Hx. unfold version_id_format. simpl.
  repeat match goal with Hc : _ = true |- _ => rewrite Hc; clear Hc end.
  done.
Qed.

Lemma version_id_suffix (t : datetime) (data : list byte) :
  str_suffix 8 (version_id_of t data) = substring 0 8 (SHA256.hexdigest data) /\
  String.length (str_suffix 8 (version_id_of t data)) = 8%nat.
Proof.
  destruct (hexdigest_prefix data) as [Hlen _].
  assert (str_suffix 8 (version_id_of t data) = substring 0 8 (SHA256.hexdigest data))
    as Heq.
  { unfold version_id_of. rewrite <- !string_append_assoc.
    rewrite <- Hlen at 1. apply str_suffix_append. }
  split; [done|]. by rewrite Heq.
Qed.

(** ** Comparing versions *)

Lemma version_record_shape (record : json) :
  is_version_record record = true ->
  exists d file_hash created_at size,
    record = JDict d /\ d <> [] /\
    assoc "file_hash" d = Some (JStr file_hash) /\
    assoc "created_at" d = Some (JStr created_at) /\
    py_get record "file_size_bytes" (JInt 0) = inr (JInt size).
Proof.
  unfold is_version_record.
  destruct record as [| | | | |d]; try done. simpl.
  destruct (assoc "file_hash" d) as [[| | |h| |]|] eqn:Hh; try done.
  destruct (assoc "created_at" d) as [[| | |c| |]|] eqn:Hc; try done.
  destruct (match assoc "file_size_bytes" d with Some v => v | None => JInt 0 end)
    as [| |n| | |] eqn:Hs; try done.
  intros _. exists d, h, c, n. repeat split; try done.
  by intros ->.
Qed.

Section Compare.

Context `{JsonCodec}.

Lemma load_metadata_file (name v : string) (data : list byte) (w : world) :
  fs w !! [versions_dir; name; v; "metadata.json"] = Some (File data) ->
  load_metadata name v w = (json_loads data, w).
Proof.
  intros Hf. unfold load_metadata, bind, os_path_exists, open_read, lift.
  rewrite bool_decide_eq_true_2 by (by rewrite Hf). by rewrite Hf.
Qed.


(** C7. Comparing a version whose metadata file holds a version record
    with itself gives a comparison with [same_hash] true and
    [size_difference] zero. *)
Theorem compare_version_with_itself (name v : string) (data : list byte)
    (record : json) (w : world) :
  fs w !! [versions_dir; name; v; "metadata.json"] = Some (File data) ->
  json_loads data = inr record ->
  is_version_record record = true ->
  exists result cmp,
    get_version_comparison name v v w = (inr result, w) /\
    py_getitem result "comparison" = inr cmp /\
    py_getitem cmp "same_hash" = inr (JBool true) /\
    py_getitem cmp "size_difference" = inr (JInt 0).
Proof.
  intros Hf Hload Hrec.
  destruct (version_record_shape _ Hrec) as (d & h & c & n & -> & Hd & Hh & Hc & Hs).
  unfold get_version_comparison. unfold bind at 1.
  rewrite (load_metadata_file name v data) by done. rewrite Hload.
  unfold bind at 1.
  rewrite (load_metadata_file name v data) by done. rewrite Hload.
  assert (py_truthy (JDict d) = true) as -> by (by destruct d).
  cbn [negb orb].
  unfold bind, lift, ret, version_summary, comparison.
  rewrite Hs. simpl. rewrite Hh, Hc. simpl.
  rewrite String.eqb_refl, Z.sub_diag. by eexists _, _.
Qed.

End Compare.

(** ** Creating a version *)

Section Create.

Context `{JsonCodec}.

(** C6. The id a successful [create_version] returns is the letter v, the
    clock reading at the call as [YYYYMMDD_HHMMSS], an underscore and the
    first eight characters of the SHA-256 hex digest of the source file;
    for a clock reading with a four-digit year it has the format
    [v<8 digits>_<6 digits>_<8 hex digits>]. *)
Theorem create_version_id_format (name : string) (file : path) (meta : json)
    (w w' : world) (v : string) :
  create_version name file meta w = (inr v, w') ->
  valid_datetime (clock w (ticks w)) = true ->
  exists data,
    fs w !! file = Some (File data) /\
    v = "v" +:+ strftime_compact (clock w (ticks w)) +:+ "_" +:+
        substring 0 8 (SHA256.hexdigest data) /\
    version_id_format v = true.
Proof.
  intros Hrun Hclock.
  apply create_version_inv in Hrun as (data & Hfile & -> & _ & _).
  exists data. split; [done|]. split; [done|].
  by apply version_id_format_of.
Qed.

(** C10. After a successful [create_version] the metadata file of the
    version holds a record whose [file_hash] is the SHA-256 hex digest of
    the source file, and the last eight characters of the returned id are
    the first eight characters of that [file_hash]. *)
Theorem create_version_id_matches_file_hash (name : string) (file : path)
    (meta : json) (w w' : world) (v : string) :
  create_version name file meta w = (inr v, w') ->
  exists data record file_hash,
    fs w !! file = Some (File data) /\
    fs w' !! [versions_dir; name; v; "metadata.json"] =
      Some (File (json_dumps record)) /\
    py_getitem record "file_hash" = inr (JStr file_hash) /\
    file_hash = SHA256.hexdigest data /\
    String.length (str_suffix 8 v) = 8%nat /\
    str_suffix 8 v = substring 0 8 file_hash.
Proof.
  intros Hrun.
  apply create_version_inv in Hrun as (data & Hfile & -> & _ & ->).
  destruct (version_id_suffix (clock w (ticks w)) data) as [Hsuf Hlen].
  exists data, (written_record name meta (clock w (ticks w))
                  (clock w (S (ticks w))) data), (SHA256.hexdigest data).
  split; [done|]. split.
  { unfold created_fs. simpl. by rewrite lookup_insert_eq. }
  done.
Qed.

End Create.

Section Lifecycle.

Context `{JsonCodec}.

Lemma list_versions_world (name : string) (w w' : world) (r : result (list json)) :
  list_versions name w = (r, w') -> w' = w.
Proof. rewrite list_versions_run. by intros [= _ <-]. Qed.



Lemma rollback_to_version_frame (name v : string) (w w' : world)
    (r : result bool) (p : path) :
  rollback_to_version name v w = (r, w') ->
  is_under ["models"] p = false -> fs w' !! p = fs w !! p.
Proof.
  rewrite rollback_to_version_run. intros Hrun Hp.
  destruct (fs w !! _) as [[|]|]; try by injection Hrun as _ <-.
  destruct (List.filter _ _) as [|f ?]; [by injection Hrun as _ <-|].
  unfold bind in Hrun.
  destruct (shutil_copy2 _ _ w) as [[e|x] w1] eqn:Hcopy;
    injection Hrun as _ <-.
  all: eapply shutil_copy2_frame; [exact Hcopy|].
  all: destruct (is_under (active_artifact name) p) eqn:Hu; [|done].
  all: apply is_under_true in Hu as [q ->].
  all: pose proof (is_under_app ["models"] ((name +:+ "_model.pkl") :: q)) as Hu.
  all: unfold active_artifact in Hp; simpl in Hp, Hu; congruence.
Qed.


Lemma os_makedirs_3_frame (a b c : string) (w w' : world) (r : result unit)
    (p : path) :
  os_makedirs [a; b; c] w = (r, w') ->
  p <> [a] -> p <> [a; b] -> p <> [a; b; c] -> fs w' !! p = fs w !! p.
Proof.
  unfold os_makedirs, ret. simpl. intros Hrun Ha Hb Hc. revert Hrun.
  destruct (fs w !! [a]) as [[|]|]; simpl; rewrite ?lookup_insert_ne by done;
    try (by intros [= _ <-]).
  all: destruct (fs w !! [a; b]) as [[|]|]; simpl; rewrite ?lookup_insert_ne by done;
    try (intros [= _ <-]; simpl; by rewrite ?lookup_insert_ne by done).
  all: destruct (fs w !! [a; b; c]) as [[|]|]; simpl;
    intros [= _ <-]; simpl; by rewrite ?lookup_insert_ne by done.
Qed.

Lemma open_write_frame (q : path) (text : list byte) (w w' : world)
    (r : result unit) (p : path) :
  open_write q text w = (r, w') -> p <> q -> fs w' !! p = fs w !! p.
Proof.
  unfold open_write. intros Hrun Hp. revert Hrun.
  destruct q as [|x q]; [by intros [= _ <-]|].
  destruct (fs w !! (x :: q)) as [[|]|];
    destruct (parent_node (fs w) (x :: q)) as [[|]|];
    intros [= _ <-]; simpl; by rewrite ?lookup_insert_ne.
Qed.

Lemma calculate_file_hash_world (f : path) (w w' : world) (r : result string) :
  calculate_file_hash f w = (r, w') -> w' = w.
Proof.
  unfold calculate_file_hash, bind, open_read, ret.
  destruct (fs w !! f) as [[|]|]; by intros [= _ <-].
Qed.

Lemma generate_version_id_inv (f : path) (w w' : world) (r : result string) :
  generate_version_id f w = (r, w') ->
  w' = tick w /\
  forall v, r = inr v ->
    exists data, fs w !! f = Some (File data) /\
                 v = version_id_of (clock w (ticks w)) data.
Proof.
  unfold generate_version_id, bind, utcnow.
  destruct (calculate_file_hash f _) as [[e|h] w1] eqn:Hh.
  - apply calculate_file_hash_world in Hh as ->. intros [= <- <-].
    split; [done|]. by intros v [=].
  - apply calculate_file_hash_inv in Hh as (data & Hf & -> & ->).
    unfold ret. intros [= <- <-]. split; [done|].
    intros v [= <-]. by exists data.
Qed.

(** Whatever its outcome, [create_version] changes no entry of depth three
    or more outside the directory of the version id it computes. *)
Lemma create_version_frame (name : string) (file : path) (meta : json)
    (w w' : world) (r : result string) (p : path) :
  create_version name file meta w = (r, w') ->
  (3 <= length p)%nat ->
  (forall data, fs w !! file = Some (File data) ->
     is_under [versions_dir; name; version_id_of (clock w (ticks w)) data] p = false) ->
  fs w' !! p = fs w !! p.
Proof.
  intros Hrun Hlen Hp. revert Hrun.
  unfold create_version. unfold bind at 1. unfold os_path_exists at 1.
  destruct (negb _); [by intros [= _ <-]|].
  unfold bind at 1.
  destruct (generate_version_id file w) as [[e|v] w1] eqn:Hid;
    apply generate_version_id_inv in Hid as [-> Hv]; [by intros [= _ <-]|].
  destruct (Hv v eq_refl) as (data & Hfile & ->). specialize (Hp data Hfile).
  set (v := version_id_of (clock w (ticks w)) data) in *.
  assert (forall q, p <> [versions_dir; name; v] ++ q) as Hne.
  { intros q ->. by rewrite is_under_app in Hp. }
  unfold bind at 1.
  destruct (os_makedirs _ (tick w)) as [[e|u] w2] eqn:Hmk;
    apply (os_makedirs_3_frame _ _ _ _ _ _ p) in Hmk;
    try (by intros [= _ <-]);
    try (intros ->; simpl in Hlen; lia); try (by apply (Hne [])).
  unfold bind at 1.
  destruct (shutil_copy2 file _ w2) as [[e|d] w3] eqn:Hcopy;
    apply (shutil_copy2_frame _ _ _ _ _ p) in Hcopy; try done;
    [intros [= _ <-]; by rewrite Hcopy|].
  unfold bind at 1. unfold utcnow at 1. cbn [fs clock ticks].
  unfold bind at 1.
  destruct (calculate_file_hash file _) as [[e|h] w4] eqn:Hh;
    apply calculate_file_hash_world in Hh as ->;
    [intros [= _ <-]; simpl; by rewrite Hcopy|].
  unfold bind at 1. unfold os_path_getsize at 1. cbn [fs].
  destruct (fs w3 !! file) as [[fd|]|];
    try (intros [= _ <-]; simpl; by rewrite Hcopy).
  all: unfold bind at 1.
  all: destruct (open_write _ _ _) as [[e|u'] w5] eqn:Hw;
    apply (open_write_frame _ _ _ _ _ p) in Hw;
    try (by apply (Hne ["metadata.json"]));
    intros [= _ <-]; simpl in *; by rewrite Hw, Hcopy.
Qed.

Lemma is_under_other_version (name v name2 v2 : string) (q : path) :
  (name, v) <> (name2, v2) ->
  is_under [versions_dir; name; v] (versions_dir :: name2 :: v2 :: q) = false.
Proof.
  intros Hne. destruct (is_under _ _) eqn:Hu; [|done].
  apply is_under_version_dir in Hu as [-> ->]. done.
Qed.


End Lifecycle.

Section Source.

Context `{JsonCodec}.


End Source.

(** ** The store invariant

    The hypotheses of the listing theorems, [metadata_valid] and
    [metadata_named], hold of an empty store and are kept by the helper, as
    long as [json.load] reads back the records [json.dump] wrote. *)

Section StoreInvariant.

Context `{JsonCodec}.

Lemma store_ok_valid_named (name : string) (m : gmap path node) :
  store_ok name m = true ->
  metadata_valid name m = true /\ metadata_named name m = true.
Proof.
  unfold store_ok, metadata_valid, metadata_named. rewrite !forallb_forall.
  intros Hok. split; intros n Hn; specialize (Hok n Hn); unfold entry_ok in Hok.
  - destruct (entry_result _ _ _) as [[?|record]|]; try done.
    by destruct (py_getitem record "created_at") as [?|[]].
  - destruct (entry_result _ _ _) as [[?|record]|]; try done.
    destruct (py_getitem record "created_at") as [?|[]]; try done.
    by destruct (py_getitem record "version") as [?|[]].
Qed.

Lemma store_ok_empty (name : string) (m : gmap path node) :
  fresh_dir m [versions_dir] = true -> store_ok name m = true.
Proof.
  rewrite fresh_dir_true. intros Hfresh. unfold store_ok.
  apply forallb_forall. intros n Hn%list_elem_of_In%elem_of_dir_names.
  pose proof (Hfresh [name; n]) as Hnone. simpl in *.
  rewrite Hnone in Hn. by destruct Hn.
Qed.

(** An operation that leaves the entries of the model alone, or removes
    them, keeps the invariant. *)
Lemma store_ok_shrink (name : string) (m m' : gmap path node) :
  (forall n, is_Some (m' !! [versions_dir; name; n]) ->
     is_Some (m !! [versions_dir; name; n]) /\
     (m' !! [versions_dir; name; n; "metadata.json"] = None \/
      m' !! [versions_dir; name; n; "metadata.json"] =
      m !! [versions_dir; name; n; "metadata.json"])) ->
  store_ok name m = true -> store_ok name m' = true.
Proof.
  unfold store_ok. rewrite !forallb_forall. intros Hsub Hok n Hn.
  apply list_elem_of_In, (elem_of_dir_names _ [versions_dir; name]) in Hn.
  destruct (Hsub n Hn) as [Hin Hmeta].
  specialize (Hok n). unfold entry_ok, entry_result in *. simpl in *.
  destruct Hmeta as [->| ->]; [done|].
  apply Hok, list_elem_of_In. by apply (elem_of_dir_names _ [versions_dir; name]).
Qed.

Lemma delete_version_store_ok (name name' v : string) (w w' : world)
    (r : result bool) :
  delete_version name' v w = (r, w') ->
  store_ok name (fs w) = true -> store_ok name (fs w') = true.
Proof.
  intros Hrun. apply delete_version_shrinks in Hrun as [Hsub _].
  apply store_ok_shrink. intros n [x Hx]. split.
  - exists x. by eapply lookup_weaken.
  - destruct (fs w' !! [versions_dir; name; n; "metadata.json"]) as [y|] eqn:E;
      [right|by left].
    symmetry. by eapply lookup_weaken.
Qed.

Lemma rollback_to_version_store_ok (name name' v : string) (w w' : world)
    (r : result bool) :
  rollback_to_version name' v w = (r, w') ->
  store_ok name (fs w) = true -> store_ok name (fs w') = true.
Proof.
  intros Hrun. apply store_ok_shrink. intros n.
  rewrite !(rollback_to_version_frame _ _ _ _ _ _ Hrun) by done.
  intros ?. split; [done|by right].
Qed.

Lemma create_version_store_ok (name name' : string) (file : path) (meta : json)
    (w w' : world) (v : string) :
  (forall data,
     fs w !! file = Some (File data) ->
     let record := written_record name' meta (clock w (ticks w))
                     (clock w (S (ticks w))) data in
     json_loads (json_dumps record) = inr record) ->
  create_version name' file meta w = (inr v, w') ->
  store_ok name (fs w) = true -> store_ok name (fs w') = true.
Proof.
  intros Hrt Hrun Hok.
  pose proof Hrun as (data & Hfile & Hv & _ & Hw')%create_version_inv.
  specialize (Hrt data Hfile). simpl in Hrt.
  assert (forall p, (3 <= length p)%nat ->
            is_under [versions_dir; name'; v] p = false ->
            fs w' !! p = fs w !! p) as Hframe.
  { intros p Hlen Hp. eapply create_version_frame; [exact Hrun|done|].
    intros data' Hfile'. congruence. }
  unfold store_ok in *. rewrite forallb_forall in Hok. apply forallb_forall.
  intros n Hn. apply list_elem_of_In, (elem_of_dir_names _ [versions_dir; name]) in Hn.
  destruct (decide ((name', v) = (name, n))) as [[= -> ->]|Hne].
  - unfold entry_ok, entry_result. rewrite Hw'. unfold created_fs. simpl.
    rewrite <- Hv, lookup_insert_eq, Hrt.
    unfold written_record, version_metadata, py_getitem.
    cbn [assoc String.eqb Ascii.eqb Bool.eqb]. rewrite Hv. apply String.eqb_refl.
  - simpl in Hn. rewrite Hframe in Hn;
      [|simpl; lia|by apply is_under_other_version].
    unfold entry_ok, entry_result in *. simpl.
    rewrite Hframe; [|simpl; lia|by apply is_under_other_version].
    apply Hok, list_elem_of_In.
    by apply (elem_of_dir_names _ [versions_dir; name]).
Qed.

End StoreInvariant.

(** * Further properties *)

(** ** Hashing a file and naming a version *)















(** ** The latest version *)

Lemma not_older_refl (record : json) : not_older record record.
Proof. unfold not_older. reflexivity. Qed.

Lemma sorted_head_newest (latest : json) (records : list json) :
  StronglySorted not_older (latest :: records) ->
  Forall (not_older latest) (latest :: records).
Proof.
  intros Hs. apply StronglySorted_inv in Hs as [_ Hall].
  constructor; [apply not_older_refl|done].
Qed.

Section Latest.

Context `{JsonCodec}.

(** The listing of a model whose metadata files hold records with a
    [created_at] string. *)
Lemma list_versions_valid (name : string) (w : world) :
  fs w !! [versions_dir; name] = Some Dir ->
  metadata_valid name (fs w) = true ->
  exists records,
    list_versions name w = (inr records, w) /\
    Permutation records (version_records name (fs w)) /\
    StronglySorted not_older records.
Proof.
  intros Hdir Hvalid. rewrite list_versions_run, Hdir.
  destruct (collect_valid _ _ _ Hvalid) as (Hc & Hstr & _). rewrite Hc.
  destruct (sorted_reverse_created_at _ Hstr) as (records & Hs & Hperm & Hsorted).
  rewrite Hs. by exists records.
Qed.


End Latest.

(** ** Comparing two versions *)

Lemma string_ltb_asym (s t : string) :
  String.ltb s t = true -> String.ltb t s = false.
Proof.
  unfold String.ltb. rewrite (String.compare_antisym t s).
  by destruct (String.compare s t).
Qed.

Section CompareTwo.

Context `{JsonCodec}.



(** X5. For two versions whose metadata files hold version records, the
    comparison taken in the other order has the same [same_hash] and the
    opposite [size_difference], and [time_difference] is true in one order
    at most: it says whether the second [created_at] is the greater
    string. *)
Theorem get_version_comparison_swapped (name v1 v2 : string)
    (d1 d2 : list byte) (r1 r2 : json) (w : world) :
  fs w !! [versions_dir; name; v1; "metadata.json"] = Some (File d1) ->
  fs w !! [versions_dir; name; v2; "metadata.json"] = Some (File d2) ->
  json_loads d1 = inr r1 -> json_loads d2 = inr r2 ->
  is_version_record r1 = true -> is_version_record r2 = true ->
  exists c12 c21 cmp12 cmp21 same diff later12 later21,
    get_version_comparison name v1 v2 w = (inr c12, w) /\
    get_version_comparison name v2 v1 w = (inr c21, w) /\
    py_getitem c12 "comparison" = inr cmp12 /\
    py_getitem c21 "comparison" = inr cmp21 /\
    py_getitem cmp12 "same_hash" = inr (JBool same) /\
    py_getitem cmp21 "same_hash" = inr (JBool same) /\
    py_getitem cmp12 "size_difference" = inr (JInt diff) /\
    py_getitem cmp21 "size_difference" = inr (JInt (- diff)) /\
    py_getitem cmp12 "time_difference" = inr (JBool later12) /\
    py_getitem cmp21 "time_difference" = inr (JBool later21) /\
    later12 = String.ltb (created_at_of r1) (created_at_of r2) /\
    (later12 = true -> later21 = false).
Proof.
  intros Hf1 Hf2 Hl1 Hl2 Hr1 Hr2.
  destruct (version_record_shape _ Hr1) as (m1 & h1 & c1 & n1 & -> & Hm1 & Hh1 & Hc1 & Hs1).
  destruct (version_record_shape _ Hr2) as (m2 & h2 & c2 & n2 & -> & Hm2 & Hh2 & Hc2 & Hs2).
  assert (py_truthy (JDict m1) = true) as Ht1 by (by destruct m1).
  assert (py_truthy (JDict m2) = true) as Ht2 by (by destruct m2).
  assert (forall a b da db ma mb ha hb ca cb na nb,
    fs w !! [versions_dir; name; a; "metadata.json"] = Some (File da) ->
    fs w !! [versions_dir; name; b; "metadata.json"] = Some (File db) ->
    json_loads da = inr (JDict ma) -> json_loads db = inr (JDict mb) ->
    py_truthy (JDict ma) = true -> py_truthy (JDict mb) = true ->
    assoc "file_hash" ma = Some (JStr ha) -> assoc "file_hash" mb = Some (JStr hb) ->
    assoc "created_at" ma = Some (JStr ca) -> assoc "created_at" mb = Some (JStr cb) ->
    py_get (JDict ma) "file_size_bytes" (JInt 0) = inr (JInt na) ->
    py_get (JDict mb) "file_size_bytes" (JInt 0) = inr (JInt nb) ->
    exists c cmp,
      get_version_comparison name a b w = (inr c, w) /\
      py_getitem c "comparison" = inr cmp /\
      py_getitem cmp "same_hash" = inr (JBool (String.eqb ha hb)) /\
      py_getitem cmp "size_difference" = inr (JInt (nb - na)) /\
      py_getitem cmp "time_difference" = inr (JBool (String.ltb ca cb))) as Hone.
  { intros a b da db ma mb ha hb ca cb na nb Hfa Hfb Hla Hlb Hta Htb
      Hha Hhb Hca Hcb Hsa Hsb.
    unfold get_version_comparison. unfold bind at 1.
    rewrite (load_metadata_file name a da) by done. rewrite Hla.
    unfold bind at 1.
    rewrite (load_metadata_file name b db) by done. rewrite Hlb.
    rewrite Hta, Htb. cbn [negb orb].
    unfold bind, lift, ret, version_summary, comparison.
    rewrite Hsa, Hsb. simpl. rewrite Hha, Hhb, Hca, Hcb. simpl.
    by eexists _, _. }
  destruct (Hone v1 v2 d1 d2 m1 m2 h1 h2 c1 c2 n1 n2) as (c12 & cmp12 & ? & ? & ? & ? & ?);
    try done.
  destruct (Hone v2 v1 d2 d1 m2 m1 h2 h1 c2 c1 n2 n1) as (c21 & cmp21 & ? & ? & Hsame & Hdiff & ?);
    try done.
  exists c12, c21, cmp12, cmp21, (String.eqb h1 h2), (n2 - n1),
    (String.ltb c1 c2), (String.ltb c2 c1).
  repeat split; try done.
  - by rewrite String.eqb_sym.
  - by replace (- (n2 - n1)) with (n1 - n2) by lia.
  - unfold created_at_of, py_getitem. by rewrite Hc1, Hc2.
  - apply string_ltb_asym.
Qed.

End CompareTwo.

(** ** Creating, rolling back and deleting, one after the other *)

Section Compose.

Context `{JsonCodec}.

Lemma created_fs_lookup (name : string) (file : path) (meta : json) (w : world)
    (data : list byte) (p : path) :
  let v := version_id_of (clock w (ticks w)) data in
  created_fs name file meta w data !! p =
    if decide (p = [versions_dir; name; v; "metadata.json"]) then
      Some (File (json_dumps (written_record name meta (clock w (ticks w))
                                (clock w (S (ticks w))) data)))
    else if decide (p = [versions_dir; name; v; basename file]) then
      Some (File data)
    else if decide (p = [versions_dir; name; v]) then Some Dir
    else if decide (p = [versions_dir; name]) then Some Dir
    else if decide (p = [versions_dir]) then Some Dir
    else fs w !! p.
Proof.
  intros v. unfold created_fs, with_dirs. fold v. simpl.
  repeat (case_decide; [subst p; by rewrite lookup_insert_eq|
                        rewrite lookup_insert_ne by congruence]).
  done.
Qed.

Lemma created_fs_lookup_dir (name : string) (file : path) (meta : json)
    (w : world) (data : list byte) :
  created_fs name file meta w data
    !! [versions_dir; name; version_id_of (clock w (ticks w)) data] = Some Dir.
Proof.
  rewrite created_fs_lookup. rewrite !decide_False by congruence.
  by rewrite decide_True.
Qed.

Lemma created_fs_lookup_copy (name : string) (file : path) (meta : json)
    (w : world) (data : list byte) :
  basename file <> "metadata.json" ->
  created_fs name file meta w data
    !! [versions_dir; name; version_id_of (clock w (ticks w)) data; basename file] =
  Some (File data).
Proof.
  intros Hbase. rewrite created_fs_lookup.
  rewrite decide_False by congruence. by rewrite decide_True.
Qed.






Lemma filter_no_model_files (f : string) (names : list string) :
  endswith f ".pkl" = false ->
  (forall n, n ∈ names -> n = f \/ n = "metadata.json") ->
  List.filter (fun n => endswith n ".pkl") names = [].
Proof.
  intros Hf. induction names as [|n names IH]; intros Hall; simpl; [done|].
  rewrite IH by (intros n' Hn'; apply Hall; by right).
  by destruct (Hall n) as [-> | ->]; [by left|rewrite Hf|].
Qed.

(** A version directory that did not exist before holds nothing but the
    copy and the metadata file. *)
Lemma created_fs_entries (name : string) (file : path) (meta : json)
    (w : world) (data : list byte) (n : string) :
  let v := version_id_of (clock w (ticks w)) data in
  fresh_dir (fs w) [versions_dir; name; v] = true ->
  n ∈ dir_names (created_fs name file meta w data) [versions_dir; name; v] ->
  n = basename file \/ n = "metadata.json".
Proof.
  intros v Hfresh. rewrite fresh_dir_true in Hfresh.
  rewrite elem_of_dir_names, created_fs_lookup. fold v. simpl.
  repeat case_decide; simplify_eq; eauto.
  pose proof (Hfresh [n]) as Hnone. simpl in Hnone. rewrite Hnone.
  by intros [? ?].
Qed.

(** X7. Only a [.pkl] file is ever rolled back: for a version made from
    an artifact with another extension, in a version directory that did
    not exist before, [rollback_to_version] returns [False] and changes
    nothing, although the version holds the artifact (unless the artifact
    is itself named [metadata.json], the name the metadata file is
    written under). *)
Theorem create_then_rollback_other_extension (name : string) (file : path)
    (meta : json) (w w' : world) (v : string) :
  create_version name file meta w = (inr v, w') ->
  fresh_dir (fs w) [versions_dir; name; v] = true ->
  endswith (basename file) ".pkl" = false ->
  rollback_to_version name v w' = (inr false, w') /\
  exists data,
    fs w !! file = Some (File data) /\
    (basename file <> "metadata.json" ->
     fs w' !! [versions_dir; name; v; basename file] = Some (File data)).
Proof.
  intros Hrun Hfresh Hpkl.
  apply create_version_inv in Hrun as (data & Hfile & -> & _ & ->).
  split.
  - rewrite rollback_to_version_run. cbn [fs].
    rewrite created_fs_lookup_dir.
    rewrite (filter_no_model_files (basename file)); [done|done|].
    intros n. by apply created_fs_entries.
  - exists data. split; [done|]. intros Hbase. cbn [fs].
    by apply created_fs_lookup_copy.
Qed.


(** X9. In a well-formed tree, once [delete_version] has returned,
    whatever it returned and whatever the model name and the version id
    are, the version is gone for the other operations: deleting it again
    returns [False] and rolling back to it raises [ValueError], and
    neither changes anything. *)
Theorem delete_version_again (name v : string) (w w' : world) (b : bool) :
  well_formed (fs w) = true ->
  delete_version name v w = (inr b, w') ->
  delete_version name v w' = (inr false, w') /\
  rollback_to_version name v w' = (inl ValueError, w').
Proof.
  intros Hwf Hrun.
  apply delete_version_gone in Hrun as [Hgone Hnowhere].
  rewrite rollback_to_version_run, Hgone. split; [|done].
  unfold delete_version. unfold bind at 1. unfold os_path_exists_joined.
  rewrite Hnowhere; [by rewrite bool_decide_eq_false_2 by (by intros [? ?])|].
  intros Hkey.
  destruct (well_formed_entry _ _ Hwf Hkey) as (_ & Hplain & _).
  apply Forall_cons in Hplain as [_ [Hn [Hv _]%Forall_cons]%Forall_cons].
  done.
Qed.

End Compose.

(** ** Listing after a version is created *)

Lemma string_ltb_not_ge (s t : string) :
  String.ltb s t = true -> String.le t s -> False.
Proof.
  unfold String.ltb, String.le, String.leb.
  rewrite (String.compare_antisym t s).
  destruct (String.compare s t); simpl; intros; done.
Qed.

Section CreateThenList.

Context `{JsonCodec}.

Lemma created_fs_model_dir (name : string) (file : path) (meta : json)
    (w : world) (data : list byte) :
  let v := version_id_of (clock w (ticks w)) data in
  fresh_dir (fs w) [versions_dir; name; v] = true ->
  Permutation (dir_names (created_fs name file meta w data) [versions_dir; name])
              (v :: dir_names (fs w) [versions_dir; name]).
Proof.
  intros v Hfresh. rewrite fresh_dir_true in Hfresh.
  pose proof (Hfresh []) as Hnone. simpl in Hnone.
  apply NoDup_Permutation.
  - apply NoDup_dir_names.
  - apply NoDup_cons. split; [|apply NoDup_dir_names].
    rewrite elem_of_dir_names. simpl. rewrite Hnone. by intros [? ?].
  - intros n. rewrite elem_of_cons, !elem_of_dir_names, created_fs_lookup.
    fold v. simpl.
    rewrite !decide_False by congruence.
    destruct (decide (n = v)) as [->|Hn].
    + rewrite decide_True by done. split; [by left|by eexists].
    + rewrite decide_False by congruence.
      rewrite !decide_False by congruence. split; [by right|by intros [|]].
Qed.

Lemma created_fs_entry_other (name : string) (file : path) (meta : json)
    (w : world) (data : list byte) (n : string) :
  n <> version_id_of (clock w (ticks w)) data ->
  entry_result (created_fs name file meta w data) [versions_dir; name] n =
  entry_result (fs w) [versions_dir; name] n.
Proof.
  intros Hn. unfold entry_result. simpl. rewrite created_fs_lookup.
  by rewrite !decide_False by congruence.
Qed.

Lemma created_fs_entry_new (name : string) (file : path) (meta : json)
    (w : world) (data : list byte) :
  entry_result (created_fs name file meta w data) [versions_dir; name]
    (version_id_of (clock w (ticks w)) data) =
  Some (json_loads (json_dumps (written_record name meta (clock w (ticks w))
                                  (clock w (S (ticks w))) data))).
Proof.
  unfold entry_result. simpl. rewrite created_fs_lookup.
  by rewrite decide_True.
Qed.

(** What [list_versions] returns once [create_version] has made a version
    in a directory that did not exist before. *)
Lemma create_version_listing (name : string) (file : path) (meta : json)
    (w w' : world) (v : string) :
  create_version name file meta w = (inr v, w') ->
  fresh_dir (fs w) [versions_dir; name; v] = true ->
  metadata_valid name (fs w) = true ->
  (forall data,
     fs w !! file = Some (File data) ->
     let record := written_record name meta (clock w (ticks w))
                     (clock w (S (ticks w))) data in
     json_loads (json_dumps record) = inr record) ->
  exists data records,
    fs w !! file = Some (File data) /\
    list_versions name w' = (inr records, w') /\
    Permutation records
      (written_record name meta (clock w (ticks w)) (clock w (S (ticks w))) data
         :: version_records name (fs w)) /\
    StronglySorted not_older records.
Proof.
  intros Hrun Hfresh Hvalid Hrt.
  apply create_version_inv in Hrun as (data & Hfile & -> & _ & ->).
  specialize (Hrt data Hfile). simpl in Hrt.
  set (v := version_id_of (clock w (ticks w)) data) in *.
  set (record := written_record name meta (clock w (ticks w))
                   (clock w (S (ticks w))) data) in *.
  pose proof (created_fs_model_dir name file meta w data Hfresh) as Hnames.
  fold v in Hnames.
  assert (v ∉ dir_names (fs w) [versions_dir; name]) as Hnew.
  { rewrite fresh_dir_true in Hfresh. pose proof (Hfresh []) as Hnone.
    rewrite elem_of_dir_names. simpl in *. rewrite Hnone. by intros [? ?]. }
  assert (Permutation
            (version_records name (created_fs name file meta w data))
            (record :: version_records name (fs w))) as Hrecords.
  { unfold version_records. rewrite Hnames. simpl.
    unfold entry_record at 1. unfold v at 1. rewrite created_fs_entry_new.
    fold record. rewrite Hrt. apply Permutation_cons; [done|].
    match goal with
    | |- Permutation ?a ?b => assert (a = b) as Heq; [|by rewrite Heq]
    end.
    apply list_omap_ext, Forall_Forall2_diag, Forall_forall. intros n Hn.
    unfold entry_record. rewrite created_fs_entry_other; [done|].
    intros ->. by apply Hnew. }
  assert (metadata_valid name (created_fs name file meta w data) = true) as Hvalid'.
  { unfold metadata_valid in *. apply forallb_forall. intros n Hn.
    apply list_elem_of_In in Hn. rewrite Hnames in Hn.
    apply elem_of_cons in Hn as [->|Hn].
    - unfold v. rewrite created_fs_entry_new. fold record. by rewrite Hrt.
    - rewrite created_fs_entry_other by (intros ->; by apply Hnew).
      rewrite forallb_forall in Hvalid. by apply Hvalid, list_elem_of_In. }
  destruct (list_versions_valid name
              (World (created_fs name file meta w data) (clock w) (S (S (ticks w)))))
    as (records & Hlist & Hperm & Hsorted).
  { cbn [fs]. rewrite created_fs_lookup. fold v.
    rewrite !decide_False by congruence. by rewrite decide_True. }
  { done. }
  exists data, records. split; [done|]. split; [done|]. split; [|done].
  by rewrite Hperm.
Qed.


(** X11. [get_latest_version] returns the version [create_version] has
    just made when the [created_at] of every earlier record of the model
    is a smaller string than the clock reading written into the new one. *)
Theorem create_then_latest (name : string) (file : path) (meta : json)
    (w w' : world) (v : string) :
  create_version name file meta w = (inr v, w') ->
  fresh_dir (fs w) [versions_dir; name; v] = true ->
  metadata_valid name (fs w) = true ->
  (forall data,
     fs w !! file = Some (File data) ->
     let record := written_record name meta (clock w (ticks w))
                     (clock w (S (ticks w))) data in
     json_loads (json_dumps record) = inr record) ->
  forallb (fun r => String.ltb (created_at_of r)
                      (isoformat (clock w (S (ticks w)))))
          (version_records name (fs w)) = true ->
  exists latest,
    get_latest_version name w' = (inr (Some latest), w') /\
    py_getitem latest "version" = inr (JStr v) /\
    py_getitem latest "created_at" = inr (JStr (isoformat (clock w (S (ticks w))))).
Proof.
  intros Hrun Hfresh Hvalid Hrt Hold.
  destruct (create_version_listing name file meta w w' v Hrun Hfresh Hvalid Hrt)
    as (data & records & Hfile & Hlist & Hperm & Hsorted).
  apply create_version_inv in Hrun as (data' & Hfile' & -> & _).
  assert (data' = data) as -> by congruence.
  set (record := written_record name meta (clock w (ticks w))
                   (clock w (S (ticks w))) data) in *.
  exists record. split; [|done].
  unfold get_latest_version, bind. rewrite Hlist.
  destruct records as [|latest records].
  { by apply Permutation_nil in Hperm. }
  cbn [ret]. do 3 f_equal.
  pose proof (sorted_head_newest latest records Hsorted) as Hnewest.
  rewrite Hperm in Hnewest. apply Forall_cons in Hnewest as [Hrec _].
  assert (latest ∈ record :: version_records name (fs w)) as Hin.
  { rewrite <- Hperm. apply elem_of_cons. by left. }
  apply elem_of_cons in Hin as [->|Hin]; [done|].
  rewrite forallb_forall in Hold.
  specialize (Hold latest (proj1 (list_elem_of_In _ _) Hin)).
  destruct (string_ltb_not_ge _ _ Hold). exact Hrec.
Qed.

End CreateThenList.

(** ** The endpoints *)

Section EndpointProperties.

Context `{JsonCodec}.

(** A metadata file that does not load, or has no [created_at], makes the
    listing of its model raise. *)
Lemma list_versions_corrupt (name n : string) (data : list byte) (w : world) :
  fs w !! [versions_dir; name] = Some Dir ->
  fs w !! [versions_dir; name; n] = Some Dir ->
  fs w !! [versions_dir; name; n; "metadata.json"] = Some (File data) ->
  corrupt_metadata data = true ->
  exists e, list_versions name w = (inl e, w).
Proof.
  intros Hroot Hdir Hfile Hbad.
  rewrite list_versions_run, Hroot.
  assert (n ∈ dir_names (fs w) [versions_dir; name]) as Hn.
  { apply elem_of_dir_names. simpl. by rewrite Hdir. }
  assert (entry_result (fs w) [versions_dir; name] n = Some (json_loads data))
    as Hentry.
  { unfold entry_result. simpl. by rewrite Hfile. }
  unfold corrupt_metadata in Hbad.
  destruct (json_loads data) as [e0|record] eqn:Hload.
  - destruct (collect_fails
                (map (entry_result (fs w) [versions_dir; name])
                     (dir_names (fs w) [versions_dir; name])) e0) as [e' ->].
    + apply list_elem_of_In, in_map_iff. exists n.
      split; [exact Hentry|by apply list_elem_of_In].
    + by eexists.
  - destruct (collect _) as [e'|records] eqn:Hc; [by eexists|].
    destruct (py_getitem record "created_at") as [e0|] eqn:Hkey; [|done].
    destruct (sorted_reverse_fails (fun x => py_getitem x "created_at")
                records record e0) as [e' ->]; [|done|by eexists].
    eapply collect_elem; [exact Hc|].
    apply list_elem_of_In, in_map_iff. exists n.
    split; [exact Hentry|by apply list_elem_of_In].
Qed.

(** X12. [GET /api/v1/versions/{model_name}] answers 200 with an empty
    list for a model that has no directory, not 404. For a model whose
    metadata files hold records with a [created_at] string it answers 200
    with the listing, [total_versions] being the number of version
    directories that hold a metadata file. It answers 404 when a metadata
    file of the model is not valid JSON or has no [created_at]. *)
Theorem list_model_versions_responses (name : string) (w : world) :
  (fs w !! [versions_dir; name] = None ->
   list_model_versions name w =
     (inr (JDict [ ("model_name", JStr name);
                   ("total_versions", JInt 0);
                   ("versions", JList []);
                   ("author", JStr "asarekings");
                   ("timestamp", JStr (isoformat (clock w (ticks w)))) ]),
      tick w)) /\
  (fs w !! [versions_dir; name] = Some Dir ->
   metadata_valid name (fs w) = true ->
   exists body records,
     list_model_versions name w = (inr body, tick w) /\
     py_getitem body "versions" = inr (JList records) /\
     Permutation records (version_records name (fs w)) /\
     StronglySorted not_older records /\
     py_getitem body "total_versions" =
       inr (py_len (List.filter (has_metadata (fs w) [versions_dir; name])
                      (dir_names (fs w) [versions_dir; name])))) /\
  (forall n data,
     fs w !! [versions_dir; name] = Some Dir ->
     fs w !! [versions_dir; name; n] = Some Dir ->
     fs w !! [versions_dir; name; n; "metadata.json"] = Some (File data) ->
     corrupt_metadata data = true ->
     list_model_versions name w = (inl (HTTPException 404), w)).
Proof.
  split; [|split].
  - intros Hnone.
    unfold list_model_versions, try_except, and_then, call, respond.
    by rewrite list_versions_run, Hnone.
  - intros Hdir Hvalid.
    destruct (list_versions_valid name w Hdir Hvalid)
      as (records & Hrun & Hperm & Hsorted).
    unfold list_model_versions, try_except, and_then, call, respond.
    rewrite Hrun. simpl. eexists _, records. split; [done|].
    split; [done|]. split; [done|]. split; [done|].
    simpl. unfold py_len. do 3 f_equal.
    rewrite (Permutation_length Hperm). unfold version_records.
    by destruct (collect_valid _ _ _ Hvalid) as (_ & _ & ->).
  - intros n data Hroot Hdir Hfile Hbad.
    destruct (list_versions_corrupt name n data w Hroot Hdir Hfile Hbad)
      as [e Hrun].
    unfold list_model_versions, try_except, and_then, call, raise_http.
    by rewrite Hrun.
Qed.


(** X14. [DELETE /api/v1/versions/{model_name}/{version_id}] never
    answers 404. For a model name and a version id that are plain names it
    answers 500 for a version that does not exist, and changes nothing
    then; for a version directory it answers 200, and the directory is
    gone with all it held while every other path is as before. For the
    version id [..] and a model that has a directory, in a well-formed
    tree, it answers 500 after every entry of the versions root is gone,
    the versions of the other models too. *)
Theorem delete_model_version_responses (name v : string) (w : world) :
  (forall r w',
     delete_model_version name v w = (r, w') ->
     status_code r = 200 \/ status_code r = 500) /\
  (plain_name name = true -> plain_name v = true ->
   (fs w !! [versions_dir; name; v] = None ->
    delete_model_version name v w = (inl (HTTPException 500), w)) /\
   (fs w !! [versions_dir; name; v] = Some Dir ->
    exists body w',
      delete_model_version name v w = (inr body, w') /\
      py_getitem body "deleted_version" = inr (JStr v) /\
      (forall q, fs w' !! ([versions_dir; name; v] ++ q) = None) /\
      (forall p, is_under [versions_dir; name; v] p = false ->
         fs w' !! p = fs w !! p))) /\
  (well_formed (fs w) = true ->
   fs w !! [versions_dir; name] = Some Dir ->
   exists w',
     delete_model_version name ".." w = (inl (HTTPException 500), w') /\
     (forall n q, fs w' !! (versions_dir :: n :: q) = None) /\
     (forall p, is_under [versions_dir] p = false -> fs w' !! p = fs w !! p)).
Proof.
  split; [|split].
  - intros r w'.
    unfold delete_model_version, try_except, and_then, call, raise_http, respond.
    destruct (delete_version name v w) as [[e|[|]] w1] eqn:Hrun;
      simpl; intros [= <- <-]; simpl; eauto.
  - intros Hname Hv. split.
    + intros Hnone.
      unfold delete_model_version, try_except, and_then, call, raise_http.
      by rewrite delete_version_run, Hnone.
    + intros Hdir.
      unfold delete_model_version, try_except, and_then, call, respond.
      rewrite delete_version_run, Hdir by done. simpl.
      eexists _, _. split; [done|]. split; [done|]. simpl. split.
      * intros q. rewrite lookup_rmtree.
        pose proof (is_under_app [versions_dir; name; v] q) as Hu.
        simpl in Hu. by rewrite Hu.
      * intros p Hp. by rewrite lookup_rmtree, Hp.
  - intros Hwf Hmodel.
    unfold delete_model_version, try_except, and_then, call, raise_http.
    rewrite delete_version_dot_dot by done.
    eexists. split; [done|]. simpl. split.
    + intros n q. apply map_lookup_filter_None. right. intros x _. simpl.
      pose proof (is_under_app [versions_dir] (n :: q)) as Hu. simpl in Hu.
      intros [Hu'|Heq]; congruence.
    + intros p Hp. destruct (fs w !! p) as [x|] eqn:E.
      * apply map_lookup_filter_Some. split; [done|]. by left.
      * apply map_lookup_filter_None. by left.
Qed.

End EndpointProperties.

(** ** The endpoint that lists every model *)

Lemma assoc_setitem (k n : string) (v : json) (d : list (string * json)) :
  assoc k (py_setitem n v d) = if String.eqb k n then Some v else assoc k d.
Proof.
  induction d as [|[k' v'] d IH]; simpl.
  - done.
  - destruct (String.eqb n k') eqn:Hn; simpl.
    + apply String.eqb_eq in Hn as ->. by destruct (String.eqb k k').
    + rewrite IH. destruct (String.eqb k k') eqn:Hk; [|done].
      apply String.eqb_eq in Hk as ->. by rewrite String.eqb_sym, Hn.
Qed.

Lemma length_setitem (n : string) (v : json) (d : list (string * json)) :
  assoc n d = None -> length (py_setitem n v d) = S (length d).
Proof.
  induction d as [|[k' v'] d IH]; simpl; [done|].
  destruct (String.eqb n k'); [done|]. intros Hd. simpl. by rewrite IH.
Qed.

Section ListAll.

Context `{JsonCodec}.

Lemma versioned_model_run (n : string) (acc : list (string * json)) (w : world) :
  versioned_model n acc w =
    (if is_dir (fs w) [versions_dir; n] then
       match fst (list_versions n w) with
       | inl e => inl e
       | inr records => inr (py_setitem n (model_entry records) acc)
       end
     else inr acc, w).
Proof.
  unfold versioned_model, bind, os_path_isdir, is_dir, ret, versions_dir. simpl.
  destruct (fs w !! ["model_versions"; n]) as [[|]|]; try done.
  destruct (list_versions n w) as [[e|records] w'] eqn:Hrun;
    apply list_versions_world in Hrun as ->; by simpl.
Qed.

Lemma versioned_models_fail (names : list string) (acc : list (string * json))
    (w : world) (name : string) (e : exn) :
  name ∈ names ->
  fs w !! [versions_dir; name] = Some Dir ->
  list_versions name w = (inl e, w) ->
  exists e', versioned_models names acc w = (inl e', w).
Proof.
  intros Hin Hdir Hfail. revert acc.
  induction names as [|n names IH]; intros acc; [by apply elem_of_nil in Hin|].
  simpl. unfold bind. rewrite versioned_model_run.
  destruct (decide (n = name)) as [->|Hne].
  - unfold is_dir. rewrite Hdir, Hfail. by eexists.
  - apply elem_of_cons in Hin as [->|Hin]; [done|].
    destruct (is_dir _ _); [|by apply IH].
    destruct (fst (list_versions n w)); [by eexists|by apply IH].
Qed.

Lemma versioned_models_run (names : list string) (acc : list (string * json))
    (w : world) :
  NoDup names ->
  (forall n, n ∈ names -> is_dir (fs w) [versions_dir; n] = true ->
     exists records, list_versions n w = (inr records, w)) ->
  (forall n, n ∈ names -> assoc n acc = None) ->
  exists models,
    versioned_models names acc w = (inr models, w) /\
    length models =
      (length acc +
       length (List.filter (fun n => is_dir (fs w) [versions_dir; n]) names))%nat /\
    (forall k entry,
       assoc k models = Some entry <->
       assoc k acc = Some entry \/
       (k ∈ names /\ is_dir (fs w) [versions_dir; k] = true /\
        exists records,
          list_versions k w = (inr records, w) /\ entry = model_entry records)).
Proof.
  intros Hnd. revert acc.
  induction Hnd as [|n names Hn Hnd IH]; intros acc Hok Hacc.
  - exists acc. split; [done|]. split; [simpl; lia|].
    intros k entry. split; [by left|].
    intros [?|[[]%elem_of_nil _]]. done.
  - simpl. unfold bind. rewrite versioned_model_run.
    assert (forall m, m ∈ names -> m ∈ n :: names) as Hsub.
    { intros m Hm. apply elem_of_cons. by right. }
    assert (n ∈ n :: names) as Hhead by (apply elem_of_cons; by left).
    destruct (is_dir (fs w) [versions_dir; n]) eqn:Hdir.
    + destruct (Hok n Hhead Hdir) as [records Hrun]. rewrite Hrun. simpl.
      destruct (IH (py_setitem n (model_entry records) acc))
        as (models & Hloop & Hlen & Hkeys).
      { intros m Hm. apply Hok. by apply Hsub. }
      { intros m Hm. rewrite assoc_setitem.
        destruct (String.eqb m n) eqn:Hmn;
          [apply String.eqb_eq in Hmn as ->; done|].
        by apply Hacc, Hsub. }
      exists models. split; [done|]. split.
      { rewrite Hlen, length_setitem by (by apply Hacc). simpl. lia. }
      intros k entry. rewrite Hkeys, assoc_setitem, elem_of_cons.
      destruct (String.eqb k n) eqn:Hkn.
      * apply String.eqb_eq in Hkn as ->. rewrite (Hacc n Hhead). split.
        -- intros [[= <-]|(Hin & _)]; [|done].
           right. split; [by left|]. split; [done|]. by exists records.
        -- intros [[=]|(_ & _ & records' & Hrun' & ->)].
           left. by assert (records' = records) as -> by congruence.
      * apply String.eqb_neq in Hkn. split.
        -- intros [?|(Hin & ? & ?)]; [by left|]. right. split; [by right|done].
        -- intros [?|([->|Hin] & ? & ?)]; [by left|done|]. by right.
    + destruct (IH acc) as (models & Hloop & Hlen & Hkeys).
      { intros m Hm. apply Hok. by apply Hsub. }
      { intros m Hm. by apply Hacc, Hsub. }
      exists models. split; [done|]. split; [done|].
      intros k entry. rewrite Hkeys, elem_of_cons. split.
      * intros [?|(Hin & ? & ?)]; [by left|]. right. split; [by right|done].
      * intros [?|([->|Hin] & Hk & ?)]; [by left|congruence|]. by right.
Qed.

(** X15. [GET /api/v1/versions] answers with no model when there is no
    versions root. When the metadata files of every model hold records
    with a [created_at] string it answers with one entry for each
    directory under the versions root, a model without any version
    included, each entry holding what [list_versions] returns for that
    model; [total_models] is the number of these directories. A metadata
    file that is not valid JSON or has no [created_at], in any model, makes
    the whole request fail with an exception that nothing catches. *)
Theorem list_all_versioned_models_responses (w : world) :
  (fs w !! [versions_dir] = None ->
   list_all_versioned_models w =
     (inr (JDict [ ("versioned_models", JDict []);
                   ("total_models", JInt 0);
                   ("author", JStr "asarekings");
                   ("timestamp", JStr (isoformat (clock w (ticks w)))) ]),
      tick w)) /\
  (fs w !! [versions_dir] = Some Dir ->
   all_metadata_valid (fs w) = true ->
   exists body models,
     list_all_versioned_models w = (inr body, tick w) /\
     py_getitem body "versioned_models" = inr (JDict models) /\
     py_getitem body "total_models" = inr (py_len (model_dirs (fs w))) /\
     (forall name entry,
        assoc name models = Some entry <->
        name ∈ model_dirs (fs w) /\
        exists records,
          list_versions name w = (inr records, w) /\
          entry = model_entry records)) /\
  (forall name n data,
     fs w !! [versions_dir] = Some Dir ->
     fs w !! [versions_dir; name] = Some Dir ->
     fs w !! [versions_dir; name; n] = Some Dir ->
     fs w !! [versions_dir; name; n; "metadata.json"] = Some (File data) ->
     corrupt_metadata data = true ->
     exists e,
       list_all_versioned_models w = (inl (Python e), w) /\
       status_code (fst (list_all_versioned_models w)) = 500).
Proof.
  split; [|split].
  - intros Hnone. unfold versions_dir in Hnone.
    unfold list_all_versioned_models, and_then, call, respond, os_path_exists.
    rewrite bool_decide_eq_false_2; [done|]. rewrite Hnone. by intros [? ?].
  - intros Hroot Hvalid.
    destruct (versioned_models_run (dir_names (fs w) [versions_dir]) [] w)
      as (models & Hloop & Hlen & Hkeys).
    { apply NoDup_dir_names. }
    { intros n Hn Hdir.
      unfold all_metadata_valid, model_dirs in Hvalid.
      rewrite forallb_forall in Hvalid.
      destruct (list_versions_valid n w) as (records & Hrun & _).
      - unfold is_dir in Hdir. by destruct (fs w !! [versions_dir; n]) as [[|]|].
      - apply Hvalid, filter_In. split; [by apply list_elem_of_In|done].
      - by exists records. }
    { done. }
    unfold versions_dir in Hroot, Hloop.
    unfold list_all_versioned_models, and_then, call, respond, os_path_exists.
    rewrite bool_decide_eq_true_2 by (by rewrite Hroot).
    unfold bind, os_listdir. rewrite Hroot, Hloop. simpl.
    eexists _, models. split; [done|]. split; [done|]. split.
    + simpl. unfold py_len, model_dirs. by rewrite Hlen.
    + intros name entry. rewrite Hkeys. unfold model_dirs. split.
      * intros [[=]|(Hin & Hdir & Hrec)]. split; [|done].
        apply list_elem_of_In, filter_In. split; [by apply list_elem_of_In|done].
      * intros [Hin Hrec]. right.
        apply list_elem_of_In, filter_In in Hin as [Hin Hdir].
        split; [by apply list_elem_of_In|done].
  - intros name n data Hroot Hmodel Hdir Hfile Hbad.
    destruct (list_versions_corrupt name n data w Hmodel Hdir Hfile Hbad)
      as [e Hrun].
    destruct (versioned_models_fail (dir_names (fs w) [versions_dir]) [] w name e)
      as [e' Hloop]; [|done|done|].
    { apply elem_of_dir_names. simpl. by rewrite Hmodel. }
    exists e'. unfold versions_dir in Hroot, Hloop.
    assert (list_all_versioned_models w = (inl (Python e'), w)) as Hall.
    { unfold list_all_versioned_models, and_then, call, respond, os_path_exists.
      rewrite bool_decide_eq_true_2 by (by rewrite Hroot).
      unfold bind, os_listdir. by rewrite Hroot, Hloop. }
    by rewrite Hall.
Qed.

End ListAll.

(** ** The endpoint that creates a version *)

Section CreateEndpoint.

Context `{JsonCodec}.

Variable glob_glob : path -> gmap path node -> list path.

(** X16. [POST /api/v1/versions/{model_name}/create] never answers 404:
    when neither [models/{model_name}_model.pkl] nor a match of the two
    patterns exists, the [HTTPException] with status 404 is caught by the
    handler of the endpoint and raised again with status 500. When
    [models/{model_name}_model.pkl] is a regular file that
    [create_version] can version, the endpoint answers 200 with the new
    version id, and the metadata stored is the body of the request, or the
    default metadata when the body is missing or an empty dict. The body
    is one the framework has accepted: none, or a JSON object. *)
Theorem create_model_version_responses (name : string)
    (metadata : option (list (string * json))) (w : world) :
  (forall r w',
     create_model_version glob_glob name metadata w = (r, w') ->
     status_code r = 200 \/ status_code r = 500) /\
  (fs w !! active_artifact name = None ->
   glob_glob ["models"; name +:+ ".pkl"] (fs w) = [] ->
   glob_glob ["models"; name +:+ "_*.pkl"] (fs w) = [] ->
   create_model_version glob_glob name metadata w =
     (inl (HTTPException 500), w)) /\
  (forall data,
     fs w !! active_artifact name = Some (File data) ->
     can_create name (active_artifact name) w data = true ->
     let stored :=
       match metadata with
       | Some (member :: members) => JDict (member :: members)
       | _ => default_metadata
       end in
     create_model_version glob_glob name metadata w =
       (inr (JDict [ ("status", JStr "success");
                     ("model_name", JStr name);
                     ("version_id", JStr (version_id_of (clock w (ticks w)) data));
                     ("created_by", JStr "asarekings");
                     ("timestamp", JStr (isoformat (clock w (S (S (ticks w)))))) ]),
        World (created_fs name (active_artifact name) stored w data)
              (clock w) (S (S (S (ticks w)))))).
Proof.
  split; [|split].
  - intros r w'. unfold create_model_version, try_except.
    match goal with
    | |- context [match ?body w with _ => _ end] =>
        destruct (body w) as [[e|x] w1]
    end; unfold raise_http; intros [= <- <-]; simpl; eauto.
  - intros Hnone Hg1 Hg2.
    unfold create_model_version, try_except. unfold and_then at 1.
    unfold call at 1. unfold os_path_exists at 1.
    rewrite bool_decide_eq_false_2
      by (unfold active_artifact in Hnone; rewrite Hnone; by intros [? ?]).
    cbn [negb]. unfold and_then, call, find_model_file, raise_http.
    cbn [fs]. by rewrite Hg1, Hg2.
  - intros data Hfile Hcan stored.
    unfold create_model_version, try_except. unfold and_then at 1.
    unfold call at 1. unfold os_path_exists at 1.
    rewrite bool_decide_eq_true_2
      by (unfold active_artifact in Hfile; by rewrite Hfile).
    cbn [negb]. unfold and_then at 1. unfold respond at 1.
    unfold and_then at 1. unfold call at 1.
    change ["models"; name +:+ "_model.pkl"] with (active_artifact name).
    rewrite (create_version_success name (active_artifact name) stored w data)
      by done.
    by unfold and_then, call, respond.
Qed.

End CreateEndpoint.

(** ** The two copies of [create_version] *)

Section TwoCopies.

Context `{JsonCodec}.



End TwoCopies.

(** ** What a failed [create_version] leaves behind *)






Lemma shutil_copy2_fails (src dst : path) (w w' : world) (e : exn) :
  shutil_copy2 src dst w = (inl e, w') -> w' = w.
Proof.
  unfold shutil_copy2.
  destruct (_ && _); [by intros [= _ <-]|].
  unfold bind, open_read, open_write, ret.
  destruct (fs w !! src) as [[data|]|]; try by intros [= _ <-].
  destruct (match fs w !! dst with Some Dir => dst ++ [basename src] | _ => dst end)
    as [|x q]; [by intros [= _ <-]|].
  destruct (fs w !! (x :: q)) as [[|]|];
    destruct (parent_node (fs w) (x :: q)) as [[|]|]; by intros [= <-].
Qed.

Lemma open_write_fails (q : path) (text : list byte) (w w' : world) (e : exn) :
  open_write q text w = (inl e, w') -> w' = w.
Proof.
  unfold open_write. destruct q as [|x q]; [by intros [= _ <-]|].
  destruct (fs w !! (x :: q)) as [[|]|];
    destruct (parent_node (fs w) (x :: q)) as [[|]|]; by intros [= <-].
Qed.

Lemma os_path_getsize_world (q : path) (w w' : world) (r : result Z) :
  os_path_getsize q w = (r, w') -> w' = w.
Proof.
  unfold os_path_getsize. destruct (fs w !! q) as [[|]|]; by intros [= _ <-].
Qed.

Section Failure.

Context `{JsonCodec}.


End Failure.

(** ** The health check *)

Lemma dirs_among_run (model_path : path) (names : list string) (w : world) :
  dirs_among model_path names w =
    (inr (List.filter (fun v => is_dir (fs w) (model_path ++ [v])) names), w).
Proof.
  induction names as [|v names IH]; [done|].
  simpl. unfold bind, os_path_isdir, ret. rewrite IH. unfold is_dir.
  by destruct (fs w !! (model_path ++ [v])) as [[|]|].
Qed.

Lemma count_versioned_run (names : list string) (n : Z) (w : world) :
  count_versioned names n w =
    (inr (n + Z.of_nat (list_sum
            (map (fun name => length (version_dirs (fs w) name))
                 (List.filter (fun name => is_dir (fs w) ["model_versions"; name])
                    names)))), w).
Proof.
  revert n. induction names as [|name names IH]; intros n.
  - simpl. unfold ret. do 2 f_equal. lia.
  - cbn [count_versioned List.filter]. unfold bind at 1.
    change (os_path_isdir ["model_versions"; name] w)
      with (@inr exn bool (is_dir (fs w) ["model_versions"; name]), w).
    destruct (is_dir (fs w) ["model_versions"; name]) eqn:Hd.
    + assert (fs w !! ["model_versions"; name] = Some Dir) as Hdir.
      { unfold is_dir in Hd. by destruct (fs w !! _) as [[|]|]. }
      unfold bind at 1. unfold bind at 1. unfold os_listdir. rewrite Hdir.
      unfold bind at 1. rewrite dirs_among_run. unfold ret at 1.
      rewrite IH. cbn [map list_sum]. unfold version_dirs at 2.
      cbn [app]. do 2 f_equal. unfold list_sum. cbn [fold_right]. lia.
    + unfold bind, ret. by rewrite IH.
Qed.

Lemma a_file_lookup (m : gmap path node) (p : path) :
  not_a_file m p = false -> exists data, m !! p = Some (File data).
Proof.
  unfold not_a_file. destruct (m !! p) as [[data|]|]; try done. by exists data.
Qed.

Lemma and_then_run {A B : Type} (m : Endpoint A) (f : A -> Endpoint B)
    (w w' : world) (x : A) :
  m w = (inr x, w') -> and_then m f w = f x w'.
Proof. unfold and_then. by intros ->. Qed.

Lemma and_then_fails {A B : Type} (m : Endpoint A) (f : A -> Endpoint B)
    (w w' : world) (e : raised) :
  m w = (inl e, w') -> and_then m f w = (inl e, w').
Proof. unfold and_then. by intros ->. Qed.

Lemma call_exists (p : path) (w : world) :
  call (os_path_exists p) w = (inr (bool_decide (is_Some (fs w !! p))), w).
Proof. done. Qed.

(** Counting the entries of a directory that may be missing. *)
Lemma count_entries_run (dir : path) (f : string -> bool) (w : world) :
  not_a_file (fs w) dir = true ->
  (if bool_decide (is_Some (fs w !! dir)) then
     let+ names := call (os_listdir dir) in
     respond (Z.of_nat (length (List.filter f names)))
   else respond 0) w =
  (inr (if is_dir (fs w) dir
        then Z.of_nat (length (List.filter f (dir_names (fs w) dir)))
        else 0), w).
Proof.
  unfold not_a_file, is_dir, and_then, call, os_listdir, respond.
  destruct (fs w !! dir) as [[|]|] eqn:E; [done| |].
  - intros _. rewrite bool_decide_eq_true_2 by eauto. by rewrite E.
  - intros _. rewrite bool_decide_eq_false_2; [done|]. by intros [? ?].
Qed.

Lemma count_entries_fails (dir : path) (f : string -> bool) (w : world)
    (data : list byte) :
  fs w !! dir = Some (File data) ->
  (if bool_decide (is_Some (fs w !! dir)) then
     let+ names := call (os_listdir dir) in
     respond (Z.of_nat (length (List.filter f names)))
   else respond 0) w =
  (inl (Python NotADirectoryError), w).
Proof.
  intros E. unfold and_then, call, os_listdir, respond.
  rewrite bool_decide_eq_true_2 by (by rewrite E). by rewrite E.
Qed.

Lemma count_versions_run (w : world) :
  not_a_file (fs w) ["model_versions"] = true ->
  (if bool_decide (is_Some (fs w !! ["model_versions"])) then
     let+ names := call (os_listdir ["model_versions"]) in
     call (count_versioned names 0)
   else respond 0) w =
  (inr (if is_dir (fs w) ["model_versions"]
        then count_version_dirs (fs w) else 0), w).
Proof.
  unfold not_a_file, is_dir, count_version_dirs, model_dirs, and_then, call,
    os_listdir, respond.
  destruct (fs w !! ["model_versions"]) as [[|]|] eqn:E; [done| |].
  - intros _. rewrite bool_decide_eq_true_2 by eauto.
    by rewrite E, count_versioned_run.
  - intros _. rewrite bool_decide_eq_false_2; [done|]. by intros [? ?].
Qed.

Lemma count_versions_fails (w : world) (data : list byte) :
  fs w !! ["model_versions"] = Some (File data) ->
  (if bool_decide (is_Some (fs w !! ["model_versions"])) then
     let+ names := call (os_listdir ["model_versions"]) in
     call (count_versioned names 0)
   else respond 0) w =
  (inl (Python NotADirectoryError), w).
Proof.
  intros E. unfold and_then, call, os_listdir, respond.
  rewrite bool_decide_eq_true_2 by (by rewrite E). by rewrite E.
Qed.

Section HealthProperties.

Variable REAL_ML_AVAILABLE : bool.
Variable python_version : string.
Variable str : raised -> string.

(** X19. [GET /health] never fails: whatever the directory tree holds, it
    answers with status 200. When none of [data], [models] and
    [model_versions] is a regular file the body says [healthy], and
    [versioned_models] is the number of version directories of all models,
    with or without a metadata file. When one of the three is a regular
    file, listing it raises, and the body says [error] with the text of
    that exception. *)
Theorem health_check_responses (w : world) :
  (forall r w',
     health_check REAL_ML_AVAILABLE python_version str w = (r, w') ->
     status_code r = 200) /\
  (not_a_file (fs w) ["data"] = true ->
   not_a_file (fs w) ["models"] = true ->
   not_a_file (fs w) ["model_versions"] = true ->
   exists body,
     health_check REAL_ML_AVAILABLE python_version str w = (inr body, tick w) /\
     py_getitem body "status" = inr (JStr "healthy") /\
     py_getitem body "data_status" =
       inr (JStr (if is_dir (fs w) ["data"] then "available" else "no_data")) /\
     py_getitem body "versioned_models" =
       inr (JInt (if is_dir (fs w) ["model_versions"]
                  then count_version_dirs (fs w) else 0)) /\
     py_getitem body "timestamp" = inr (JStr (isoformat (clock w (ticks w))))) /\
  (not_a_file (fs w) ["data"] && not_a_file (fs w) ["models"] &&
     not_a_file (fs w) ["model_versions"] = false ->
   health_check REAL_ML_AVAILABLE python_version str w =
     (inr (JDict [ ("status", JStr "error");
                   ("error", JStr (str (Python NotADirectoryError)));
                   ("author", JStr "asarekings") ]), w)).
Proof.
  split; [|split].
  - intros r w'. unfold health_check, try_except.
    match goal with
    | |- context [match ?body w with _ => _ end] =>
        destruct (body w) as [[e|x] w1]
    end; unfold respond; by intros [= <- <-].
  - intros Hdata Hmodels Hversions.
    unfold health_check, try_except.
    rewrite (and_then_run _ _ w w _ (call_exists ["data"] w)).
    rewrite (and_then_run _ _ w w _ (call_exists ["data"] w)).
    rewrite (and_then_run _ _ w w _ (count_entries_run ["data"] _ w Hdata)).
    rewrite (and_then_run _ _ w w _ (call_exists ["models"] w)).
    rewrite (and_then_run _ _ w w _ (count_entries_run ["models"] _ w Hmodels)).
    rewrite (and_then_run _ _ w w _ (call_exists ["model_versions"] w)).
    rewrite (and_then_run _ _ w w _ (count_versions_run w Hversions)).
    unfold and_then, call, utcnow, respond. eexists. split; [done|].
    repeat split; try done. simpl. do 2 f_equal.
    unfold not_a_file, is_dir in *.
    by destruct (fs w !! ["data"]) as [[|]|].
  - intros Hfile. unfold health_check, try_except.
    rewrite (and_then_run _ _ w w _ (call_exists ["data"] w)).
    rewrite (and_then_run _ _ w w _ (call_exists ["data"] w)).
    destruct (not_a_file (fs w) ["data"]) eqn:Hdata.
    2: { apply a_file_lookup in Hdata as [data Ed].
         by rewrite (and_then_fails _ _ w w _ (count_entries_fails ["data"] _ w data Ed)). }
    rewrite (and_then_run _ _ w w _ (count_entries_run ["data"] _ w Hdata)).
    rewrite (and_then_run _ _ w w _ (call_exists ["models"] w)).
    destruct (not_a_file (fs w) ["models"]) eqn:Hmodels.
    2: { apply a_file_lookup in Hmodels as [data Em].
         by rewrite (and_then_fails _ _ w w _ (count_entries_fails ["models"] _ w data Em)). }
    rewrite (and_then_run _ _ w w _ (count_entries_run ["models"] _ w Hmodels)).
    rewrite (and_then_run _ _ w w _ (call_exists ["model_versions"] w)).
    simpl in Hfile. apply a_file_lookup in Hfile as [data Ev].
    by rewrite (and_then_fails _ _ w w _ (count_versions_fails w data Ev)).
Qed.

End HealthProperties.

(** ** The samples *)

Lemma run_result {A : Type} (x : result A * world) (r : result A) :
  fst x = r -> x = (r, snd x).
Proof. destruct x as [r' w]. simpl. by intros ->. Defined.

Example sha256_empty : SHA256.hexdigest [] =
  "e3b0c44298fc1c149afbf4c8996fb92427ae41e4649b934ca495991b7852b855".
Proof. vm_compute. reflexivity. Qed.

Example sha256_abc : SHA256.hexdigest (bytes_of_string "abc") =
  "ba7816bf8f01cfea414140de5dae2223b00361a396177a9cb410ff61f20015ad".
Proof. vm_compute. reflexivity. Qed.

Example json_text_round_trip :
  JsonText.loads (JsonText.dumps sample_record) = inr sample_record.
Proof. vm_compute. reflexivity. Qed.

Example json_text_rejects :
  JsonText.loads (bytes_of_string "not json") = inl JSONDecodeError.
Proof. vm_compute. reflexivity. Qed.

Lemma sample_first : Sample.first = (inr Sample.v, snd Sample.first).
Proof. apply run_result. vm_compute. reflexivity. Defined.








Lemma list_versions_corrupt_metadata_witness :
  exists e,
    list_versions (H := JsonText.codec) "demo" Sample.corrupt = (inl e, Sample.corrupt) /\
    get_latest_version (H := JsonText.codec) "demo" Sample.corrupt =
      (inl e, Sample.corrupt).
Proof.
  apply (list_versions_corrupt_metadata (H := JsonText.codec) "demo" "v1"
           (bytes_of_string "not json") Sample.corrupt).
  all: vm_compute; reflexivity.
Defined.

(** The version id [..] names the versions root, which exists: the call
    removes the versions of every model, also those of another model, and
    raises. A version id [.] empties the directory of the model and raises
    too. *)
Lemma delete_version_parent_directory :
  fst (os_path_exists_joined [versions_dir; "demo"; ".."] Scenario.shared) =
    inr true /\
  fst Scenario.emptied = inl FileNotFoundError /\
  length (dir_names (fs Scenario.shared) [versions_dir; "other"]) = 1%nat /\
  dir_names (fs (snd Scenario.emptied)) [versions_dir] = [] /\
  fst (list_versions (H := JsonText.codec) "other" (snd Scenario.emptied)) =
    inr [] /\
  fst (delete_version "demo" "." Scenario.shared) = inl OSError /\
  dir_names (fs (snd (delete_version "demo" "." Scenario.shared)))
    [versions_dir; "demo"] = [].
Proof. repeat split; by vm_compute. Qed.

Lemma delete_version_then_list_witness :
  delete_version "demo" "nonexistent" Sample.history =
    (inr false, Sample.history) /\
  fst Sample.after_delete = inr true /\
  fst Sample.listing = inr Sample.remaining /\
  (forall record,
     record ∈ Sample.remaining ->
     py_getitem record "version" <> inr (JStr Sample.newer)).
Proof.
  split; [|split; [by vm_compute|]; split; [by vm_compute|]].
  - apply (proj2 (proj1 (delete_version_then_list (H := JsonText.codec)
                           "demo" "nonexistent" Sample.history)
                    eq_refl eq_refl)).
    vm_compute. reflexivity.
  - apply (proj2 (delete_version_then_list (H := JsonText.codec)
                    "demo" Sample.newer Sample.history)
             true (snd Sample.after_delete) Sample.remaining (snd Sample.listing)).
    + vm_compute. reflexivity.
    + apply (run_result Sample.after_delete). vm_compute. reflexivity.
    + apply (run_result Sample.listing). vm_compute. reflexivity.
Defined.

Lemma create_version_id_format_witness :
  exists data,
    fs Sample.start !! ["models"; "demo_model.pkl"] = Some (File data) /\
    Sample.v = "v" +:+ strftime_compact (Sample.same_second 0) +:+ "_" +:+
               substring 0 8 (SHA256.hexdigest data) /\
    version_id_format Sample.v = true.
Proof.
  apply (create_version_id_format (H := JsonText.codec)
           "demo" ["models"; "demo_model.pkl"] (JDict [("note", JStr "first")])
           Sample.start (snd Sample.first) Sample.v).
  - exact sample_first.
  - vm_compute. reflexivity.
Defined.

Lemma create_version_id_matches_file_hash_witness :
  exists data record file_hash,
    fs Sample.start !! ["models"; "demo_model.pkl"] = Some (File data) /\
    fs (snd Sample.first) !! [versions_dir; "demo"; Sample.v; "metadata.json"] =
      Some (File (JsonText.dumps record)) /\
    py_getitem record "file_hash" = inr (JStr file_hash) /\
    file_hash = SHA256.hexdigest data /\
    String.length (str_suffix 8 Sample.v) = 8%nat /\
    str_suffix 8 Sample.v = substring 0 8 file_hash.
Proof.
  apply (create_version_id_matches_file_hash (H := JsonText.codec)
           "demo" ["models"; "demo_model.pkl"] (JDict [("note", JStr "first")])
           Sample.start (snd Sample.first) Sample.v).
  exact sample_first.
Defined.

(** A metadata file that is present need not hold a version record: an
    empty JSON object is falsy, so the comparison of the version with
    itself is the error dictionary, and a record without [file_hash]
    makes it raise [KeyError]. *)
Lemma compare_blank_metadata_with_itself :
  fs Scenario.blank !! [versions_dir; "demo"; "v1"; "metadata.json"] =
    Some (File (bytes_of_string "{}")) /\
  fst (get_version_comparison (H := JsonText.codec) "demo" "v1" "v1"
         Scenario.blank) =
    inr (JDict [("error", JStr "One or both versions not found")]) /\
  fs Scenario.blank !! [versions_dir; "demo"; "v2"; "metadata.json"] =
    Some (File (JsonText.dumps
                  (JDict [("created_at", JStr "2025-06-03T19:58:00")]))) /\
  fst (get_version_comparison (H := JsonText.codec) "demo" "v2" "v2"
         Scenario.blank) = inl KeyError.
Proof. repeat split; by vm_compute. Qed.

Lemma compare_version_with_itself_witness :
  exists result cmp,
    get_version_comparison (H := JsonText.codec) "demo" Sample.v Sample.v
      (snd Sample.first) = (inr result, snd Sample.first) /\
    py_getitem result "comparison" = inr cmp /\
    py_getitem cmp "same_hash" = inr (JBool true) /\
    py_getitem cmp "size_difference" = inr (JInt 0).
Proof.
  eapply (compare_version_with_itself (H := JsonText.codec) "demo" Sample.v).
  - vm_compute. reflexivity.
  - vm_compute. reflexivity.
  - vm_compute. reflexivity.
Defined.


(** ** The further properties on the samples *)

Lemma scenario_two : Scenario.two = (inr Sample.newer, snd Scenario.two).
Proof. apply run_result. vm_compute. reflexivity. Defined.

Lemma scenario_exported : Scenario.exported = (inr Sample.v, snd Scenario.exported).
Proof. apply run_result. vm_compute. reflexivity. Defined.

Lemma sample_after_delete :
  Sample.after_delete = (inr true, snd Sample.after_delete).
Proof. apply run_result. vm_compute. reflexivity. Defined.





Lemma get_version_comparison_swapped_witness :
  exists c12 c21 cmp12 cmp21 same diff later12 later21,
    get_version_comparison (H := JsonText.codec) "demo" Sample.older Sample.newer
      Sample.history = (inr c12, Sample.history) /\
    get_version_comparison (H := JsonText.codec) "demo" Sample.newer Sample.older
      Sample.history = (inr c21, Sample.history) /\
    py_getitem c12 "comparison" = inr cmp12 /\
    py_getitem c21 "comparison" = inr cmp21 /\
    py_getitem cmp12 "same_hash" = inr (JBool same) /\
    py_getitem cmp21 "same_hash" = inr (JBool same) /\
    py_getitem cmp12 "size_difference" = inr (JInt diff) /\
    py_getitem cmp21 "size_difference" = inr (JInt (- diff)) /\
    py_getitem cmp12 "time_difference" = inr (JBool later12) /\
    py_getitem cmp21 "time_difference" = inr (JBool later21) /\
    later12 =
      String.ltb (created_at_of (Scenario.record_of Sample.history Sample.older))
                 (created_at_of (Scenario.record_of Sample.history Sample.newer)) /\
    (later12 = true -> later21 = false).
Proof.
  eapply (get_version_comparison_swapped (H := JsonText.codec)
            "demo" Sample.older Sample.newer _ _
            (Scenario.record_of Sample.history Sample.older)
            (Scenario.record_of Sample.history Sample.newer)).
  all: vm_compute; reflexivity.
Defined.


Lemma create_then_rollback_other_extension_witness :
  rollback_to_version "demo" Sample.v (snd Scenario.exported) =
    (inr false, snd Scenario.exported) /\
  exists data,
    fs Scenario.exports !! ["exports"; "demo.onnx"] = Some (File data) /\
    ("demo.onnx" <> "metadata.json" ->
     fs (snd Scenario.exported) !! [versions_dir; "demo"; Sample.v; "demo.onnx"] =
       Some (File data)).
Proof.
  apply (create_then_rollback_other_extension (H := JsonText.codec)
           "demo" ["exports"; "demo.onnx"] (JDict [])
           Scenario.exports (snd Scenario.exported) Sample.v).
  - exact scenario_exported.
  - vm_compute. reflexivity.
  - vm_compute. reflexivity.
Defined.


Lemma delete_version_again_witness :
  delete_version "demo" Sample.newer (snd Sample.after_delete) =
    (inr false, snd Sample.after_delete) /\
  rollback_to_version "demo" Sample.newer (snd Sample.after_delete) =
    (inl ValueError, snd Sample.after_delete).
Proof.
  apply (delete_version_again "demo" Sample.newer Sample.history
           (snd Sample.after_delete) true).
  - vm_compute. reflexivity.
  - exact sample_after_delete.
Defined.


Lemma create_then_latest_witness :
  exists latest,
    get_latest_version (H := JsonText.codec) "demo" (snd Scenario.two) =
      (inr (Some latest), snd Scenario.two) /\
    py_getitem latest "version" = inr (JStr Sample.newer) /\
    py_getitem latest "created_at" =
      inr (JStr (isoformat (clock Scenario.one (S (ticks Scenario.one))))).
Proof.
  apply (create_then_latest (H := JsonText.codec)
           "demo" ["backup"; "b.pkl"] (JDict [])
           Scenario.one (snd Scenario.two) Sample.newer).
  - exact scenario_two.
  - vm_compute. reflexivity.
  - vm_compute. reflexivity.
  - intros data Hdata. vm_compute in Hdata. injection Hdata as <-.
    vm_compute. reflexivity.
  - vm_compute. reflexivity.
Defined.

Lemma list_model_versions_responses_witness :
  list_model_versions (H := JsonText.codec) "unknown" Sample.start =
    (inr (JDict [ ("model_name", JStr "unknown");
                  ("total_versions", JInt 0);
                  ("versions", JList []);
                  ("author", JStr "asarekings");
                  ("timestamp",
                   JStr (isoformat (clock Sample.start (ticks Sample.start)))) ]),
     tick Sample.start) /\
  list_model_versions (H := JsonText.codec) "demo" Sample.corrupt =
    (inl (HTTPException 404), Sample.corrupt).
Proof.
  split.
  - apply (proj1 (list_model_versions_responses (H := JsonText.codec)
                    "unknown" Sample.start)).
    vm_compute. reflexivity.
  - apply (proj2 (proj2 (list_model_versions_responses (H := JsonText.codec)
                           "demo" Sample.corrupt))
             "v1" (bytes_of_string "not json")).
    all: vm_compute; reflexivity.
Defined.


Lemma delete_model_version_responses_witness :
  delete_model_version "demo" "nonexistent" Sample.history =
    (inl (HTTPException 500), Sample.history) /\
  (exists body w',
     delete_model_version "demo" Sample.newer Sample.history = (inr body, w') /\
     py_getitem body "deleted_version" = inr (JStr Sample.newer) /\
     (forall q, fs w' !! ([versions_dir; "demo"; Sample.newer] ++ q) = None) /\
     (forall p, is_under [versions_dir; "demo"; Sample.newer] p = false ->
        fs w' !! p = fs Sample.history !! p)) /\
  exists w',
    delete_model_version "demo" ".." Scenario.shared =
      (inl (HTTPException 500), w') /\
    (forall n q, fs w' !! (versions_dir :: n :: q) = None) /\
    (forall p, is_under [versions_dir] p = false ->
       fs w' !! p = fs Scenario.shared !! p).
Proof.
  split; [|split].
  - apply (proj1 (proj1 (proj2 (delete_model_version_responses
                                  "demo" "nonexistent" Sample.history))
                    eq_refl eq_refl)).
    vm_compute. reflexivity.
  - apply (proj2 (proj1 (proj2 (delete_model_version_responses
                                  "demo" Sample.newer Sample.history))
                    eq_refl eq_refl)).
    vm_compute. reflexivity.
  - apply (proj2 (proj2 (delete_model_version_responses
                           "demo" "x" Scenario.shared))).
    + vm_compute. reflexivity.
    + vm_compute. reflexivity.
Defined.

Lemma list_all_versioned_models_responses_witness :
  exists body models,
    list_all_versioned_models (H := JsonText.codec) Sample.history =
      (inr body, tick Sample.history) /\
    py_getitem body "versioned_models" = inr (JDict models) /\
    py_getitem body "total_models" = inr (py_len (model_dirs (fs Sample.history))) /\
    (forall name entry,
       assoc name models = Some entry <->
       name ∈ model_dirs (fs Sample.history) /\
       exists records,
         list_versions (H := JsonText.codec) name Sample.history =
           (inr records, Sample.history) /\
         entry = model_entry records).
Proof.
  apply (proj1 (proj2 (list_all_versioned_models_responses (H := JsonText.codec)
                         Sample.history))).
  - vm_compute. reflexivity.
  - vm_compute. reflexivity.
Defined.

Lemma create_model_version_responses_witness :
  create_model_version (H := JsonText.codec) Scenario.no_match "ghost" None
    Sample.start = (inl (HTTPException 500), Sample.start) /\
  create_model_version (H := JsonText.codec) Scenario.no_match "demo" (Some [])
    Sample.start =
    (inr (JDict [ ("status", JStr "success");
                  ("model_name", JStr "demo");
                  ("version_id",
                   JStr (version_id_of (clock Sample.start (ticks Sample.start))
                           (bytes_of_string "X")));
                  ("created_by", JStr "asarekings");
                  ("timestamp",
                   JStr (isoformat (clock Sample.start
                                      (S (S (ticks Sample.start)))))) ]),
     World (created_fs (H := JsonText.codec) "demo" (active_artifact "demo")
              default_metadata Sample.start (bytes_of_string "X"))
           (clock Sample.start) (S (S (S (ticks Sample.start))))).
Proof.
  split.
  - apply (proj1 (proj2 (create_model_version_responses (H := JsonText.codec)
                           Scenario.no_match "ghost" None Sample.start))).
    all: vm_compute; reflexivity.
  - apply (proj2 (proj2 (create_model_version_responses (H := JsonText.codec)
                           Scenario.no_match "demo" (Some []) Sample.start))
             (bytes_of_string "X")).
    all: vm_compute; reflexivity.
Defined.



Lemma health_check_responses_witness :
  (exists body,
     health_check true "3.11" Scenario.text_of Sample.history =
       (inr body, tick Sample.history) /\
     py_getitem body "status" = inr (JStr "healthy") /\
     py_getitem body "data_status" =
       inr (JStr (if is_dir (fs Sample.history) ["data"]
                  then "available" else "no_data")) /\
     py_getitem body "versioned_models" =
       inr (JInt (if is_dir (fs Sample.history) ["model_versions"]
                  then count_version_dirs (fs Sample.history) else 0)) /\
     py_getitem body "timestamp" =
       inr (JStr (isoformat (clock Sample.history (ticks Sample.history))))) /\
  health_check true "3.11" Scenario.text_of
    (World (<[ ["data"] := File [] ]> (fs Sample.history))
           Sample.ticking 4) =
    (inr (JDict [ ("status", JStr "error");
                  ("error", JStr (Scenario.text_of (Python NotADirectoryError)));
                  ("author", JStr "asarekings") ]),
     World (<[ ["data"] := File [] ]> (fs Sample.history)) Sample.ticking 4).
Proof.
  split.
  - apply (proj1 (proj2 (health_check_responses true "3.11" Scenario.text_of
                           Sample.history))).
    all: vm_compute; reflexivity.
  - apply (proj2 (proj2 (health_check_responses true "3.11" Scenario.text_of
                           (World (<[ ["data"] := File [] ]> (fs Sample.history))
                                  Sample.ticking 4)))).
    vm_compute. reflexivity.
Defined.
